(** * dnt: shim resolution, package manifest and generated test harness

    A shallow embedding of [lib/shims.ts] and of the parts of the build
    entry module that create [package.json] and the [test_runner.js]
    harness, together with the properties the specification states about
    them.

    - [Shims]: [shimOptionsToTransformShims] and the shim descriptors.
    - [Js]: the JavaScript values, object property order, spread and
      [JSON.stringify] that [createPackageJson] relies on.
    - [PackageJson]: [createPackageJson].
    - [Harness]: the runtime emitted by [getRunTestDefinitionsCode] and the
      [main] loop emitted by [createTestLauncherScript]. *)

From Stdlib Require Import List Bool Arith ZArith NArith Lia.
From Stdlib Require Import Strings.String Strings.Ascii Numbers.DecimalString.
Import ListNotations.

Set Warnings "-register-all".

Local Open Scope string_scope.
Local Open Scope list_scope.

(* ================================================================== *)
(** * lib/shims.ts *)
(* ================================================================== *)

Module Shims.

(** Modelled from the spec: [GlobalName] and [Shim] are declared in
    transform.ts, which is not among the sources; the spec gives a
    descriptor a package name, a version constraint and a list of global
    names with a type-only mark, and the object literals of this file
    give the spelling: a global name is a plain string or
    [{ name, typeOnly }], and a package has a [name] and an optional
    [version]. *)
Inductive GlobalName : Type :=
| GlobalString (name : string)
| GlobalObject (name : string) (typeOnly : bool).

Record Package : Type := mkPackage {
  pkg_name : string;
  pkg_version : option string
}.

Record Shim : Type := mkShim {
  package : Package;
  globalNames : list GlobalName
}.

(** [ShimValue = boolean | "dev"]. *)
Inductive ShimValue : Type :=
| ShimBool (b : bool)
| ShimDev.

(** The [deno] option: a [ShimValue] or the object form [{ test }]. *)
Inductive DenoOption : Type :=
| DenoValue (v : ShimValue)
| DenoObject (test : ShimValue).

(** [ShimOptions]; [None] is an absent (undefined) property. *)
Record ShimOptions : Type := mkShimOptions {
  deno : option DenoOption;
  timers : option ShimValue;
  prompts : option ShimValue;
  blob : option ShimValue;
  crypto : option ShimValue;
  undici : option ShimValue;
  custom : option (list Shim);
  customDev : option (list Shim)
}.

Definition typeOnly (name : string) : GlobalName := GlobalObject name true.

Definition getDenoShim : Shim :=
  mkShim (mkPackage "@deno/shim-deno" (Some "~0.1.1")) [GlobalString "Deno"].

Definition getDenoTestShim : Shim :=
  mkShim (mkPackage "@deno/shim-deno-test" (Some "~0.2.0"))
         [GlobalString "Deno"].

Definition getCryptoShim : Shim :=
  mkShim (mkPackage "@deno/shim-crypto" (Some "~0.2.0"))
    [ GlobalString "crypto";
      typeOnly "Crypto";
      typeOnly "SubtleCrypto";
      typeOnly "AlgorithmIdentifier";
      typeOnly "Algorithm";
      typeOnly "RsaOaepParams";
      typeOnly "BufferSource";
      typeOnly "AesCtrParams";
      typeOnly "AesCbcParams";
      typeOnly "AesGcmParams";
      typeOnly "CryptoKey";
      typeOnly "KeyAlgorithm";
      typeOnly "KeyType";
      typeOnly "KeyUsage";
      typeOnly "EcdhKeyDeriveParams";
      typeOnly "HkdfParams";
      typeOnly "HashAlgorithmIdentifier";
      typeOnly "Pbkdf2Params";
      typeOnly "AesDerivedKeyParams";
      typeOnly "HmacImportParams";
      typeOnly "JsonWebKey";
      typeOnly "RsaOtherPrimesInfo";
      typeOnly "KeyFormat";
      typeOnly "RsaHashedKeyGenParams";
      typeOnly "RsaKeyGenParams";
      typeOnly "BigInteger";
      typeOnly "EcKeyGenParams";
      typeOnly "NamedCurve";
      typeOnly "CryptoKeyPair";
      typeOnly "AesKeyGenParams";
      typeOnly "HmacKeyGenParams";
      typeOnly "RsaHashedImportParams";
      typeOnly "EcKeyImportParams";
      typeOnly "AesKeyAlgorithm";
      typeOnly "RsaPssParams";
      typeOnly "EcdsaParams" ].

Definition getBlobShim : Shim :=
  mkShim (mkPackage "buffer" None) [GlobalString "Blob"].

Definition getPromptsShim : Shim :=
  mkShim (mkPackage "@deno/shim-prompts" (Some "~0.1.0"))
         [GlobalString "alert"; GlobalString "confirm"; GlobalString "prompt"].

Definition getTimersShim : Shim :=
  mkShim (mkPackage "@deno/shim-timers" (Some "~0.1.0"))
         [GlobalString "setInterval"; GlobalString "setTimeout"].

Definition getUndiciShim : Shim :=
  mkShim (mkPackage "undici" (Some "^4.12.1"))
         [ GlobalString "fetch"; GlobalString "File"; GlobalString "FormData";
           GlobalString "Headers"; GlobalString "Request";
           GlobalString "Response" ].

(** The two arrays the function fills, threaded as a state. *)
Record ShimLists : Type := mkShimLists {
  shims : list Shim;
  testShims : list Shim
}.

(** The inner function [add]: [true] pushes to both arrays, ["dev"] to
    [testShims] only, [false] and [undefined] push nothing. *)
Definition add (option : option ShimValue) (getShim : Shim) (st : ShimLists)
  : ShimLists :=
  match option with
  | Some (ShimBool true) =>
      mkShimLists (shims st ++ [getShim]) (testShims st ++ [getShim])
  | Some ShimDev =>
      mkShimLists (shims st) (testShims st ++ [getShim])
  | Some (ShimBool false) | None => st
  end.

Definition addDeno (d : option DenoOption) (st : ShimLists) : ShimLists :=
  match d with
  | Some (DenoObject test) => add (Some test) getDenoTestShim st
  | Some (DenoValue v) => add (Some v) getDenoShim st
  | None => add None getDenoShim st
  end.

Definition pushCustom (c : option (list Shim)) (st : ShimLists) : ShimLists :=
  match c with
  | Some l => mkShimLists (shims st ++ l) (testShims st ++ l)
  | None => st
  end.

Definition pushCustomDev (c : option (list Shim)) (st : ShimLists)
  : ShimLists :=
  match c with
  | Some l => mkShimLists (shims st) (testShims st ++ l)
  | None => st
  end.

Definition shimOptionsToTransformShims (options : ShimOptions) : ShimLists :=
  let st := mkShimLists [] [] in
  let st := addDeno (deno options) st in
  let st := add (blob options) getBlobShim st in
  let st := add (crypto options) getCryptoShim st in
  let st := add (prompts options) getPromptsShim st in
  let st := add (timers options) getTimersShim st in
  let st := add (undici options) getUndiciShim st in
  let st := pushCustom (custom options) st in
  let st := pushCustomDev (customDev options) st in
  st.

(** ** Decidable equality of descriptors *)

Definition GlobalName_eq_dec (a b : GlobalName) : {a = b} + {a <> b}.
Proof. decide equality; auto using string_dec, bool_dec. Defined.

Definition Package_eq_dec (a b : Package) : {a = b} + {a <> b}.
Proof.
  decide equality.
  - decide equality. apply string_dec.
  - apply string_dec.
Defined.

Definition Shim_eq_dec (a b : Shim) : {a = b} + {a <> b}.
Proof.
  decide equality.
  - apply (list_eq_dec GlobalName_eq_dec).
  - apply Package_eq_dec.
Defined.

Arguments Shim_eq_dec : simpl never.

(** ** The six capabilities and the rule each one is resolved by *)

Inductive Capability : Type :=
| CapDeno | CapBlob | CapCrypto | CapPrompts | CapTimers | CapUndici.

Definition descriptor (c : Capability) : Shim :=
  match c with
  | CapDeno => getDenoShim
  | CapBlob => getBlobShim
  | CapCrypto => getCryptoShim
  | CapPrompts => getPromptsShim
  | CapTimers => getTimersShim
  | CapUndici => getUndiciShim
  end.

(** What the configuration says for a capability. *)
Inductive Setting : Type :=
| SetAbsent
| SetValue (v : ShimValue)
| SetObject (test : ShimValue).

Definition ofValue (o : option ShimValue) : Setting :=
  match o with
  | Some v => SetValue v
  | None => SetAbsent
  end.

Definition setting (options : ShimOptions) (c : Capability) : Setting :=
  match c with
  | CapDeno =>
      match deno options with
      | Some (DenoValue v) => SetValue v
      | Some (DenoObject t) => SetObject t
      | None => SetAbsent
      end
  | CapBlob => ofValue (blob options)
  | CapCrypto => ofValue (crypto options)
  | CapPrompts => ofValue (prompts options)
  | CapTimers => ofValue (timers options)
  | CapUndici => ofValue (undici options)
  end.

Definition customOf (c : option (list Shim)) : list Shim :=
  match c with
  | Some l => l
  | None => []
  end.

(** The configuration with the [deno] property removed. *)
Definition withoutDeno (o : ShimOptions) : ShimOptions :=
  mkShimOptions None (timers o) (prompts o) (blob o) (crypto o) (undici o)
                (custom o) (customDev o).

(** What one call of [add] contributes to each array. *)
Definition distPart (o : option ShimValue) (s : Shim) : list Shim :=
  match o with
  | Some (ShimBool true) => [s]
  | _ => []
  end.

Definition testPart (o : option ShimValue) (s : Shim) : list Shim :=
  match o with
  | Some (ShimBool true) | Some ShimDev => [s]
  | _ => []
  end.

Definition denoDist (d : option DenoOption) : list Shim :=
  match d with
  | Some (DenoObject t) => distPart (Some t) getDenoTestShim
  | Some (DenoValue v) => distPart (Some v) getDenoShim
  | None => []
  end.

Definition denoTest (d : option DenoOption) : list Shim :=
  match d with
  | Some (DenoObject t) => testPart (Some t) getDenoTestShim
  | Some (DenoValue v) => testPart (Some v) getDenoShim
  | None => []
  end.

(** How many entries one call of [add] pushes to each array. *)
Definition distCount (o : option ShimValue) : nat :=
  match o with
  | Some (ShimBool true) => 1
  | _ => 0
  end.

Definition testCount (o : option ShimValue) : nat :=
  match o with
  | Some (ShimBool true) | Some ShimDev => 1
  | _ => 0
  end.

(** The value the namespace rule is applied with, for each of its two
    descriptors. *)
Definition denoValueOf (d : option DenoOption) : option ShimValue :=
  match d with
  | Some (DenoValue v) => Some v
  | _ => None
  end.

Definition denoObjectOf (d : option DenoOption) : option ShimValue :=
  match d with
  | Some (DenoObject t) => Some t
  | _ => None
  end.

(** ** Sample configurations *)

(** [{ timers: true, custom: [<the timers descriptor>] }] *)
Definition timersTwice : ShimOptions :=
  mkShimOptions None (Some (ShimBool true)) None None None None
                (Some [getTimersShim]) None.

(** [{ timers: true }] *)
Definition timersOnly : ShimOptions :=
  mkShimOptions None (Some (ShimBool true)) None None None None None None.

(** [{ deno: { test: true } }] *)
Definition denoTestTrue : ShimOptions :=
  mkShimOptions (Some (DenoObject (ShimBool true))) None None None None None
                None None.

(** ** Order and provenance of the entries *)

(** [l1] is [l2] with some entries left out, the others in their order. *)
Inductive Subsequence {A : Type} : list A -> list A -> Prop :=
| SubNil : Subsequence [] []
| SubKeep (x : A) (l1 l2 : list A) :
    Subsequence l1 l2 -> Subsequence (x :: l1) (x :: l2)
| SubSkip (x : A) (l1 l2 : list A) :
    Subsequence l1 l2 -> Subsequence l1 (x :: l2).

(** The descriptors the capability rules can push. *)
Definition builtins : list Shim :=
  [ getDenoShim; getDenoTestShim; getBlobShim; getCryptoShim;
    getPromptsShim; getTimersShim; getUndiciShim ].

Definition packageName (s : Shim) : string := pkg_name (package s).

(** Whether an option value is [true]. *)
Definition isTrue (o : option ShimValue) : bool :=
  match o with
  | Some (ShimBool true) => true
  | _ => false
  end.

(** Whether some rule is applied with the value [true]: one of the five
    plain options, [deno], or the [test] of the object form of [deno]. *)
Definition anyTrue (o : ShimOptions) : bool :=
  match deno o with
  | Some (DenoValue v) | Some (DenoObject v) => isTrue (Some v)
  | None => false
  end
  || isTrue (blob o) || isTrue (crypto o) || isTrue (prompts o)
  || isTrue (timers o) || isTrue (undici o).

(** [{ deno: "dev", timers: "dev", custom: [<the undici descriptor>] }] *)
Definition devOnly : ShimOptions :=
  mkShimOptions (Some (DenoValue ShimDev)) (Some ShimDev) None None None None
                (Some [getUndiciShim]) None.

(** [{ deno: true, blob: "dev", undici: true }] *)
Definition mixed : ShimOptions :=
  mkShimOptions (Some (DenoValue (ShimBool true))) None None (Some ShimDev)
                None (Some (ShimBool true)) None None.

End Shims.

(* ================================================================== *)
(** * JavaScript values, objects and JSON text *)
(* ================================================================== *)

Module Js.

Definition nl : string := String (ascii_of_nat 10) EmptyString.
Definition cr : string := String (ascii_of_nat 13) EmptyString.
Definition dquote : string := String (ascii_of_nat 34) EmptyString.
Definition backslash : string := String (ascii_of_nat 92) EmptyString.

(** ** Objects: own string-keyed properties in enumeration order

    An object is the list of its own enumerable properties in the order
    [Object.keys] gives them: array-index keys first, in ascending numeric
    order, then the other keys in the order they were created. *)

Definition digit_of (c : ascii) : option N :=
  let n := N_of_ascii c in
  if ((48 <=? n) && (n <=? 57))%N then Some (n - 48)%N else None.

Fixpoint parse_digits (s : string) (acc : N) : option N :=
  match s with
  | EmptyString => Some acc
  | String c r =>
      match digit_of c with
      | Some d => parse_digits r (acc * 10 + d)%N
      | None => None
      end
  end.

(** A key is an array index when it is the canonical decimal form of an
    integer between 0 and 2^32 - 2. *)
Definition array_index (s : string) : option N :=
  match s with
  | EmptyString => None
  | String c r =>
      if Ascii.eqb c "0"%char then
        match r with EmptyString => Some 0%N | _ => None end
      else
        match parse_digits s 0%N with
        | Some n => if (n <=? 4294967294)%N then Some n else None
        | None => None
        end
  end.

Section Objects.
Context {V : Type}.

Definition Obj : Type := list (string * V).

Fixpoint lookup (k : string) (o : Obj) : option V :=
  match o with
  | [] => None
  | (k', v) :: r => if String.eqb k' k then Some v else lookup k r
  end.

Definition hasKey (k : string) (o : Obj) : bool :=
  match lookup k o with Some _ => true | None => false end.

Definition keys (o : Obj) : list string := map fst o.

Definition values (o : Obj) : list V := map snd o.

(** [Array.prototype.includes] on an array of strings. *)
Definition includes (l : list string) (k : string) : bool :=
  existsb (String.eqb k) l.

Fixpoint replace (k : string) (v : V) (o : Obj) : Obj :=
  match o with
  | [] => []
  | (k', v') :: r =>
      if String.eqb k' k then (k', v) :: r else (k', v') :: replace k v r
  end.

(** Creating a property whose key is the array index [n]. *)
Fixpoint insert_index (n : N) (k : string) (v : V) (o : Obj) : Obj :=
  match o with
  | [] => [(k, v)]
  | (k', v') :: r =>
      match array_index k' with
      | Some m =>
          if (m <? n)%N then (k', v') :: insert_index n k v r
          else (k, v) :: (k', v') :: r
      | None => (k, v) :: (k', v') :: r
      end
  end.

(** [o[k] = v] on a plain object: an existing property keeps its place;
    a new one is created at the place its key gives it. *)
Definition set (k : string) (v : V) (o : Obj) : Obj :=
  if hasKey k o then replace k v o
  else
    match array_index k with
    | Some n => insert_index n k v o
    | None => o ++ [(k, v)]
    end.

(** Setting the given entries one after the other: what a spread
    [{ ...dst, ...src }] and [Object.fromEntries] do. *)
Definition assign (dst : Obj) (entries : list (string * V)) : Obj :=
  fold_left (fun acc kv => set (fst kv) (snd kv) acc) entries dst.

Definition fromEntries (entries : list (string * V)) : Obj :=
  assign [] entries.

(** The value the last entry with key [k] gives, if there is one. *)
Definition lastValue (k : string) (entries : list (string * V))
  : option V :=
  lookup k (rev entries).

(** The first defined value of a list of candidates. *)
Fixpoint firstOf (l : list (option V)) : option V :=
  match l with
  | [] => None
  | Some v :: _ => Some v
  | None :: r => firstOf r
  end.
End Objects.

Arguments Obj V : clear implicits.

(** ** Values *)

Inductive JsVal : Type :=
| JsUndefined
| JsNull
| JsBool (b : bool)
| JsNum (z : Z)
| JsStr (s : string)
| JsArr (items : list JsVal)
| JsObj (props : list (string * JsVal)).

(** [a ?? b] *)
Definition nullish (a b : JsVal) : JsVal :=
  match a with
  | JsUndefined | JsNull => b
  | _ => a
  end.

(** [o.k] for the keys used here, none of which is a property of a
    primitive, of an array or of [Object.prototype]. *)
Definition getProp (o : JsVal) (k : string) : JsVal :=
  match o with
  | JsObj props =>
      match lookup k props with Some v => v | None => JsUndefined end
  | _ => JsUndefined
  end.

(** [o?.[k]] *)
Definition getPropOpt (o : JsVal) (k : string) : JsVal :=
  match o with
  | JsUndefined | JsNull => JsUndefined
  | _ => getProp o k
  end.

Definition string_of_nat (n : nat) : string :=
  NilZero.string_of_uint (Nat.to_uint n).

Definition string_of_Z (z : Z) : string :=
  NilZero.string_of_int (Z.to_int z).

Fixpoint indexedFrom {A : Type} (i : nat) (l : list A)
  : list (string * A) :=
  match l with
  | [] => []
  | x :: r => (string_of_nat i, x) :: indexedFrom (S i) r
  end.

Fixpoint chars (s : string) : list string :=
  match s with
  | EmptyString => []
  | String c r => String c EmptyString :: chars r
  end.

(** The own enumerable properties a spread [...v] copies: those of an
    object, the elements of an array under their indices, the characters
    of a string under theirs (one per character of the Rocq string, which
    is the JavaScript behaviour on ASCII text), nothing for the other
    primitives. *)
Definition ownEntries (v : JsVal) : list (string * JsVal) :=
  match v with
  | JsObj props => props
  | JsArr items => indexedFrom 0 items
  | JsStr s => indexedFrom 0 (map JsStr (chars s))
  | _ => []
  end.

(** [{ ...dst, ...v }] *)
Definition spread (dst : Obj JsVal) (v : JsVal) : Obj JsVal :=
  assign dst (ownEntries v).

(** ** JSON.stringify(value, undefined, 2) *)

Local Open Scope string_scope.

Definition hexDigit (n : nat) : string :=
  String (ascii_of_nat (if Nat.ltb n 10 then 48 + n else 87 + n)) EmptyString.

Definition quoteChar (c : ascii) : string :=
  let n := nat_of_ascii c in
  if Nat.eqb n 34 then backslash ++ dquote
  else if Nat.eqb n 92 then backslash ++ backslash
  else if Nat.eqb n 8 then backslash ++ "b"
  else if Nat.eqb n 9 then backslash ++ "t"
  else if Nat.eqb n 10 then backslash ++ "n"
  else if Nat.eqb n 12 then backslash ++ "f"
  else if Nat.eqb n 13 then backslash ++ "r"
  else if Nat.ltb n 32 then
    backslash ++ "u00" ++ hexDigit (n / 16) ++ hexDigit (n mod 16)
  else String c EmptyString.

Fixpoint quoteBody (s : string) : string :=
  match s with
  | EmptyString => EmptyString
  | String c r => quoteChar c ++ quoteBody r
  end.

(** [QuoteJSONString] on well-formed text held as UTF-8 bytes. *)
Definition quote (s : string) : string := dquote ++ quoteBody s ++ dquote.

Definition gap : string := "  ".

(** ** Numbers

    [JsNum z] is the number the literal [z] denotes: the double nearest
    to [z], ties going to the even significand, and Infinity from
    [2^1024 - 2^970] on. *)

(** The double nearest to a natural number; [None] for Infinity. *)
Definition doubleOf (n : Z) : option Z :=
  if (n <? 2 ^ 53)%Z then Some n
  else
    let e := (Z.log2 n - 52)%Z in
    let q := Z.shiftr n e in
    let r := (n - Z.shiftl q e)%Z in
    let half := (2 ^ (e - 1))%Z in
    let m :=
      if (r <? half)%Z then q
      else if (half <? r)%Z then (q + 1)%Z
      else if Z.even q then q else (q + 1)%Z in
    let v := Z.shiftl m e in
    if (v <? 2 ^ 1024)%Z then Some v else None.

Definition denotes (c v : Z) : bool :=
  match doubleOf c with
  | Some x => (x =? v)%Z
  | None => false
  end.

(** The integer of fewest significant digits that denotes the double
    [v], the nearest to [v] when two have as few, the one whose last
    digit is even when both are as near: the digits Number::toString
    writes.  [i] is the number of digits of [v] still to try. *)
Fixpoint shortest (i : nat) (v : Z) : Z :=
  match i with
  | O => v
  | S j =>
      let p := (10 ^ Z.of_nat j)%Z in
      let below := (v / p * p)%Z in
      let above := (below + p)%Z in
      match denotes below v, denotes above v with
      | true, true =>
          if (v - below <? above - v)%Z then below
          else if (above - v <? v - below)%Z then above
          else if Z.even (below / p) then below else above
      | true, false => below
      | false, true => above
      | false, false => shortest j v
      end
  end.

Fixpoint dropZeros (digits : list ascii) : list ascii :=
  match digits with
  | c :: r => if Ascii.eqb c "0"%char then dropZeros r else digits
  | [] => []
  end.

(** [d.ddde+n], for an integer of at least 22 digits. *)
Definition exponential (c : Z) : string :=
  let digits := string_of_Z c in
  let n := String.length digits in
  let significant :=
    string_of_list_ascii
      (rev (dropZeros (rev (list_ascii_of_string digits)))) in
  match significant with
  | String d EmptyString => String d EmptyString
  | String d r => String d ("." ++ r)
  | EmptyString => EmptyString
  end ++ "e+" ++ string_of_nat (n - 1).

(** Number::toString of a finite double that is a natural number. *)
Definition naturalToString (v : Z) : string :=
  let c :=
    if (v <? 2 ^ 53)%Z then v
    else shortest (String.length (string_of_Z v)) v in
  if (c <? 10 ^ 21)%Z then string_of_Z c else exponential c.

(** What [JSON.stringify] writes for a number: [null] when it is not
    finite. *)
Definition numberText (z : Z) : string :=
  match doubleOf (Z.abs z) with
  | Some v =>
      if (z <? 0)%Z then "-" ++ naturalToString v else naturalToString v
  | None => "null"
  end.

(** [stringify ind v] is the text of [v] at indentation [ind]; [None]
    when [v] is [undefined], which an object omits and an array writes as
    [null]. *)
Fixpoint stringify (ind : string) (v : JsVal) : option string :=
  match v with
  | JsUndefined => None
  | JsNull => Some "null"
  | JsBool true => Some "true"
  | JsBool false => Some "false"
  | JsNum z => Some (numberText z)
  | JsStr s => Some (quote s)
  | JsArr items =>
      let stepback := ind in
      let ind := ind ++ gap in
      let partial :=
        (fix go (l : list JsVal) : list string :=
           match l with
           | [] => []
           | x :: r =>
               (ind ++ match stringify ind x with
                       | Some s => s
                       | None => "null"
                       end) :: go r
           end) items in
      match partial with
      | [] => Some "[]"
      | _ =>
          Some ("[" ++ nl ++ String.concat ("," ++ nl) partial
                    ++ nl ++ stepback ++ "]")
      end
  | JsObj props =>
      let stepback := ind in
      let ind := ind ++ gap in
      let partial :=
        (fix go (l : list (string * JsVal)) : list string :=
           match l with
           | [] => []
           | (k, x) :: r =>
               match stringify ind x with
               | Some s => (ind ++ quote k ++ ": " ++ s) :: go r
               | None => go r
               end
           end) props in
      match partial with
      | [] => Some "{}"
      | _ =>
          Some ("{" ++ nl ++ String.concat ("," ++ nl) partial
                    ++ nl ++ stepback ++ "}")
      end
  end.

Definition JSON_stringify (v : JsVal) : option string := stringify "" v.

End Js.

(* ================================================================== *)
(** * createPackageJson *)
(* ================================================================== *)

Module PackageJson.
Import Js.

Local Open Scope string_scope.

(** Modelled from the spec: [Dependency], [OutputFile] and
    [TransformOutput] are declared in transform.ts, which is not among the
    sources; the spec gives a dependency a name and a version constraint,
    an output file a relative path and a text, and a transform result its
    entry points, output files, dependencies, shim-usage flag and
    warnings.  The fields are named as the build reads them. *)
Record Dependency : Type := mkDependency {
  dep_name : string;
  dep_version : string
}.

Record OutputFile : Type := mkOutputFile {
  filePath : string;
  fileText : string
}.

Record TransformOutput : Type := mkTransformOutput {
  entryPoints : list string;
  shimUsed : bool;
  dependencies : list Dependency;
  files : list OutputFile;
  warnings : list string
}.

(** The interface [TestOutput] of the build. *)
Record TestOutput : Type := mkTestOutput {
  test_entryPoints : list string;
  test_shimUsed : bool;
  test_dependencies : list Dependency;
  test_files : list OutputFile
}.

Record ShimPackage : Type := mkShimPackage {
  shim_name : string;
  shim_version : string
}.

(** A value of [BuildOptions.mappings]. *)
Record Mapping : Type := mkMapping {
  map_name : string;
  map_version : option string
}.

(** The fields of [BuildOptions] that reach the manifest; [writeFile]
    tells whether the caller supplied a sink of their own.

    Modelled from the spec: the type [PackageJsonObject] of [package] is
    declared in lib/types.ts, which is not among the sources; the spec
    makes it a manifest template with [name], [version] and any
    additional user-supplied fields, so [package] is the user's object as
    written, with values of any JSON shape. *)
Record BuildOptions : Type := mkBuildOptions {
  outDir : string;
  shimPackage : option ShimPackage;
  mappings : option (Obj Mapping);
  package : Obj JsVal;
  writeFile : bool
}.

(** [s.replace(/\.ts$/, ext)], with the [i] flag when [ci] is set. *)
Definition isDotTs (ci : bool) (s : string) : bool :=
  match s with
  | String d (String t (String e EmptyString)) =>
      Ascii.eqb d "."%char
      && (Ascii.eqb t "t"%char || (ci && Ascii.eqb t "T"%char))
      && (Ascii.eqb e "s"%char || (ci && Ascii.eqb e "S"%char))
  | _ => false
  end.

Fixpoint replaceTs (ci : bool) (ext : string) (s : string) : string :=
  match s with
  | EmptyString => EmptyString
  | String c r => if isDotTs ci s then ext else String c (replaceTs ci ext r)
  end.

(** [options.shimPackage ?? { name: "deno.ns", version: "0.5.0" }] *)
Definition shimPackageOf (options : BuildOptions) : ShimPackage :=
  match shimPackage options with
  | Some p => p
  | None => mkShimPackage "deno.ns" "0.5.0"
  end.

(** A string is truthy when it is not empty. *)
Definition truthyVersion (m : Mapping) : option string :=
  match map_version m with
  | Some EmptyString | None => None
  | Some v => Some v
  end.

Definition field (o : Obj JsVal) (k : string) : JsVal :=
  getProp (JsObj o) k.

(** The operations of the file system the default sink performs, and the
    calls of a sink supplied by the caller. *)
Inductive FsOp : Type :=
| MkdirSync (dir : string)
| WriteTextFileSync (path text : string)
| UserWriteFile (path text : string).

Record BuildState : Type := mkBuildState {
  createdDirectories : list string;
  fsOps : list FsOp
}.

Section Build.
(** [path.join], [path.dirname] and [path.toFileUrl(..).toString()] of
    the standard library, and [String.prototype.toLowerCase]. *)
Variable path_join : string -> string -> string.
Variable path_dirname : string -> string.
Variable toFileUrl : string -> string.
Variable toLowerCase : string -> string.

Definition startsWith (s p : string) : bool := String.prefix p s.

(** The [specifierMappings] constant of [build]. *)
Definition specifierMappingsOf (options : BuildOptions)
  : option (Obj Mapping) :=
  match mappings options with
  | None => None
  | Some m =>
      Some (fromEntries
              (map (fun kv : string * Mapping =>
                      let key := fst kv in
                      let lowerCaseKey := toLowerCase key in
                      if negb (startsWith lowerCaseKey "http://")
                         && negb (startsWith lowerCaseKey "https://")
                      then (toFileUrl lowerCaseKey, snd kv)
                      else (key, snd kv))
                   m))
  end.

(** The [writeFile] constant of [build]. *)
Definition doWriteFile (options : BuildOptions) (path text : string)
           (st : BuildState) : BuildState :=
  if writeFile options then
    mkBuildState (createdDirectories st)
                 (fsOps st ++ [UserWriteFile path text])%list
  else
    let dir := path_dirname path in
    if includes (createdDirectories st) dir then
      mkBuildState (createdDirectories st)
                   (fsOps st ++ [WriteTextFileSync path text])%list
    else
      mkBuildState (createdDirectories st ++ [dir])%list
                   (fsOps st ++ [MkdirSync dir;
                                 WriteTextFileSync path text])%list.

Section CreatePackageJson.
(** What the closure [createPackageJson] captures. *)
Variable options : BuildOptions.
Variable transformOutput : TransformOutput.
Variable testOutput : option TestOutput.

Let pkg := package options.
Let shim := shimPackageOf options.
Let specifierMappings := specifierMappingsOf options.

Definition transformEntries : list (string * JsVal) :=
  map (fun d => (dep_name d, JsStr (dep_version d)))
      (dependencies transformOutput).

Definition mappingEntries (m : Obj Mapping) : list (string * JsVal) :=
  flat_map (fun v => match truthyVersion v with
                     | Some ver => [(map_name v, JsStr ver)]
                     | None => []
                     end)
           (values m).

(** [(specifierMappings && Object.fromEntries(..)) ?? {}] *)
Definition mappingDependencies : Obj JsVal :=
  match specifierMappings with
  | Some m => fromEntries (mappingEntries m)
  | None => []
  end.

Definition shimEntry (used : bool) : Obj JsVal :=
  if used then [(shim_name shim, JsStr (shim_version shim))] else [].

(** The [dependencies] constant. *)
Definition dependenciesObj : Obj JsVal :=
  let o := spread [] (JsObj (fromEntries transformEntries)) in
  let o := spread o (JsObj mappingDependencies) in
  let o := spread o (JsObj (shimEntry (shimUsed transformOutput))) in
  let o := spread o (nullish (field pkg "dependencies") (JsObj [])) in
  o.

Definition testEntries (t : TestOutput) : list (string * JsVal) :=
  map (fun d => (dep_name d, JsStr (dep_version d)))
      (test_dependencies t).

(** The [devDependencies] constant. *)
Definition devDependenciesVal : JsVal :=
  match testOutput with
  | Some t =>
      let o := spread [] (JsObj (fromEntries (testEntries t))) in
      let o :=
        spread o
          (JsObj (shimEntry
                    (test_shimUsed t
                     && negb (includes (keys dependenciesObj)
                                       (shim_name shim))))) in
      let o :=
        spread o (nullish (field pkg "devDependencies") (JsObj [])) in
      JsObj o
  | None => field pkg "devDependencies"
  end.

(** The [scripts] constant. *)
Definition scriptsVal : JsVal :=
  match testOutput with
  | Some _ =>
      let o := set "test" (JsStr "node test_runner.js") [] in
      let o := spread o (nullish (field pkg "scripts") (JsObj [])) in
      JsObj o
  | None => field pkg "scripts"
  end.

(** The user's [dependencies] and the shim entry, read by name, and the
    entries the builder makes of the mappings and of the transform's
    dependencies. *)
Definition userDependency (name : string) : option JsVal :=
  lastValue name
    (ownEntries (nullish (field pkg "dependencies") (JsObj []))).

Definition shimDependency (name : string) : option JsVal :=
  if shimUsed transformOutput && String.eqb (shim_name shim) name
  then Some (JsStr (shim_version shim)) else None.

Definition mappingDependency (name : string) : option JsVal :=
  match specifierMappings with
  | Some m => lastValue name (mappingEntries m)
  | None => None
  end.

Definition transformDependency (name : string) : option JsVal :=
  lastValue name transformEntries.

(** What the user's [devDependencies] holds. *)
Definition userDevEntries : list (string * JsVal) :=
  ownEntries (nullish (field pkg "devDependencies") (JsObj [])).

Section WithEntryPoint.
(** [transformOutput.entryPoints[0]] *)
Variable entryPoint : string.

Definition entryPointPath : string := replaceTs true ".js" entryPoint.
Definition entryPointDtsFilePath : string :=
  replaceTs true ".d.ts" entryPoint.

Definition typesVal : JsVal :=
  nullish (field pkg "types")
          (JsStr ("./types/" ++ entryPointDtsFilePath)).

(** The value of the ["."] property of [exports]. *)
Definition dotExport : Obj JsVal :=
  let o := set "import" (JsStr ("./esm/" ++ entryPointPath)) [] in
  let o := set "require" (JsStr ("./cjs/" ++ entryPointPath)) o in
  let o := set "types" typesVal o in
  let o :=
    spread o (nullish (getPropOpt (field pkg "exports") ".")
                      (JsObj [])) in
  o.

Definition exportsObj : Obj JsVal :=
  let o := spread [] (nullish (field pkg "exports") (JsObj [])) in
  let o := set "." (JsObj dotExport) o in
  o.

Definition packageJsonObjFor : Obj JsVal :=
  let o := spread [] (JsObj pkg) in
  let o := set "module"
               (nullish (field pkg "module")
                        (JsStr ("./esm/" ++ entryPointPath))) o in
  let o := set "main"
               (nullish (field pkg "main")
                        (JsStr ("./cjs/" ++ entryPointPath))) o in
  let o := set "types" typesVal o in
  let o := set "exports" (JsObj exportsObj) o in
  let o := set "scripts" scriptsVal o in
  let o := set "dependencies" (JsObj dependenciesObj) o in
  let o := set "devDependencies" devDependenciesVal o in
  o.
End WithEntryPoint.

(** [packageJsonObj]; [None] when there is no first entry point, where
    [undefined.replace] raises a TypeError. *)
Definition packageJsonObj : option (Obj JsVal) :=
  match entryPoints transformOutput with
  | entryPoint :: _ => Some (packageJsonObjFor entryPoint)
  | [] => None
  end.

(** The text handed to [writeFile]. *)
Definition packageJsonText : option string :=
  match packageJsonObj with
  | Some o => JSON_stringify (JsObj o)
  | None => None
  end.

Definition createPackageJson (st : BuildState) : option BuildState :=
  match packageJsonText with
  | Some text =>
      Some (doWriteFile options (path_join (outDir options) "package.json")
                        text st)
  | None => None
  end.
End CreatePackageJson.
End Build.

(** The text of the last write to [path]. *)
Fixpoint lastWrite (path : string) (ops : list FsOp) : option string :=
  match ops with
  | [] => None
  | op :: r =>
      match lastWrite path r with
      | Some t => Some t
      | None =>
          match op with
          | WriteTextFileSync p t | UserWriteFile p t =>
              if String.eqb p path then Some t else None
          | MkdirSync _ => None
          end
      end
  end.

(** ** Sample inputs *)

Definition sampleJoin (a b : string) : string := a ++ "/" ++ b.
Definition sampleDirname (p : string) : string := "npm".
Definition sampleFileUrl (p : string) : string := "file://" ++ p.
Definition sampleLowerCase (s : string) : string := s.

(** One entry point [mod.ts] that uses the shim and imports [chalk]. *)
Definition sampleTransform : TransformOutput :=
  mkTransformOutput ["mod.ts"] true [mkDependency "chalk" "4.1.2"] [] [].

(** A test file that uses the shim. *)
Definition sampleTest : TestOutput :=
  mkTestOutput ["mod_test.ts"] true []
               [mkOutputFile "mod_test.ts" "Deno.test(...)"].

(** A template that sets [exports["."].import] only. *)
Definition exportsTemplate : BuildOptions :=
  mkBuildOptions "npm" None None
    [ ("name", JsStr "pkg"); ("version", JsStr "1.0.0");
      ("exports", JsObj [(".", JsObj [("import", JsStr "./custom.mjs")])]) ]
    false.

(** A template that lists the shim package in [devDependencies]. *)
Definition devShimTemplate : BuildOptions :=
  mkBuildOptions "npm" None None
    [ ("name", JsStr "pkg"); ("version", JsStr "1.0.0");
      ("devDependencies", JsObj [("deno.ns", JsStr "0.4.0")]) ]
    false.

(** A template with a dependency of its own and four specifier
    mappings: two to the package [dep], one without a version and one
    with an empty version. *)
Definition mappedTemplate : BuildOptions :=
  mkBuildOptions "npm" None
    (Some [ ("/src/old.ts", mkMapping "dep" (Some "1.0.0"));
            ("/src/dep.ts", mkMapping "dep" (Some "1.2.3"));
            ("https://deno.land/x/y.ts", mkMapping "y" None);
            ("https://deno.land/x/z.ts", mkMapping "z" (Some "")) ])
    [ ("name", JsStr "pkg"); ("version", JsStr "1.0.0");
      ("dependencies", JsObj [("chalk", JsStr "5.0.0")]) ]
    false.

(** A transform result with three dependencies: one the template
    also has, one a mapping also gives, one of its own. *)
Definition mappedTransform : TransformOutput :=
  mkTransformOutput ["mod.ts"] true
    [ mkDependency "chalk" "4.1.2"; mkDependency "dep" "0.9.0";
      mkDependency "ky" "0.30.0" ]
    [] [].

Definition freshState : BuildState := mkBuildState [] [].

Definition laterState : BuildState :=
  mkBuildState ["npm"] [MkdirSync "npm"; WriteTextFileSync "npm/LICENSE" "MIT"].

(** A template with [name] and [version] only. *)
Definition plainTemplate : BuildOptions :=
  mkBuildOptions "npm" None None
    [ ("name", JsStr "pkg"); ("version", JsStr "1.0.0") ] false.

(** ** Reading the manifest and the sink *)

(** The version the last dependency named [name] has in a list of
    dependencies. *)
Fixpoint lastVersion (name : string) (l : list Dependency)
  : option string :=
  match l with
  | [] => None
  | d :: r =>
      match lastVersion name r with
      | Some v => Some v
      | None =>
          if String.eqb (dep_name d) name then Some (dep_version d) else None
      end
  end.

(** A mapping declares a version when it has one and that one is not
    the empty string. *)
Definition declaresVersion (m : Mapping) : bool :=
  match map_version m with
  | Some v => negb (String.eqb v "")
  | None => false
  end.

(** The version the last mapping to the package [name] that declares
    one gives. *)
Fixpoint lastDeclared (name : string) (l : list Mapping) : option string :=
  match l with
  | [] => None
  | m :: r =>
      match lastDeclared name r with
      | Some v => Some v
      | None =>
          if declaresVersion m && String.eqb (map_name m) name
          then map_version m else None
      end
  end.

(** The values of the specifier mappings, in the order of
    [Object.values]; none when there are no mappings. *)
Definition mappingValues (specifierMappings : option (Obj Mapping))
  : list Mapping :=
  match specifierMappings with
  | Some m => values m
  | None => []
  end.

(** The properties [createPackageJson] computes itself. *)
Definition computedKeys : list string :=
  [ "module"; "main"; "types"; "exports"; "scripts"; "dependencies";
    "devDependencies" ].

(** The shim entry of [devDependencies], read by name. *)
Definition shimDevDependency (toFileUrl toLowerCase : string -> string)
           (options : BuildOptions) (transformOutput : TransformOutput)
           (t : TestOutput) (name : string) : option JsVal :=
  if test_shimUsed t
     && negb (includes
                (keys (dependenciesObj toFileUrl toLowerCase options
                                       transformOutput))
                (shim_name (shimPackageOf options)))
     && String.eqb (shim_name (shimPackageOf options)) name
  then Some (JsStr (shim_version (shimPackageOf options))) else None.

(** The directories the operations create, in order. *)
Fixpoint mkdirs (ops : list FsOp) : list string :=
  match ops with
  | [] => []
  | MkdirSync d :: r => d :: mkdirs r
  | _ :: r => mkdirs r
  end.

(** Replaying operations from the directories [seen] so far: no
    directory is created twice, and [Deno.writeTextFileSync] only writes
    into a directory created before. *)
Fixpoint inOrder (path_dirname : string -> string) (seen : list string)
         (ops : list FsOp) : Prop :=
  match ops with
  | [] => True
  | MkdirSync d :: r =>
      ~ In d seen /\ inOrder path_dirname (d :: seen) r
  | WriteTextFileSync path _ :: r =>
      In (path_dirname path) seen /\ inOrder path_dirname seen r
  | UserWriteFile _ _ :: r => inOrder path_dirname seen r
  end.

(** What the default sink keeps true of its state: the operations are
    in order, and the directories it remembers are the ones it
    created. *)
Definition sinkInvariant (path_dirname : string -> string)
           (st : BuildState) : Prop :=
  inOrder path_dirname [] (fsOps st)
  /\ forall d, In d (createdDirectories st) <-> In d (mkdirs (fsOps st)).

(** A string ends with [.ts], in the given or in any case. *)
Definition endsWithTs (ci : bool) (s : string) : Prop :=
  exists stem ext, s = stem ++ ext /\ isDotTs ci ext = true.

(** A template with scripts of its own and a field the builder does not
    compute. *)
Definition scriptsTemplate : BuildOptions :=
  mkBuildOptions "npm" None None
    [ ("name", JsStr "pkg"); ("version", JsStr "1.0.0");
      ("license", JsStr "MIT");
      ("scripts", JsObj [("lint", JsStr "eslint ."); ("test", JsStr "jest")]) ]
    false.

(** A test result that uses the shim and needs a package of its own. *)
Definition shimTest : TestOutput :=
  mkTestOutput ["mod_test.ts"] true [mkDependency "sinon" "13.0.0"]
               [mkOutputFile "mod_test.ts" "Deno.test(...)"].

(** A transform result that does not use the shim. *)
Definition plainTransform : TransformOutput :=
  mkTransformOutput ["mod.ts"] false [mkDependency "chalk" "4.1.2"]
                    [mkOutputFile "mod.ts" "export {}"] [].

End PackageJson.

(* ================================================================== *)
(** * The generated test harness *)
(* ================================================================== *)

Module Harness.
Import Js.

Local Open Scope string_scope.

Inductive Status : Type := ok | pending | fail | ignored.

Definition statusText (s : Status) : string :=
  match s with
  | ok => "ok"
  | pending => "pending"
  | fail => "fail"
  | ignored => "ignored"
  end.

(** A thrown value: [undefined], [null], or any other value, of which the
    harness reads its truthiness and its [toString()]. *)
Inductive Thrown : Type :=
| ThrownUndefined
| ThrownNull
| ThrownValue (truthy : bool) (text : string).

(** [new Error(message)], whose [toString()] is the name alone when the
    message is empty. *)
Definition newError (message : string) : Thrown :=
  ThrownValue true
    match message with
    | EmptyString => "Error"
    | _ => "Error: " ++ message
    end.

(** The object [getTestContext] returns: [name], [status], [err] (absent
    until a step stores one) and [children]. *)
Inductive TestContext : Type :=
| mkContext (name : option string) (status : Status) (err : option Thrown)
            (children : list TestContext).

Definition name (c : TestContext) : option string :=
  match c with mkContext n _ _ _ => n end.
Definition status (c : TestContext) : Status :=
  match c with mkContext _ s _ _ => s end.
Definition err (c : TestContext) : option Thrown :=
  match c with mkContext _ _ e _ => e end.
Definition children (c : TestContext) : list TestContext :=
  match c with mkContext _ _ _ l => l end.

Definition getTestContext : TestContext := mkContext None ok None [].

(** The bodies of tests and steps: the functions that act on the
    harness through the context [t] they are given and through the
    queue.  A body returns, throws, or:
    - [AwaitStep d k]: [const r = await t.step(d)], then [k r];
    - [StartStep name ignored k]: [t.step({ name, ignored, fn })] without
      [await], for a function [fn] that, once called, stays suspended and
      has done nothing yet when the report of the test is written; then
      [k];
    - [Register d k]: pushes [d] to [testDefinitions], then [k].
    A call of [t.step] with arguments [getDefinition] rejects is a
    [Throw] of the body that awaits it.  A body that calls [step] on
    another context than its own, or starts a step that settles while
    the test still runs, is not of this type.

    Modelled from the spec: what pushes to [testDefinitions] is the
    shim package, which is not among the sources; the spec has a
    definition registered by a running test appended to the same
    queue. *)
Inductive Body : Type :=
| Return
| Throw (e : Thrown)
| AwaitStep (d : TestDefinition) (k : bool -> Body)
| StartStep (name : string) (ignored : bool) (k : Body)
| Register (d : TestDefinition) (k : Body)
with TestDefinition : Type :=
| mkDefinition (def_name : string) (def_ignored : bool) (fn : Body).

Definition def_name (d : TestDefinition) : string :=
  match d with mkDefinition n _ _ => n end.
Definition def_ignored (d : TestDefinition) : bool :=
  match d with mkDefinition _ i _ => i end.
Definition fn (d : TestDefinition) : Body :=
  match d with mkDefinition _ _ f => f end.

Inductive Outcome : Type :=
| Returned
| Threw (e : Thrown).

(** [get hasFailingChild()] *)
Definition failingStatus (s : Status) : bool :=
  match s with
  | fail | pending => true
  | ok | ignored => false
  end.

Definition hasFailingChild (children : list TestContext) : bool :=
  existsb (fun c => failingStatus (status c)) children.

(** ** Text *)

Definition stripCR (s : string) : string :=
  let n := String.length s in
  if String.eqb (substring (n - 1) 1 s) cr then substring 0 (n - 1) s else s.

(** [text.split(/\r?\n/)] *)
Fixpoint splitLines (s : string) (cur : string) : list string :=
  match s with
  | EmptyString => [cur]
  | String c r =>
      if Ascii.eqb c (ascii_of_nat 10) then stripCR cur :: splitLines r ""
      else splitLines r (cur ++ String c EmptyString)
  end.

Fixpoint repeat_string (s : string) (n : nat) : string :=
  match n with
  | O => ""
  | S m => s ++ repeat_string s m
  end.

(** [indentText] once its argument is a string. *)
Definition indentString (text : string) (indentLevel : nat) : string :=
  String.concat nl
    (map (fun line => repeat_string "  " indentLevel ++ line)
         (splitLines text "")).

Definition thrownText (e : Thrown) : string :=
  match e with
  | ThrownUndefined => "[undefined]"
  | ThrownNull => "[null]"
  | ThrownValue _ t => t
  end.

(** [indentText] applied to a thrown value. *)
Definition indentText (e : Thrown) (indentLevel : nat) : string :=
  indentString (thrownText e) indentLevel.

Definition truthyName (n : option string) : option string :=
  match n with
  | Some EmptyString | None => None
  | Some s => Some s
  end.

Definition truthyErr (e : option Thrown) : option string :=
  match e with
  | Some (ThrownValue true t) => Some t
  | _ => None
  end.

(** [getOutput()] *)
Fixpoint getOutput (c : TestContext) : string :=
  match c with
  | mkContext n s e ch =>
      let output := "" in
      let output :=
        match truthyName n with
        | Some nm => output ++ nm ++ " ..."
        | None => output
        end in
      let output :=
        match ch with
        | _ :: _ =>
            output ++ nl
              ++ String.concat nl
                   (map (fun c => indentString (getOutput c) 1) ch)
              ++ nl
        | [] =>
            match truthyErr e with
            | None => output ++ " "
            | Some _ => output
            end
        end in
      let output :=
        match truthyName n, truthyErr e with
        | Some _, Some _ => output ++ nl
        | _, _ => output
        end in
      let output :=
        match truthyErr e with
        | Some t =>
            let output := output ++ indentString t 1 in
            match truthyName n with
            | Some _ => output ++ nl
            | None => output
            end
        | None => output
        end in
      let output :=
        match truthyName n with
        | Some _ => output ++ statusText s
        | None => output
        end in
      output
  end.

(** ** Running bodies and steps

    [calls] is the list of the names of the definitions whose function
    has been invoked, in the order of the calls. *)

Fixpoint runBody (b : Body) (children : list TestContext)
         (calls : list string) {struct b}
  : Outcome * list TestContext * list string :=
  match b with
  | Return => (Returned, children, calls)
  | Throw e => (Threw e, children, calls)
  | AwaitStep d k =>
      let '(context, result, calls) := step d calls in
      runBody (k result) (children ++ [context])%list calls
  | StartStep nm ign k =>
      if ign then
        runBody k (children ++ [mkContext (Some nm) ignored None []])%list
                calls
      else
        runBody k (children ++ [mkContext (Some nm) pending None []])%list
                (calls ++ [nm])%list
  | Register _ k => runBody k children calls
  end

(** [step(nameOrTestDefinition, fn)], for the definition [getDefinition]
    returns: the context it pushed to [this.children], the value its
    promise resolves to, and the calls made. *)
with step (d : TestDefinition) (calls : list string) {struct d}
  : TestContext * bool * list string :=
  match d with
  | mkDefinition nm ign f =>
      if ign then (mkContext (Some nm) ignored None [], false, calls)
      else
        match runBody f [] (calls ++ [nm])%list with
        | (Returned, ch, calls) =>
            if hasFailingChild ch
            then (mkContext (Some nm) fail None ch, false, calls)
            else (mkContext (Some nm) ok None ch, true, calls)
        | (Threw e, ch, calls) =>
            (mkContext (Some nm) fail (Some e) ch, false, calls)
        end
  end.

(** The definitions a body pushes to [testDefinitions], in order: its
    own and those of the steps it awaits, of which it follows the
    results ([step] resolves to the same value from any call log). *)
Fixpoint registrations (b : Body) : list TestDefinition :=
  match b with
  | Return | Throw _ => []
  | AwaitStep d k =>
      (registeredBy d ++ registrations (k (snd (fst (step d [])))))%list
  | StartStep _ _ k => registrations k
  | Register d k => d :: registrations k
  end

(** The definitions pushed while a definition runs, as a test or as an
    awaited step. *)
with registeredBy (d : TestDefinition) : list TestDefinition :=
  match d with
  | mkDefinition _ ign f => if ign then [] else registrations f
  end.

(** ** runTestDefinitions *)

Record Failure : Type := mkFailure {
  failure_name : string;
  failure_err : Thrown
}.

(** What one pass of the loop over [currentDefinitions] works on. *)
Record Run : Type := mkRun {
  stdout : string;
  testFailures : list Failure;
  calls : list string
}.

Definition write (text : string) (r : Run) : Run :=
  mkRun (stdout r ++ text) (testFailures r) (calls r).

(** [console.log(text)] *)
Definition consoleLog (text : string) (r : Run) : Run := write (text ++ nl) r.

Definition pushFailure (f : Failure) (r : Run) : Run :=
  mkRun (stdout r) (testFailures r ++ [f])%list (calls r).

(** The body of the [for] loop of [runTestDefinitions]. *)
Definition runDefinition (definition : TestDefinition) (r : Run) : Run :=
  let r := write (def_name definition ++ " ...") r in
  if def_ignored definition then write (" ignored" ++ nl) r
  else
    let '(outcome, ch, cs) :=
      runBody (fn definition) [] (calls r ++ [def_name definition])%list in
    let r := mkRun (stdout r) (testFailures r) cs in
    let '(pass, r) :=
      match outcome with
      | Returned =>
          if hasFailingChild ch
          then (false,
                pushFailure (mkFailure (def_name definition)
                                       (newError "Had failing test step.")) r)
          else (true, r)
      | Threw e => (false, pushFailure (mkFailure (def_name definition) e) r)
      end in
    let testStepOutput := getOutput (mkContext None ok None ch) in
    let r :=
      if Nat.ltb 0 (String.length testStepOutput) then write testStepOutput r
      else write " " r in
    write (if pass then "ok" ++ nl else "fail" ++ nl) r.

Definition runAll (definitions : list TestDefinition) (r : Run) : Run :=
  fold_left (fun r d => runDefinition d r) definitions r.

Definition printFailure (r : Run) (failure : Failure) : Run :=
  let r := consoleLog (failure_name failure) r in
  let r := consoleLog (indentText (failure_err failure) 1) r in
  consoleLog "" r.

(** What [main] observes, in order. *)
Inductive Format : Type := CJS | ESM.

Inductive Event : Type :=
| Loaded (format : Format) (path : string)
| Drained (definitions : list string) (failures : nat).

(** The state of the harness process: the [testDefinitions] queue of the
    shim, the modules loaded so far (a module is evaluated once), the
    output, the calls of test functions and the events. *)
Record Process : Type := mkProcess {
  testDefinitions : list TestDefinition;
  loaded : list (Format * string);
  out : string;
  invoked : list string;
  events : list Event
}.

(** How [main] ends: its promise resolves and the process ends with code
    0, [process.exit(1)] is called, or its promise is rejected with what
    was thrown. *)
Inductive Exit : Type :=
| Finished
| Exited (code : nat)
| Rejected (e : Thrown).

(** [runTestDefinitions()]: the queue is emptied into
    [currentDefinitions], the definitions run, and a pass that recorded a
    failure prints the summary and exits.  What the tests pushed to the
    queue meanwhile stays in it. *)
Definition runTestDefinitions (p : Process) : Process * bool :=
  let currentDefinitions := testDefinitions p in
  let queue := flat_map registeredBy currentDefinitions in
  let r := runAll currentDefinitions (mkRun (out p) [] (invoked p)) in
  let failures := testFailures r in
  let ev :=
    (events p ++ [Drained (map def_name currentDefinitions)
                          (List.length failures)])%list in
  match failures with
  | [] => (mkProcess queue (loaded p) (stdout r) (calls r) ev, false)
  | _ :: _ =>
      let r := consoleLog (nl ++ "FAILURES" ++ nl) r in
      let r := fold_left printFailure failures r in
      (mkProcess queue (loaded p) (stdout r) (calls r) ev, true)
  end.

(** What evaluating a module does: it pushes its definitions to the
    queue and completes, or throws, at once when it cannot be found, or
    after it has pushed some definitions. *)
Inductive Evaluation : Type :=
| Completes (definitions : list TestDefinition)
| Raises (definitions : list TestDefinition) (e : Thrown).

Definition raised (m : Evaluation) : option Thrown :=
  match m with
  | Completes _ => None
  | Raises _ e => Some e
  end.

Definition pushed (m : Evaluation) : list TestDefinition :=
  match m with
  | Completes definitions | Raises definitions _ => definitions
  end.

(** The ReferenceError of a script that calls [runTestDefinitions] and
    does not define it. *)
Definition referenceError : Thrown :=
  ThrownValue true "ReferenceError: runTestDefinitions is not defined".

Definition Format_eqb (a b : Format) : bool :=
  match a, b with
  | CJS, CJS | ESM, ESM => true
  | _, _ => false
  end.

Definition isLoaded (f : Format) (path : string) (p : Process) : bool :=
  existsb (fun m => Format_eqb (fst m) f && String.eqb (snd m) path)
          (loaded p).

Section Main.
(** What evaluating each module does. *)
Variable modules : Format -> string -> Evaluation.

(** [require(path)] and [await import(path)]: a module is evaluated
    once, except that [require] evaluates again a module that threw;
    [import] rejects again with what the module threw.  The result is
    what the call throws or rejects with, if it does. *)
Definition load (f : Format) (path : string) (p : Process)
  : Process * option Thrown :=
  let ev := (events p ++ [Loaded f path])%list in
  let m := modules f path in
  if isLoaded f path p then
    (mkProcess (testDefinitions p) (loaded p) (out p) (invoked p) ev,
     raised m)
  else
    (mkProcess (testDefinitions p ++ pushed m)%list
               match raised m, f with
               | Some _, CJS => loaded p
               | _, _ => (loaded p ++ [(f, path)])%list
               end
               (out p) (invoked p) ev,
     raised m).

Definition log (text : string) (p : Process) : Process :=
  mkProcess (testDefinitions p) (loaded p) (out p ++ text ++ nl)
            (invoked p) (events p).

(** [await runTestDefinitions()] in the script: the function is only
    emitted when the test code used the shim. *)
Definition callRunTestDefinitions (shimUsed : bool) (p : Process)
  : Process * Exit :=
  if shimUsed then
    match runTestDefinitions p with
    | (p, true) => (p, Exited 1)
    | (p, false) => (p, Finished)
    end
  else (p, Rejected referenceError).

(** A load followed by [await runTestDefinitions()]. *)
Definition loadAndRun (shimUsed : bool) (f : Format) (path : string)
           (p : Process) : Process * Exit :=
  let p := log (nl ++ "Running tests in " ++ path ++ "..." ++ nl) p in
  match load f path p with
  | (p, Some e) => (p, Rejected e)
  | (p, None) => callRunTestDefinitions shimUsed p
  end.

(** [main()] over [filePaths]. *)
Fixpoint main (shimUsed : bool) (filePaths : list string) (p : Process)
  : Process * Exit :=
  match filePaths with
  | [] => (p, Finished)
  | filePath :: rest =>
      let cjsPath := "./cjs/" ++ filePath in
      match loadAndRun shimUsed CJS cjsPath p with
      | (p, Finished) =>
          let esmPath := "./esm/" ++ filePath in
          match loadAndRun shimUsed ESM esmPath p with
          | (p, Finished) => main shimUsed rest p
          | stop => stop
          end
      | stop => stop
      end
  end.
End Main.

(** The [filePaths] array [createTestLauncherScript] writes. *)
Definition filePathsOf (entryPoints : list string) : list string :=
  map (PackageJson.replaceTs false ".js") entryPoints.

Definition startProcess : Process := mkProcess [] [] "" [] [].










(** ** Sample tests *)

Definition passing : TestDefinition := mkDefinition "passes" false Return.

Definition throwing : TestDefinition :=
  mkDefinition "throws" false (Throw (newError "boom")).

(** A test that starts a step, does not await it, and returns. *)
Definition forgetful : TestDefinition :=
  mkDefinition "forgets" false (StartStep "slow" false Return).

(** An ignored test whose function would throw. *)
Definition skipped : TestDefinition :=
  mkDefinition "skipped" true (Throw (newError "never")).

(** [a.js] registers a passing and a throwing test, any other module a
    passing one; the ESM build of [broken.js] throws when it is
    evaluated. *)
Definition sampleModules (f : Format) (path : string) : Evaluation :=
  if String.eqb path "./cjs/a.js" || String.eqb path "./esm/a.js"
  then Completes [passing; throwing]
  else if String.eqb path "./esm/broken.js"
  then Raises [] (newError "Cannot find module")
  else Completes [passing].

(** A test that registers another one while it runs. *)
Definition registering : TestDefinition :=
  mkDefinition "registers" false (Register passing Return).

(** ** Reading a pass *)

(** Whether a definition, run as a step, is not ignored and resolves to
    [false]. *)
Definition failsAsStep (d : TestDefinition) : bool :=
  negb (def_ignored d) && negb (snd (fst (step d []))).

(** The failure the loop of [runTestDefinitions] records for a
    definition, if it records one. *)
Definition recorded (d : TestDefinition) : list Failure :=
  if def_ignored d then []
  else
    match runBody (fn d) [] [] with
    | (Returned, ch, _) =>
        if hasFailingChild ch
        then [mkFailure (def_name d) (newError "Had failing test step.")]
        else []
    | (Threw e, _, _) => [mkFailure (def_name d) e]
    end.

(** Whether a text has a line feed in it, and whether it ends with a
    carriage return. *)
Fixpoint hasLineFeed (s : string) : bool :=
  match s with
  | EmptyString => false
  | String c r => Ascii.eqb c (ascii_of_nat 10) || hasLineFeed r
  end.

Definition endsWithCR (s : string) : bool :=
  String.eqb (substring (String.length s - 1) 1 s) cr.

(** A line of a report: no line feed in it, no carriage return at its
    end. *)
Definition isLine (s : string) : Prop :=
  hasLineFeed s = false /\ endsWithCR s = false.

(** A test with two awaited steps, the second of which throws after a
    step of its own passed. *)
Definition nestedFailure : TestDefinition :=
  mkDefinition "suite" false
    (AwaitStep passing
       (fun _ =>
          AwaitStep
            (mkDefinition "group" false
               (AwaitStep passing (fun _ => Throw (newError "late"))))
            (fun _ => Return))).

End Harness.

(* ================================================================== *)
(** * build *)
(* ================================================================== *)

Module Build.
Import Js PackageJson.

Local Open Scope string_scope.

(** The options of [build] that do not reach the manifest, beside the
    ones that do. *)
Record BuildConfig : Type := mkBuildConfig {
  base : BuildOptions;
  entryPoints : list string;
  typeCheck : bool;
  test : bool;
  keepTestFiles : bool;
  rootTestDir : option string
}.

(** A file the compiler hands to the write callback of [program.emit]. *)
Record Emitted : Type := mkEmitted {
  emit_path : string;
  emit_data : string;
  emit_bom : bool
}.

(** The three programs [build] emits from: the first one with
    [onlyDtsFiles], the second after the options are set for ESM, the
    third after they are set for CommonJS. *)
Inductive EmitPass : Type := DeclarationsPass | EsmPass | CjsPass.

(** What [build] does to the outside, in order; [Remove] is a file
    that [Deno.remove] removed. *)
Inductive Event : Type :=
| PermissionRequest (name target : string)
| ConsoleLog (text : string)
| ConsoleWarn (text : string)
| Fs (op : FsOp)
| CreateSourceFile (path text : string)
| OutputDiagnostics (diagnostics : list string)
| Run (cmd : list string) (cwd : string)
| Close
| Remove (path : string).

(** What [build] throws: an [Error] it makes, the TypeError of a read
    of [undefined], or what a call of the runtime rejects with. *)
Inductive Failure : Type :=
| Error (message : string)
| TypeError
| DenoError (name message : string).

(** What [build] awaits or calls and does not define: the transformer,
    the search for test files, the TypeScript project (its pre-emit
    diagnostics and what each program emits, from the source files
    created in it), the status of a process, the platform, the path
    and colour helpers, and what [Deno.remove] of a path rejects with,
    if it does, after the events so far. *)
Record Services : Type := mkServices {
  transform :
    list string -> string -> option (Obj string) -> TransformOutput;
  getTestFilePaths : string -> list string -> list string;
  cwd : string;
  windows : bool;
  processStatus : list string -> bool * Z;
  getPreEmitDiagnostics : list (string * string) -> list string;
  programEmit :
    EmitPass -> list (string * string) -> list Emitted * list string;
  path_join : list string -> string;
  path_dirname : string -> string;
  toFileUrl : string -> string;
  toLowerCase : string -> string;
  yellow : string -> string;
  removeError : list Event -> string -> option Failure
}.

(** The mutable state of one call of [build]. *)
Record World : Type := mkWorld {
  createdDirectories : list string;
  warnedMessages : list string;
  trace : list Event
}.

(** A step of [build] returns, ends the process with [Deno.exit], or
    throws. *)
Inductive Result (A : Type) : Type :=
| Ok (a : A)
| Exit (code : Z)
| Throw (e : Failure).

Arguments Ok {A} a.
Arguments Exit {A} code.
Arguments Throw {A} e.

Definition M (A : Type) : Type := World -> Result A * World.

Definition ret {A : Type} (a : A) : M A := fun w => (Ok a, w).

Definition bind {A B : Type} (m : M A) (k : A -> M B) : M B :=
  fun w =>
    match m w with
    | (Ok a, w) => k a w
    | (Exit code, w) => (Exit code, w)
    | (Throw e, w) => (Throw e, w)
    end.

Notation "x <- m ;; k" := (bind m (fun x => k))
  (at level 61, m at next level, right associativity).
Notation "m ;;; k" := (bind m (fun _ => k))
  (at level 61, right associativity).

Definition event (e : Event) : M unit :=
  fun w =>
    (Ok tt,
     mkWorld (createdDirectories w) (warnedMessages w) (trace w ++ [e])%list).

Definition throw {A : Type} (e : Failure) : M A := fun w => (Throw e, w).

Definition exit {A : Type} (code : Z) : M A := fun w => (Exit code, w).

(** [for (const x of l) body(x)] *)
Fixpoint forEach {A : Type} (l : list A) (body : A -> M unit) : M unit :=
  match l with
  | [] => ret tt
  | x :: r => body x ;;; forEach r body
  end.

(** The byte order mark, as the three bytes it is written as. *)
Definition byteOrderMark : string :=
  String (ascii_of_nat 239)
    (String (ascii_of_nat 187) (String (ascii_of_nat 191) EmptyString)).

(** The text of [main] in the script, without the two line feeds that
    follow it. *)
Definition mainCode : string :=
  String.concat nl
    [ "async function main() {";
      "  for (const filePath of filePaths) {";
      "    const cjsPath = " ++ dquote ++ "./cjs/" ++ dquote
        ++ " + filePath;";
      "    console.log(" ++ dquote ++ "\nRunning tests in " ++ dquote
        ++ " + cjsPath + " ++ dquote ++ "...\n" ++ dquote ++ ");";
      "    require(cjsPath);";
      "    await runTestDefinitions();";
      "    const esmPath = " ++ dquote ++ "./esm/" ++ dquote
        ++ " + filePath;";
      "    console.log(" ++ dquote ++ "\nRunning tests in " ++ dquote
        ++ " + esmPath + " ++ dquote ++ "...\n" ++ dquote ++ ");";
      "    await import(esmPath);";
      "    await runTestDefinitions();";
      "  }";
      "}" ].

(** [getRunTestDefinitionsCode()]: the runtime, trimmed. *)
Definition getRunTestDefinitionsCode : string :=
  String.concat nl
    [ "async function runTestDefinitions() {";
      "  const currentDefinitions = testDefinitions.splice(0, testDefinitions.length);";
      "  const testFailures = [];";
      "  for (const definition of currentDefinitions) {";
      "    process.stdout.write(definition.name + " ++ dquote ++ " ..."
        ++ dquote ++ ");";
      "    if (definition.ignored) {";
      "     process.stdout.write(" ++ dquote ++ " ignored\n" ++ dquote
        ++ ");";
      "     continue;";
      "    }";
      "    const context = getTestContext();";
      "    let pass = false;";
      "    try {";
      "      await definition.fn(context);";
      "      if (context.hasFailingChild) {";
      "        testFailures.push({ name: definition.name, err: new Error("
        ++ dquote ++ "Had failing test step." ++ dquote ++ ") });";
      "      } else {";
      "        pass = true;";
      "      }";
      "    } catch (err) {";
      "      testFailures.push({ name: definition.name, err });";
      "    }";
      "    const testStepOutput = context.getOutput();";
      "    if (testStepOutput.length > 0) {";
      "      process.stdout.write(testStepOutput);";
      "    } else {";
      "      process.stdout.write(" ++ dquote ++ " " ++ dquote ++ ");";
      "    }";
      "    process.stdout.write(pass ? " ++ dquote ++ "ok\n" ++ dquote
        ++ " : " ++ dquote ++ "fail\n" ++ dquote ++ ");";
      "  }";
      EmptyString;
      "  if (testFailures.length > 0) {";
      "    console.log(" ++ dquote ++ "\nFAILURES\n" ++ dquote ++ ");";
      "    for (const failure of testFailures) {";
      "      console.log(failure.name);";
      "      console.log(indentText(failure.err, 1));";
      "      console.log(" ++ dquote ++ dquote ++ ");";
      "    }";
      "    process.exit(1);";
      "  }";
      "}";
      EmptyString;
      "function getTestContext() {";
      "  return {";
      "    name: undefined,";
      "    status: " ++ dquote ++ "ok" ++ dquote ++ ",";
      "    children: [],";
      "    get hasFailingChild() {";
      "      return this.children.some(c => c.status === " ++ dquote ++ "fail"
        ++ dquote ++ " || c.status === " ++ dquote ++ "pending" ++ dquote
        ++ ");";
      "    },";
      "    getOutput() {";
      "      let output = " ++ dquote ++ dquote ++ ";";
      "      if (this.name) {";
      "        output += this.name + " ++ dquote ++ " ..." ++ dquote ++ ";";
      "      }";
      "      if (this.children.length > 0) {";
      "        output += " ++ dquote ++ "\n" ++ dquote
        ++ " + this.children.map(c => indentText(c.getOutput(), 1)).join("
        ++ dquote ++ "\n" ++ dquote ++ ") + " ++ dquote ++ "\n" ++ dquote
        ++ ";";
      "      } else if (!this.err) {";
      "        output += " ++ dquote ++ " " ++ dquote ++ ";";
      "      }";
      "      if (this.name && this.err) {";
      "        output += " ++ dquote ++ "\n" ++ dquote ++ ";";
      "      }";
      "      if (this.err) {";
      "        output += indentText(this.err.toString(), 1);";
      "        if (this.name) {";
      "          output += " ++ dquote ++ "\n" ++ dquote ++ ";";
      "        }";
      "      }";
      "      if (this.name) {";
      "        output += this.status;";
      "      }";
      "      return output;";
      "    },";
      "    async step(nameOrTestDefinition, fn) {";
      "      const definition = getDefinition();";
      EmptyString;
      "      const context = getTestContext();";
      "      context.status = " ++ dquote ++ "pending" ++ dquote ++ ";";
      "      context.name = definition.name;";
      "      context.status = " ++ dquote ++ "pending" ++ dquote ++ ";";
      "      this.children.push(context);";
      EmptyString;
      "      if (definition.ignored) {";
      "        context.status = " ++ dquote ++ "ignored" ++ dquote ++ ";";
      "        return false;";
      "      }";
      EmptyString;
      "      try {";
      "        await definition.fn(context);";
      "        context.status = " ++ dquote ++ "ok" ++ dquote ++ ";";
      "        if (context.hasFailingChild) {";
      "          context.status = " ++ dquote ++ "fail" ++ dquote ++ ";";
      "          return false;";
      "        }";
      "        return true;";
      "      } catch (err) {";
      "        context.status = " ++ dquote ++ "fail" ++ dquote ++ ";";
      "        context.err = err;";
      "        return false;";
      "      }";
      EmptyString;
      "      function getDefinition() {";
      "        if (typeof nameOrTestDefinition === " ++ dquote ++ "string"
        ++ dquote ++ ") {";
      "          if (!(fn instanceof Function)) {";
      "            throw new TypeError(" ++ dquote
        ++ "Expected function for second argument." ++ dquote ++ ");";
      "          }";
      "          return {";
      "            name: nameOrTestDefinition,";
      "            fn,";
      "          };";
      "        } else if (typeof nameOrTestDefinition === " ++ dquote
        ++ "object" ++ dquote ++ ") {";
      "          return nameOrTestDefinition;";
      "        } else {";
      "          throw new TypeError(";
      "            " ++ dquote
        ++ "Expected a test definition or name and function." ++ dquote
        ++ ",";
      "          );";
      "        }";
      "      }";
      "    }";
      "  };";
      "}";
      EmptyString;
      "function indentText(text, indentLevel) {";
      "  if (text === undefined) {";
      "    text = " ++ dquote ++ "[undefined]" ++ dquote ++ ";";
      "  } else if (text === null) {";
      "    text = " ++ dquote ++ "[null]" ++ dquote ++ ";";
      "  } else {";
      "    text = text.toString();";
      "  }";
      "  return text.split(/\r?\n/).map(line => " ++ dquote ++ "  " ++ dquote
        ++ ".repeat(indentLevel) + line).join(" ++ dquote ++ "\n" ++ dquote
        ++ ");";
      "}" ].

(** [getTestFileNames()], for a given [testOutput]. *)
Definition getTestFileNames (testOutput : option TestOutput) : list string :=
  match testOutput with
  | None => []
  | Some t =>
      List.app
        (flat_map (fun file =>
                     let path := replaceTs true ".js" (filePath file) in
                     [ "./esm/" ++ path; "./cjs/" ++ path ])
                  (test_files t))
        ["./test_runner.js"]
  end.

(** What [getTestOutput] returns once both transforms are there. *)
Definition testOutputOf (transformOutput testTransformOutput : TransformOutput)
  : option TestOutput :=
  let outputFileNames := map filePath (files transformOutput) in
  let testFiles :=
    filter (fun f => negb (includes outputFileNames (filePath f)))
           (files testTransformOutput) in
  match testFiles with
  | [] => None
  | _ :: _ =>
      let outputDependencyNames :=
        map dep_name (dependencies transformOutput) in
      let outputEntryPoints := PackageJson.entryPoints transformOutput in
      Some (mkTestOutput
              (filter (fun e => negb (includes outputEntryPoints e))
                      (PackageJson.entryPoints testTransformOutput))
              (shimUsed testTransformOutput)
              (filter (fun d => negb (includes outputDependencyNames
                                               (dep_name d)))
                      (dependencies testTransformOutput))
              testFiles)
  end.

(** The text of the script, for the shim package's name and a
    [testOutput]. *)
Definition launcherText (shimName : string) (t : TestOutput) : string :=
  let fileText := "" in
  let fileText :=
    if test_shimUsed t then
      fileText
        ++ "const denoShim = require(" ++ dquote ++ shimName ++ dquote
        ++ ");" ++ nl
        ++ "const { testDefinitions } = require(" ++ dquote ++ shimName
        ++ "/test-internals" ++ dquote ++ ");" ++ nl ++ nl
    else fileText in
  let fileText := fileText ++ "const filePaths = [" ++ nl in
  let fileText :=
    fold_left (fun text entryPoint =>
                 text ++ "  " ++ dquote ++ replaceTs false ".js" entryPoint
                      ++ dquote ++ "," ++ nl)
              (test_entryPoints t) fileText in
  let fileText := fileText ++ "];" ++ nl ++ nl in
  let fileText := fileText ++ mainCode ++ nl ++ nl in
  let fileText :=
    if test_shimUsed t
    then fileText ++ getRunTestDefinitionsCode ++ nl ++ nl
    else fileText in
  fileText ++ "main();" ++ nl.

Section WithServices.
Variable sv : Services.
Variable cfg : BuildConfig.

Let options := base cfg.
Let shimPackage := shimPackageOf options.
Let specifierMappings :=
  specifierMappingsOf (toFileUrl sv) (toLowerCase sv) options.

Definition join2 (a b : string) : string := path_join sv [a; b].

Definition log (message : string) : M unit :=
  event (ConsoleLog ("[dnt] " ++ message)).

Definition warn (message : string) : M unit :=
  event (ConsoleWarn (yellow sv ("[dnt] " ++ message))).

Definition warnOnce (message : string) : M unit :=
  fun w =>
    if includes (warnedMessages w) message then (Ok tt, w)
    else
      warn message
           (mkWorld (createdDirectories w)
                    (warnedMessages w ++ [message])%list (trace w)).

(** The [writeFile] constant, on the state of [build]: the operations of
    [doWriteFile] join the trace. *)
Definition writeFile (path text : string) : M unit :=
  fun w =>
    let st :=
      doWriteFile (path_dirname sv) options path text
                  (mkBuildState (createdDirectories w) []) in
    (Ok tt,
     mkWorld (PackageJson.createdDirectories st) (warnedMessages w)
             (trace w ++ map Fs (fsOps st))%list).

Definition transformEntryPoints (entryPoints : list string)
  : TransformOutput :=
  transform sv entryPoints (shim_name shimPackage)
            (match specifierMappings with
             | Some m =>
                 Some (fromEntries
                         (map (fun kv : string * Mapping =>
                                 (fst kv, map_name (snd kv)))
                              m))
             | None => None
             end).

Definition getTestOutput (transformOutput : TransformOutput)
  : M (option TestOutput) :=
  let testFilePaths :=
    getTestFilePaths sv
      (match rootTestDir cfg with Some d => d | None => cwd sv end)
      [outDir options] in
  match testFilePaths with
  | [] => ret None
  | _ :: _ =>
      log "Transforming test files..." ;;;
      let testTransformOutput :=
        transformEntryPoints (testFilePaths ++ entryPoints cfg)%list in
      forEach (warnings testTransformOutput) warnOnce ;;;
      ret (testOutputOf transformOutput testTransformOutput)
  end.

(** [createPackageJson()], on the state of [build]. *)
Definition createPackageJson (transformOutput : TransformOutput)
           (testOutput : option TestOutput) : M unit :=
  fun w =>
    match PackageJson.createPackageJson
            join2 (path_dirname sv) (toFileUrl sv) (toLowerCase sv)
            options transformOutput testOutput
            (mkBuildState (createdDirectories w) []) with
    | Some st =>
        (Ok tt,
         mkWorld (PackageJson.createdDirectories st) (warnedMessages w)
                 (trace w ++ map Fs (fsOps st))%list)
    | None => (Throw TypeError, w)
    end.

Definition createNpmIgnore (testOutput : option TestOutput) : M unit :=
  match testOutput with
  | None => ret tt
  | Some _ =>
      let fileText := String.concat nl (getTestFileNames testOutput) in
      writeFile (join2 (outDir options) ".npmignore") fileText
  end.

(** [await Deno.remove(path)] *)
Definition denoRemove (path : string) : M unit :=
  fun w =>
    match removeError sv (trace w) path with
    | Some e => (Throw e, w)
    | None => event (Remove path) w
    end.

Definition deleteTestFiles (testOutput : option TestOutput) : M unit :=
  forEach (getTestFileNames testOutput)
          (fun file => denoRemove (join2 (outDir options) file)).

Definition createTestLauncherScript (testOutput : option TestOutput)
  : M unit :=
  match testOutput with
  | None => ret tt
  | Some t =>
      writeFile (join2 (outDir options) "test_runner.js")
                (launcherText (shim_name shimPackage) t)
  end.

Definition getCmd (args : list string) : list string :=
  let cmd := ("npm" :: args)%list in
  if windows sv then ("cmd" :: "/c" :: cmd)%list else cmd.

Definition runNpmCommand (args : list string) : M unit :=
  let cmd := getCmd args in
  event (PermissionRequest "run" (hd "" cmd)) ;;;
  event (Run cmd (outDir options)) ;;;
  let status := processStatus sv cmd in
  event Close ;;;
  if fst status then ret tt
  else
    throw (Error ("npm " ++ String.concat " " args
                         ++ " failed with exit code "
                         ++ string_of_Z (snd status))).

(** The inner function [emit], for the program of a pass over the
    source files of the project. *)
Definition emit (pass : EmitPass) (sources : list (string * string))
  : M unit :=
  let emitResult := programEmit sv pass sources in
  forEach (fst emitResult)
          (fun f =>
             writeFile (emit_path f)
                       (if emit_bom f then byteOrderMark ++ emit_data f
                        else emit_data f)) ;;;
  match snd emitResult with
  | [] => ret tt
  | _ :: _ => event (OutputDiagnostics (snd emitResult)) ;;; exit 1%Z
  end.

(** The source files created in the project. *)
Definition sourceFiles (transformOutput : TransformOutput)
           (testOutput : option TestOutput) : list (string * string) :=
  map (fun outputFile =>
         (path_join sv [outDir options; "src"; filePath outputFile],
          fileText outputFile))
      (files transformOutput
         ++ match testOutput with
            | Some t => test_files t
            | None => []
            end)%list.

Definition build : M unit :=
  event (PermissionRequest "write" (outDir options)) ;;;
  log "Transforming..." ;;;
  let transformOutput := transformEntryPoints (entryPoints cfg) in
  forEach (warnings transformOutput) warnOnce ;;;
  testOutput <- (if test cfg then getTestOutput transformOutput
                 else ret None) ;;
  createPackageJson transformOutput testOutput ;;;
  createNpmIgnore testOutput ;;;
  log "Running npm install..." ;;;
  runNpmCommand ["install"] ;;;
  log "Building TypeScript project..." ;;;
  let esmOutDir := join2 (outDir options) "esm" in
  let cjsOutDir := join2 (outDir options) "cjs" in
  let sources := sourceFiles transformOutput testOutput in
  forEach sources (fun f => event (CreateSourceFile (fst f) (snd f))) ;;;
  (if typeCheck cfg then
     log "Type checking..." ;;;
     match getPreEmitDiagnostics sv sources with
     | [] => ret tt
     | diagnostics => event (OutputDiagnostics diagnostics) ;;; exit 1%Z
     end
   else ret tt) ;;;
  log "Emitting declaration files..." ;;;
  emit DeclarationsPass sources ;;;
  log "Emitting esm module..." ;;;
  emit EsmPass sources ;;;
  writeFile (join2 esmOutDir "package.json")
            ("{" ++ nl ++ "  " ++ dquote ++ "type" ++ dquote ++ ": "
                 ++ dquote ++ "module" ++ dquote ++ nl ++ "}" ++ nl) ;;;
  log "Emitting cjs module..." ;;;
  emit CjsPass sources ;;;
  writeFile (join2 cjsOutDir "package.json")
            ("{" ++ nl ++ "  " ++ dquote ++ "type" ++ dquote ++ ": "
                 ++ dquote ++ "commonjs" ++ dquote ++ nl ++ "}" ++ nl) ;;;
  match testOutput with
  | Some _ =>
      log "Running tests..." ;;;
      createTestLauncherScript testOutput ;;;
      runNpmCommand ["run"; "test"] ;;;
      (if keepTestFiles cfg then ret tt else deleteTestFiles testOutput)
  | None => ret tt
  end ;;;
  log "Complete!".
End WithServices.

Definition startWorld : World := mkWorld [] [] [].

(** ** Reading a run of [build] *)

(** The value [transformOutput] has in [build]. *)
Definition transformOutputIn (sv : Services) (cfg : BuildConfig)
  : TransformOutput :=
  transformEntryPoints sv cfg (entryPoints cfg).

(** The value [testOutput] has in [build]. *)
Definition testOutputIn (sv : Services) (cfg : BuildConfig)
  : option TestOutput :=
  if test cfg then
    match getTestFilePaths sv
            (match rootTestDir cfg with Some d => d | None => cwd sv end)
            [outDir (base cfg)] with
    | [] => None
    | testFilePaths =>
        testOutputOf (transformOutputIn sv cfg)
                     (transformEntryPoints
                        sv cfg (testFilePaths ++ entryPoints cfg)%list)
    end
  else None.

(** The operation a write through the sink ends with. *)
Definition sinkOp (options : BuildOptions) (path text : string) : FsOp :=
  if PackageJson.writeFile options then UserWriteFile path text
  else WriteTextFileSync path text.

(** The paths removed, in order. *)
Definition removed (e : Event) : list string :=
  match e with
  | Remove path => [path]
  | _ => []
  end.

(** Whether an event leaves the output directory with no file but the
    ones at [paths]: it writes one of them, or writes and removes
    nothing. *)
Definition writesOnly (paths : list string) (e : Event) : bool :=
  match e with
  | Fs (WriteTextFileSync path _) | Fs (UserWriteFile path _) =>
      includes paths path
  | Remove _ => false
  | _ => true
  end.

(** The events that are not [writesOnly]. *)
Definition otherThan (paths : list string) (e : Event) : list Event :=
  if writesOnly paths e then [] else [e].

(** The diagnostics printed, beside the events that are not
    [writesOnly]. *)
Definition diagnosticsAndOther (paths : list string) (e : Event)
  : list Event :=
  match e with
  | OutputDiagnostics _ => [e]
  | _ => otherThan paths e
  end.

(** The warnings printed, in order. *)
Definition warning (e : Event) : list string :=
  match e with
  | ConsoleWarn text => [text]
  | _ => []
  end.

(** A computation that returns [r] from any state, and adds to the
    trace events of which [obs] shows [seen]. *)
Definition yields {A X : Type} (obs : Event -> list X) (m : M A)
           (r : Result A) (seen : list X) : Prop :=
  forall w,
    fst (m w) = r
    /\ exists evs,
         trace (snd (m w)) = (trace w ++ evs)%list
         /\ flat_map obs evs = seen.

(** A computation that removes, in order, the first of the paths
    [paths]: all of them when it returns, none when it ends the process,
    and when it throws, none, or the ones before the path whose removal
    failed with what it throws. *)
Definition removes {A : Type} (sv : Services) (paths : list string)
           (m : M A) : Prop :=
  forall w,
    exists evs rest,
      trace (snd (m w)) = (trace w ++ evs)%list
      /\ paths = (flat_map removed evs ++ rest)%list
      /\ match fst (m w) with
         | Ok _ => rest = []
         | Exit _ => flat_map removed evs = []
         | Throw e =>
             flat_map removed evs = []
             \/ exists path rest',
                  rest = path :: rest'
                  /\ removeError sv (trace (snd (m w))) path = Some e
         end.

(** The first occurrences of the elements of a list, in order. *)
Fixpoint firstOccurrences (l : list string) : list string :=
  match l with
  | [] => []
  | x :: r =>
      x :: filter (fun y => negb (String.eqb y x)) (firstOccurrences r)
  end.

(** ** Sample services and configurations *)

(** A transformer that finds one module, and one test file when asked
    for [mod_test.ts]; a compiler that emits one file per pass. *)
Definition sampleServices (installOk : bool) (diagnostics : list string)
  : Services :=
  mkServices
    (fun entryPoints _ _ =>
       if includes entryPoints "mod_test.ts"
       then mkTransformOutput
              ["mod_test.ts"; "mod.ts"] true [mkDependency "chalk" "4.1.2"]
              [ mkOutputFile "mod_test.ts" "Deno.test(...)";
                mkOutputFile "mod.ts" "export {}" ]
              ["unused shim"]
       else mkTransformOutput
              ["mod.ts"] false [mkDependency "chalk" "4.1.2"]
              [mkOutputFile "mod.ts" "export {}"] ["unused shim"])
    (fun _ _ => ["mod_test.ts"])
    "/repo"
    false
    (fun cmd => if installOk then (true, 0%Z) else (false, 1%Z))
    (fun _ => diagnostics)
    (fun pass _ =>
       match pass with
       | DeclarationsPass => ([mkEmitted "npm/types/mod.d.ts" "" false], [])
       | EsmPass => ([mkEmitted "npm/esm/mod.js" "export {}" true], [])
       | CjsPass => ([mkEmitted "npm/cjs/mod.js" "exports" false], [])
       end)
    (String.concat "/")
    sampleDirname
    sampleFileUrl
    sampleLowerCase
    (fun text => text)
    (fun _ _ => None).

(** The same services, on a file system where the CommonJS build of the
    test file is missing. *)
Definition missingFile : Services :=
  let sv := sampleServices true [] in
  mkServices (transform sv) (getTestFilePaths sv) (cwd sv) (windows sv)
             (processStatus sv) (getPreEmitDiagnostics sv) (programEmit sv)
             (path_join sv) (path_dirname sv) (toFileUrl sv) (toLowerCase sv)
             (yellow sv)
             (fun _ path =>
                if String.eqb path "npm/./cjs/mod_test.js"
                then Some (DenoError "NotFound" "No such file or directory")
                else None).

Definition sampleConfig : BuildConfig :=
  mkBuildConfig plainTemplate ["mod.ts"] true true false None.

End Build.

(* ================================================================== *)
(** * Properties of the shim resolution *)
(* ================================================================== *)

Module ShimsFacts.
Import Shims.

Local Abbreviation count := (count_occ Shim_eq_dec).

Lemma add_parts (o : option ShimValue) (s : Shim) (st : ShimLists) :
  add o s st
  = mkShimLists (shims st ++ distPart o s) (testShims st ++ testPart o s).
Proof.
  destruct st as [d t]; destruct o as [[[|]|]|]; simpl;
    rewrite ?app_nil_r; reflexivity.
Qed.

Lemma addDeno_parts (d : option DenoOption) (st : ShimLists) :
  addDeno d st
  = mkShimLists (shims st ++ denoDist d) (testShims st ++ denoTest d).
Proof.
  unfold addDeno. destruct d as [[v|t]|]; rewrite add_parts; reflexivity.
Qed.

Lemma pushCustom_parts (c : option (list Shim)) (st : ShimLists) :
  pushCustom c st
  = mkShimLists (shims st ++ customOf c) (testShims st ++ customOf c).
Proof.
  destruct st; destruct c; simpl; rewrite ?app_nil_r; reflexivity.
Qed.

Lemma pushCustomDev_parts (c : option (list Shim)) (st : ShimLists) :
  pushCustomDev c st = mkShimLists (shims st) (testShims st ++ customOf c).
Proof.
  destruct st; destruct c; simpl; rewrite ?app_nil_r; reflexivity.
Qed.

(** The two lists, part by part, in the order of evaluation. *)
Lemma resolve_parts (o : ShimOptions) :
  shimOptionsToTransformShims o
  = mkShimLists
      (denoDist (deno o)
         ++ distPart (blob o) getBlobShim
         ++ distPart (crypto o) getCryptoShim
         ++ distPart (prompts o) getPromptsShim
         ++ distPart (timers o) getTimersShim
         ++ distPart (undici o) getUndiciShim
         ++ customOf (custom o))
      (denoTest (deno o)
         ++ testPart (blob o) getBlobShim
         ++ testPart (crypto o) getCryptoShim
         ++ testPart (prompts o) getPromptsShim
         ++ testPart (timers o) getTimersShim
         ++ testPart (undici o) getUndiciShim
         ++ customOf (custom o)
         ++ customOf (customDev o)).
Proof.
  unfold shimOptionsToTransformShims.
  rewrite pushCustomDev_parts, pushCustom_parts, !add_parts, addDeno_parts.
  simpl. rewrite <- !app_assoc. reflexivity.
Qed.

Lemma distPart_incl (o : option ShimValue) (s x : Shim) :
  In x (distPart o s) -> In x (testPart o s).
Proof. destruct o as [[[|]|]|]; simpl; tauto. Qed.

Lemma denoDist_incl (d : option DenoOption) (x : Shim) :
  In x (denoDist d) -> In x (denoTest d).
Proof.
  destruct d as [[v|t]|]; unfold denoDist, denoTest;
    try apply distPart_incl; auto.
Qed.

Lemma count_distPart (o : option ShimValue) (s x : Shim) :
  count (distPart o s) x = if Shim_eq_dec s x then distCount o else 0.
Proof.
  destruct o as [[[|]|]|]; simpl; destruct (Shim_eq_dec s x); reflexivity.
Qed.

Lemma count_testPart (o : option ShimValue) (s x : Shim) :
  count (testPart o s) x = if Shim_eq_dec s x then testCount o else 0.
Proof.
  destruct o as [[[|]|]|]; simpl; destruct (Shim_eq_dec s x); reflexivity.
Qed.

Lemma count_denoDist (d : option DenoOption) (x : Shim) :
  count (denoDist d) x
  = (if Shim_eq_dec getDenoShim x then distCount (denoValueOf d) else 0)
    + (if Shim_eq_dec getDenoTestShim x then distCount (denoObjectOf d)
       else 0).
Proof.
  destruct d as [[v|t]|]; unfold denoDist; rewrite ?count_distPart; simpl;
    repeat match goal with |- context [Shim_eq_dec ?a ?b] =>
                             destruct (Shim_eq_dec a b) end; lia.
Qed.

Lemma count_denoTest (d : option DenoOption) (x : Shim) :
  count (denoTest d) x
  = (if Shim_eq_dec getDenoShim x then testCount (denoValueOf d) else 0)
    + (if Shim_eq_dec getDenoTestShim x then testCount (denoObjectOf d)
       else 0).
Proof.
  destruct d as [[v|t]|]; unfold denoTest; rewrite ?count_testPart; simpl;
    repeat match goal with |- context [Shim_eq_dec ?a ?b] =>
                             destruct (Shim_eq_dec a b) end; lia.
Qed.

(** Settles every comparison of two of the seven descriptors. *)
Ltac compare_descriptors :=
  repeat match goal with
         | |- context [Shim_eq_dec ?a ?b] =>
             destruct (Shim_eq_dec a b) as [E | E];
             [ try discriminate E | try (exfalso; apply E; reflexivity) ];
             clear E
         end.

(** C3, as amended.  In a configuration whose [custom] and [customDev]
    lists do not themselves hold the descriptor of a capability: when the
    capability's option is [true] the descriptor occurs exactly once in
    [shims] and exactly once in [testShims]; when it is ["dev"], exactly
    once in [testShims] and not in [shims]; when it is [false] or absent
    (and for the full [Deno] descriptor also when [deno] is given as an
    object), in neither list. *)
Theorem capability_descriptor_count (options : ShimOptions) (c : Capability) :
  ~ In (descriptor c) (customOf (custom options)) ->
  ~ In (descriptor c) (customOf (customDev options)) ->
  let r := shimOptionsToTransformShims options in
  match setting options c with
  | SetValue (ShimBool true) =>
      count (shims r) (descriptor c) = 1
      /\ count (testShims r) (descriptor c) = 1
  | SetValue ShimDev =>
      count (shims r) (descriptor c) = 0
      /\ count (testShims r) (descriptor c) = 1
  | SetValue (ShimBool false) | SetAbsent | SetObject _ =>
      count (shims r) (descriptor c) = 0
      /\ count (testShims r) (descriptor c) = 0
  end.
Proof.
  intros Hc Hd r. subst r. rewrite resolve_parts. simpl shims. simpl testShims.
  rewrite !count_occ_app.
  rewrite (proj1 (count_occ_not_In Shim_eq_dec _ _) Hc).
  rewrite (proj1 (count_occ_not_In Shim_eq_dec _ _) Hd).
  rewrite count_denoDist, count_denoTest, !count_distPart, !count_testPart.
  clear Hc Hd.
  destruct options as [dn ti pr bl cr un cu cd].
  destruct c; unfold descriptor, setting, ofValue;
    cbn [deno timers prompts blob crypto undici];
    compare_descriptors; cbn [Nat.add];
    [ destruct dn as [[v|t]|] | destruct bl as [v|] | destruct cr as [v|]
    | destruct pr as [v|] | destruct ti as [v|] | destruct un as [v|] ];
    try (destruct v as [[|]|]); try (destruct t as [[|]|]);
    split; reflexivity.
Qed.

Lemma capability_descriptor_count_witness :
  (~ In (descriptor CapTimers) (customOf (custom timersOnly)))
  /\ (~ In (descriptor CapTimers) (customOf (customDev timersOnly)))
  /\ count (shims (shimOptionsToTransformShims timersOnly))
           (descriptor CapTimers) = 1
  /\ count (testShims (shimOptionsToTransformShims timersOnly))
           (descriptor CapTimers) = 1.
Proof.
  assert (H1 : ~ In (descriptor CapTimers) (customOf (custom timersOnly)))
    by (simpl; tauto).
  assert (H2 : ~ In (descriptor CapTimers) (customOf (customDev timersOnly)))
    by (simpl; tauto).
  split; [exact H1 | split; [exact H2 |]].
  exact (capability_descriptor_count timersOnly CapTimers H1 H2).
Defined.

(** C3 as stated fails: with [timers: true] and a [custom] list that
    holds the timers descriptor, the descriptor occurs twice in [shims]
    and twice in [testShims]. *)
Lemma capability_once_counterexample :
  setting timersTwice CapTimers = SetValue (ShimBool true)
  /\ count (shims (shimOptionsToTransformShims timersTwice))
           (descriptor CapTimers) = 2
  /\ count (testShims (shimOptionsToTransformShims timersTwice))
           (descriptor CapTimers) = 2.
Proof. repeat split; vm_compute; reflexivity. Qed.

(** C2, as amended.  When [deno] is given as an object, the rule for the
    namespace is applied to [getDenoTestShim] in place of [getDenoShim],
    under the object's [test] value like any other option: [true] puts the
    descriptor first in both lists, ["dev"] first in [testShims] only,
    [false] in neither; the rest of both lists is what the configuration
    without [deno] resolves to. *)
Theorem deno_object_uses_test_shim (options : ShimOptions) (t : ShimValue) :
  deno options = Some (DenoObject t) ->
  let r := shimOptionsToTransformShims options in
  let r0 := shimOptionsToTransformShims (withoutDeno options) in
  shims r = distPart (Some t) getDenoTestShim ++ shims r0
  /\ testShims r = testPart (Some t) getDenoTestShim ++ testShims r0.
Proof.
  intros H r r0. subst r r0. rewrite !resolve_parts.
  destruct options as [dn ti pr bl cr un cu cd]; simpl in H; subst dn.
  simpl. split; reflexivity.
Qed.

Lemma deno_object_uses_test_shim_witness :
  deno denoTestTrue = Some (DenoObject (ShimBool true))
  /\ shims (shimOptionsToTransformShims denoTestTrue)
     = distPart (Some (ShimBool true)) getDenoTestShim
         ++ shims (shimOptionsToTransformShims (withoutDeno denoTestTrue))
  /\ testShims (shimOptionsToTransformShims denoTestTrue)
     = testPart (Some (ShimBool true)) getDenoTestShim
         ++ testShims (shimOptionsToTransformShims (withoutDeno denoTestTrue)).
Proof.
  split; [reflexivity |].
  exact (deno_object_uses_test_shim denoTestTrue (ShimBool true) eq_refl).
Defined.

(** C2 as stated fails: with [deno: { test: true }] the test-registration
    descriptor is in the distributed list. *)
Lemma deno_object_counterexample :
  deno denoTestTrue = Some (DenoObject (ShimBool true))
  /\ shims (shimOptionsToTransformShims denoTestTrue) = [getDenoTestShim]
  /\ In getDenoTestShim (shims (shimOptionsToTransformShims denoTestTrue)).
Proof. repeat split. left; reflexivity. Qed.

(** C10.  Every descriptor of [shims] is also in [testShims]. *)
Theorem shims_in_testShims (options : ShimOptions) (s : Shim) :
  In s (shims (shimOptionsToTransformShims options)) ->
  In s (testShims (shimOptionsToTransformShims options)).
Proof.
  rewrite resolve_parts. simpl. rewrite !in_app_iff.
  intros [H | [H | [H | [H | [H | [H | H]]]]]];
    eauto 12 using distPart_incl, denoDist_incl.
Qed.

Lemma shims_in_testShims_witness :
  In getTimersShim (shims (shimOptionsToTransformShims timersTwice))
  /\ In getTimersShim (testShims (shimOptionsToTransformShims timersTwice)).
Proof.
  assert (H : In getTimersShim (shims (shimOptionsToTransformShims timersTwice)))
    by (left; reflexivity).
  split; [exact H | exact (shims_in_testShims timersTwice getTimersShim H)].
Defined.

End ShimsFacts.

(* ================================================================== *)
(** * Properties of objects *)
(* ================================================================== *)

Module JsFacts.
Import Js.

Section ObjectFacts.
Context {V : Type}.
Implicit Types (o : Obj V) (k : string) (v : V).

Lemma lookup_app k o1 o2 :
  lookup k (o1 ++ o2)
  = match lookup k o1 with Some v => Some v | None => lookup k o2 end.
Proof.
  induction o1 as [|[a b] r IH]; simpl; [reflexivity|].
  destruct (String.eqb a k); auto.
Qed.

Lemma lookup_None k o : lookup k o = None <-> ~ In k (keys o).
Proof.
  induction o as [|[a b] r IH]; simpl; [tauto|].
  destruct (String.eqb_spec a k) as [E|E].
  - split; [discriminate | intros H; exfalso; apply H; auto].
  - rewrite IH. tauto.
Qed.

Lemma hasKey_In k o : hasKey k o = true <-> In k (keys o).
Proof.
  unfold hasKey. destruct (lookup k o) eqn:E.
  - split; [intros _ | reflexivity].
    destruct (in_dec string_dec k (keys o)) as [H|H]; [exact H|].
    apply lookup_None in H. congruence.
  - apply lookup_None in E. split; [discriminate | tauto].
Qed.

Lemma includes_In (l : list string) k : includes l k = true <-> In k l.
Proof.
  unfold includes. rewrite existsb_exists. split.
  - intros [x [H E]]. apply String.eqb_eq in E. subst; exact H.
  - intros H. exists k. split; [exact H | apply String.eqb_refl].
Qed.

Lemma lookup_replace k v o k' :
  lookup k o <> None ->
  lookup k' (replace k v o)
  = if String.eqb k k' then Some v else lookup k' o.
Proof.
  induction o as [|[a b] r IH]; simpl; [congruence|].
  destruct (String.eqb_spec a k) as [E|E]; simpl.
  - subst a. intros _. destruct (String.eqb k k'); reflexivity.
  - intros H. rewrite (IH H).
    destruct (String.eqb_spec a k'), (String.eqb_spec k k');
      congruence.
Qed.

Lemma lookup_insert_index n k v o k' :
  lookup k o = None ->
  lookup k' (insert_index n k v o)
  = if String.eqb k k' then Some v else lookup k' o.
Proof.
  induction o as [|[a b] r IH]; simpl; [reflexivity|].
  destruct (String.eqb_spec a k) as [E|E]; [discriminate|]. intros H.
  destruct (array_index a) as [m|]; [destruct (m <? n)%N|]; simpl;
    rewrite ?(IH H);
    destruct (String.eqb_spec a k'), (String.eqb_spec k k');
    congruence.
Qed.

(** Reading a property after a write. *)
Lemma lookup_set k v o k' :
  lookup k' (set k v o) = if String.eqb k k' then Some v else lookup k' o.
Proof.
  unfold set, hasKey. destruct (lookup k o) eqn:E.
  - apply lookup_replace. congruence.
  - destruct (array_index k).
    + apply lookup_insert_index, E.
    + rewrite lookup_app. simpl.
      destruct (String.eqb_spec k k'), (lookup k' o) eqn:E'; congruence.
Qed.

Lemma lastValue_cons k a v (es : list (string * V)) :
  lastValue k ((a, v) :: es)
  = match lastValue k es with
    | Some w => Some w
    | None => if String.eqb a k then Some v else None
    end.
Proof. unfold lastValue. simpl. rewrite lookup_app. reflexivity. Qed.

(** Reading a property after a spread: the last entry with that key
    wins, and the target's own value is kept when there is none. *)
Lemma lookup_assign k (es : list (string * V)) : forall o,
  lookup k (assign o es)
  = match lastValue k es with Some v => Some v | None => lookup k o end.
Proof.
  induction es as [|[a b] r IH]; intros o; [reflexivity|].
  unfold assign in *. simpl. rewrite IH, lastValue_cons, lookup_set.
  destruct (lastValue k r); [reflexivity|].
  destruct (String.eqb a k); reflexivity.
Qed.

Lemma lookup_fromEntries k (es : list (string * V)) :
  lookup k (fromEntries es) = lastValue k es.
Proof.
  unfold fromEntries. rewrite lookup_assign.
  destruct (lastValue k es); reflexivity.
Qed.

Lemma lastValue_None k (es : list (string * V)) :
  lastValue k es = None <-> ~ In k (map fst es).
Proof.
  unfold lastValue. rewrite lookup_None. unfold keys.
  rewrite map_rev, <- in_rev. tauto.
Qed.

(** ** Keys stay distinct *)

Lemma keys_replace k v o : keys (replace k v o) = keys o.
Proof.
  induction o as [|[a b] r IH]; simpl; [reflexivity|].
  destruct (String.eqb a k); simpl; congruence.
Qed.

Lemma In_keys_insert_index n k v o k' :
  In k' (keys (insert_index n k v o)) <-> k = k' \/ In k' (keys o).
Proof.
  induction o as [|[a b] r IH]; simpl; [tauto|].
  destruct (array_index a) as [m|]; [destruct (m <? n)%N|]; simpl;
    rewrite ?IH; tauto.
Qed.

Lemma NoDup_insert_index n k v o :
  ~ In k (keys o) -> NoDup (keys o) -> NoDup (keys (insert_index n k v o)).
Proof.
  induction o as [|[a b] r IH]; simpl; intros Hk Hn.
  - constructor; [tauto | constructor].
  - inversion Hn as [|? ? Ha Hr]; subst.
    destruct (array_index a) as [m|]; [destruct (m <? n)%N|]; simpl.
    + constructor.
      * rewrite In_keys_insert_index. intros [E|E]; [subst|]; tauto.
      * apply IH; tauto.
    + constructor; [simpl; tauto | exact Hn].
    + constructor; [simpl; tauto | exact Hn].
Qed.

Lemma NoDup_set k v o : NoDup (keys o) -> NoDup (keys (set k v o)).
Proof.
  intros Hn. unfold set. destruct (hasKey k o) eqn:E.
  - rewrite keys_replace. exact Hn.
  - assert (Hk : ~ In k (keys o)).
    { intros H. apply hasKey_In in H. congruence. }
    destruct (array_index k).
    + apply NoDup_insert_index; assumption.
    + unfold keys. rewrite map_app. simpl.
      apply NoDup_app; [exact Hn | constructor; [tauto | constructor] |].
      intros x Hx [E'|[]]. subst. tauto.
Qed.

Lemma NoDup_assign (es : list (string * V)) : forall o,
  NoDup (keys o) -> NoDup (keys (assign o es)).
Proof.
  induction es as [|[a b] r IH]; intros o Hn; [exact Hn|].
  apply (IH (set a b o)), NoDup_set, Hn.
Qed.

Lemma NoDup_fromEntries (es : list (string * V)) :
  NoDup (keys (fromEntries es)).
Proof. apply NoDup_assign. constructor. Qed.

(** In an object, whose keys are distinct, the last entry with a key is
    the only one. *)
Lemma lastValue_NoDup k o : NoDup (keys o) -> lastValue k o = lookup k o.
Proof.
  induction o as [|[a b] r IH]; intros Hn; [reflexivity|].
  inversion Hn as [|? ? Ha Hr]; subst.
  rewrite lastValue_cons, (IH Hr). simpl.
  destruct (String.eqb_spec a k) as [E|E].
  - subst. apply lookup_None in Ha. rewrite Ha. reflexivity.
  - destruct (lookup k r); reflexivity.
Qed.

Lemma lastValue_fromEntries k (es : list (string * V)) :
  lastValue k (fromEntries es) = lastValue k es.
Proof.
  rewrite lastValue_NoDup by apply NoDup_fromEntries.
  apply lookup_fromEntries.
Qed.
End ObjectFacts.

(** Array-index keys come first, in numeric order. *)
Example set_order :
  keys (set "2" 1 (set "b" 2 (set "10" 3 (set "a" 4 []))))
  = ["2"; "10"; "a"; "b"].
Proof. reflexivity. Qed.

Example stringify_sample :
  JSON_stringify
    (JsObj [ ("a", JsNum 1); ("b", JsArr [JsUndefined; JsObj []]);
             ("c", JsUndefined); ("d", JsStr ("x" ++ nl)) ])
  = Some ("{" ++ nl
          ++ "  " ++ dquote ++ "a" ++ dquote ++ ": 1," ++ nl
          ++ "  " ++ dquote ++ "b" ++ dquote ++ ": [" ++ nl
          ++ "    null," ++ nl
          ++ "    {}" ++ nl
          ++ "  ]," ++ nl
          ++ "  " ++ dquote ++ "d" ++ dquote ++ ": "
          ++ dquote ++ "x" ++ backslash ++ "n" ++ dquote ++ nl
          ++ "}")%string.
Proof. reflexivity. Qed.

(** An object always has a JSON text. *)
Lemma stringify_object (ind : string) (props : list (string * JsVal)) :
  exists text, stringify ind (JsObj props) = Some text.
Proof.
  simpl.
  match goal with |- context [match ?l with [] => _ | _ :: _ => _ end] =>
    destruct l end; eexists; reflexivity.
Qed.

End JsFacts.

(* ================================================================== *)
(** * Properties of the package manifest *)
(* ================================================================== *)

Module PackageJsonFacts.
Import Js JsFacts PackageJson.

Local Open Scope string_scope.

Section Manifest.
Variable toFileUrl : string -> string.
Variable toLowerCase : string -> string.

Variable options : BuildOptions.
Variable transformOutput : TransformOutput.
Variable testOutput : option TestOutput.

Let deps := dependenciesObj toFileUrl toLowerCase options transformOutput.
Let manifestObj :=
  packageJsonObj toFileUrl toLowerCase options transformOutput testOutput.
Let shim := shimPackageOf options.

Lemma lastValue_shimEntry (used : bool) (name : string) :
  lastValue name (shimEntry options used)
  = if used && String.eqb (shim_name shim) name
    then Some (JsStr (shim_version shim)) else None.
Proof.
  unfold shimEntry, lastValue. destruct used; simpl; [|reflexivity].
  destruct (String.eqb _ name); reflexivity.
Qed.

Lemma lookup_dependenciesObj (name : string) :
  lookup name deps
  = firstOf [ userDependency options name;
              shimDependency options transformOutput name;
              mappingDependency toFileUrl toLowerCase options name;
              transformDependency transformOutput name ].
Proof.
  unfold deps, dependenciesObj, spread. rewrite !lookup_assign.
  cbn [ownEntries lookup]. rewrite lastValue_shimEntry.
  rewrite lastValue_fromEntries.
  unfold userDependency, shimDependency, mappingDependency,
    transformDependency, mappingDependencies.
  fold shim.
  destruct (lastValue name (ownEntries _)); [reflexivity|].
  destruct (shimUsed transformOutput && _); [reflexivity|].
  destruct (specifierMappingsOf toFileUrl toLowerCase options) as [m|].
  - rewrite lastValue_fromEntries. simpl.
    destruct (lastValue name (mappingEntries m)); [reflexivity|].
    destruct (lastValue name (transformEntries transformOutput));
      reflexivity.
  - simpl.
    destruct (lastValue name (transformEntries transformOutput));
      reflexivity.
Qed.

Lemma lastValue_versions (name : string) (l : list Dependency) :
  lastValue name (map (fun d => (dep_name d, JsStr (dep_version d))) l)
  = option_map JsStr (lastVersion name l).
Proof.
  induction l as [|d r IH]; [reflexivity|].
  cbn [map lastVersion]. rewrite lastValue_cons, IH.
  destruct (lastVersion name r); [reflexivity|]. simpl.
  destruct (String.eqb (dep_name d) name); reflexivity.
Qed.

Lemma lastValue_declared (name : string) (m : Obj Mapping) :
  lastValue name (mappingEntries m)
  = option_map JsStr (lastDeclared name (values m)).
Proof.
  unfold mappingEntries. induction (values m) as [|v r IH]; [reflexivity|].
  cbn [flat_map lastDeclared]. set (tail := flat_map _ r) in *.
  destruct v as [n [[|c ver]|]];
    cbn [truthyVersion declaresVersion map_version map_name List.app negb
         String.eqb andb].
  - rewrite IH. destruct (lastDeclared name r); reflexivity.
  - rewrite lastValue_cons, IH.
    destruct (lastDeclared name r); [reflexivity|]. simpl.
    destruct (String.eqb n name); reflexivity.
  - rewrite IH. destruct (lastDeclared name r); reflexivity.
Qed.

(** C4.  The manifest's [dependencies] is the merge, the later source
    overriding the earlier on a name, of the transform's dependencies,
    the specifier mappings that declare a version (one that is not the
    empty string), the shim package when the distributed transform used
    the shim, and the user's [dependencies]: a name has the value of the
    last of these sources that has it, and within the transform's
    dependencies and the mappings, of the last entry for it. *)
Theorem dependencies_merge (entryPoint : string) (rest : list string) :
  entryPoints transformOutput = entryPoint :: rest ->
  exists manifest,
    manifestObj = Some manifest
    /\ lookup "dependencies" manifest = Some (JsObj deps)
    /\ forall name,
         lookup name deps
         = firstOf
             [ userDependency options name;
               shimDependency options transformOutput name;
               option_map JsStr
                 (lastDeclared
                    name
                    (mappingValues
                       (specifierMappingsOf toFileUrl toLowerCase options)));
               option_map JsStr
                 (lastVersion name (dependencies transformOutput)) ].
Proof.
  intros He. unfold manifestObj, packageJsonObj. rewrite He.
  eexists. split; [reflexivity|]. split.
  - unfold packageJsonObjFor. rewrite !lookup_set. reflexivity.
  - intros name. rewrite lookup_dependenciesObj.
    unfold mappingDependency, transformDependency, transformEntries,
      mappingValues.
    rewrite lastValue_versions.
    destruct (specifierMappingsOf toFileUrl toLowerCase options) as [m|];
      [rewrite lastValue_declared|]; reflexivity.
Qed.

Lemma lookup_manifest_set (entryPoint : string) :
  let m := packageJsonObjFor toFileUrl toLowerCase options transformOutput
                             testOutput entryPoint in
  lookup "module" m
  = Some (nullish (field (package options) "module")
                  (JsStr ("./esm/" ++ replaceTs true ".js" entryPoint)))
  /\ lookup "main" m
     = Some (nullish (field (package options) "main")
                     (JsStr ("./cjs/" ++ replaceTs true ".js" entryPoint)))
  /\ lookup "types" m = Some (typesVal options entryPoint)
  /\ lookup "exports" m = Some (JsObj (exportsObj options entryPoint))
  /\ lookup "devDependencies" m
     = Some (devDependenciesVal toFileUrl toLowerCase options
                                transformOutput testOutput).
Proof.
  unfold packageJsonObjFor. cbv zeta. rewrite !lookup_set.
  repeat split; reflexivity.
Qed.

Lemma lookup_dotExport (entryPoint k : string) :
  lookup k (dotExport options entryPoint)
  = firstOf
      [ lastValue k
          (ownEntries
             (nullish (getPropOpt (field (package options) "exports") ".")
                      (JsObj [])));
        lookup k
          [ ("import", JsStr ("./esm/" ++ replaceTs true ".js" entryPoint));
            ("require", JsStr ("./cjs/" ++ replaceTs true ".js" entryPoint));
            ("types",
             nullish (field (package options) "types")
                     (JsStr ("./types/"
                               ++ replaceTs true ".d.ts" entryPoint))) ] ].
Proof.
  unfold dotExport, spread. rewrite lookup_assign, !lookup_set.
  destruct (lastValue k _); [reflexivity|].
  unfold typesVal, entryPointPath, entryPointDtsFilePath.
  cbn [lookup firstOf].
  destruct (String.eqb_spec "types" k) as [E|E];
    [subst k; reflexivity|].
  destruct (String.eqb_spec "require" k) as [E1|E1];
    [subst k; reflexivity|].
  destruct (String.eqb "import" k); reflexivity.
Qed.

(** C5, as amended.  [module], [main] and [types] are the user's value
    when the template has one that is neither [undefined] nor [null],
    and otherwise the path under [./esm], [./cjs], [./types] made from
    the first entry point with a final [.ts] (in any case) rewritten to
    [.js] or [.d.ts].  [exports["."]] is merged key by key: a key of
    the user's [exports["."]] has the user's value, and the keys
    [import], [require] and [types] the user's object lacks keep their
    defaults. *)
Theorem entry_point_fields (entryPoint : string) (rest : list string) :
  entryPoints transformOutput = entryPoint :: rest ->
  let js := replaceTs true ".js" entryPoint in
  let dts := replaceTs true ".d.ts" entryPoint in
  let user := field (package options) in
  exists manifest exports dot,
    manifestObj = Some manifest
    /\ lookup "module" manifest
       = Some (nullish (user "module") (JsStr ("./esm/" ++ js)))
    /\ lookup "main" manifest
       = Some (nullish (user "main") (JsStr ("./cjs/" ++ js)))
    /\ lookup "types" manifest
       = Some (nullish (user "types") (JsStr ("./types/" ++ dts)))
    /\ lookup "exports" manifest = Some (JsObj exports)
    /\ lookup "." exports = Some (JsObj dot)
    /\ forall k,
         lookup k dot
         = firstOf
             [ lastValue k
                 (ownEntries (nullish (getPropOpt (user "exports") ".")
                                      (JsObj [])));
               lookup k
                 [ ("import", JsStr ("./esm/" ++ js));
                   ("require", JsStr ("./cjs/" ++ js));
                   ("types", nullish (user "types")
                                     (JsStr ("./types/" ++ dts))) ] ].
Proof.
  intros He js dts user. unfold manifestObj, packageJsonObj. rewrite He.
  destruct (lookup_manifest_set entryPoint) as (Hmod & Hmain & Hty & Hex & _).
  exists (packageJsonObjFor toFileUrl toLowerCase options transformOutput
                            testOutput entryPoint),
         (exportsObj options entryPoint), (dotExport options entryPoint).
  split; [reflexivity|].
  split; [exact Hmod|]. split; [exact Hmain|]. split; [exact Hty|].
  split; [exact Hex|]. split.
  - unfold exportsObj. rewrite lookup_set. reflexivity.
  - intros k. apply lookup_dotExport.
Qed.

Lemma andb_negb_true (b : bool) : b && negb true = false.
Proof. destruct b; reflexivity. Qed.

(** C6, as amended.  When there are tests and the shim package's name
    is already a key of the computed [dependencies], the builder adds no
    shim entry to [devDependencies]: the name is a key of
    [devDependencies] exactly when the test transform's dependencies or
    the user's [devDependencies] have it. *)
Theorem devDependencies_shim (t : TestOutput) (entryPoint : string)
        (rest : list string) :
  testOutput = Some t ->
  entryPoints transformOutput = entryPoint :: rest ->
  includes (keys deps) (shim_name shim) = true ->
  exists manifest dev,
    manifestObj = Some manifest
    /\ lookup "devDependencies" manifest = Some (JsObj dev)
    /\ (includes (keys dev) (shim_name shim) = true
        <-> In (shim_name shim) (map dep_name (test_dependencies t))
            \/ In (shim_name shim) (keys (userDevEntries options))).
Proof.
  intros Ht He Hin. unfold manifestObj, packageJsonObj. rewrite He.
  destruct (lookup_manifest_set entryPoint) as (_ & _ & _ & _ & Hdev).
  unfold devDependenciesVal in Hdev. rewrite Ht in Hdev |- *.
  fold deps shim in Hdev. rewrite Hin, andb_negb_true in Hdev.
  eexists. eexists. split; [reflexivity|]. split; [exact Hdev|].
  rewrite includes_In, <- hasKey_In. unfold hasKey, spread.
  rewrite !lookup_assign. cbn [ownEntries lookup].
  rewrite lastValue_shimEntry, lastValue_fromEntries. cbn [andb].
  fold (userDevEntries options).
  destruct (lastValue _ (userDevEntries options)) eqn:Eu.
  - split; [intros _ | reflexivity]. right.
    destruct (in_dec string_dec (shim_name shim)
                     (keys (userDevEntries options))) as [H|H];
      [exact H|].
    apply lastValue_None in H. congruence.
  - apply lastValue_None in Eu.
    destruct (lastValue _ (testEntries t)) eqn:Et.
    + split; [intros _ | reflexivity]. left.
      destruct (in_dec string_dec (shim_name shim)
                       (map dep_name (test_dependencies t))) as [H|H];
        [exact H|].
      exfalso. assert (Hn : lastValue (shim_name shim) (testEntries t) = None).
      { apply lastValue_None. unfold testEntries. rewrite map_map. exact H. }
      congruence.
    + apply lastValue_None in Et. unfold testEntries in Et.
      rewrite map_map in Et. simpl in Et.
      split; [discriminate|]. intros [H|H]; [tauto|].
      exfalso. apply Eu, H.
Qed.

Variable path_join : string -> string -> string.
Variable path_dirname : string -> string.

Lemma lastWrite_app (path : string) (ops1 ops2 : list FsOp) :
  lastWrite path (ops1 ++ ops2)
  = match lastWrite path ops2 with
    | Some t => Some t
    | None => lastWrite path ops1
    end.
Proof.
  induction ops1 as [|op r IH]; simpl.
  - destruct (lastWrite path ops2); reflexivity.
  - rewrite IH. destruct (lastWrite path ops2); reflexivity.
Qed.

Lemma lastWrite_doWriteFile (path text : string) (st : BuildState) :
  lastWrite path (fsOps (doWriteFile path_dirname options path text st))
  = Some text.
Proof.
  unfold doWriteFile.
  destruct (writeFile options);
    [|destruct (includes (createdDirectories st) (path_dirname path))];
    simpl; rewrite lastWrite_app; simpl; rewrite String.eqb_refl;
    reflexivity.
Qed.

(** C8.  From the same transform result, test result and configuration,
    two runs of [createPackageJson], whatever directories each has
    created and whatever each has written before, write the same text
    to [package.json]. *)
Theorem manifest_text_deterministic (entryPoint : string)
        (rest : list string) (st1 st2 : BuildState) :
  entryPoints transformOutput = entryPoint :: rest ->
  let run := createPackageJson path_join path_dirname toFileUrl toLowerCase
                               options transformOutput testOutput in
  let target := path_join (outDir options) "package.json" in
  exists text st1' st2',
    run st1 = Some st1' /\ run st2 = Some st2'
    /\ lastWrite target (fsOps st1') = Some text
    /\ lastWrite target (fsOps st2') = Some text.
Proof.
  intros He run target. subst run target.
  unfold createPackageJson, packageJsonText, packageJsonObj. rewrite He.
  unfold JSON_stringify.
  destruct (stringify_object
              ""
              (packageJsonObjFor toFileUrl toLowerCase options
                                 transformOutput testOutput entryPoint))
    as [text Ht].
  rewrite Ht. exists text. eexists. eexists.
  split; [reflexivity|]. split; [reflexivity|].
  split; apply lastWrite_doWriteFile.
Qed.
End Manifest.

Example replaceTs_samples :
  replaceTs true ".js" "mod.TS" = "mod.js"
  /\ replaceTs false ".js" "mod.TS" = "mod.TS"
  /\ replaceTs true ".d.ts" "a.ts.ts" = "a.ts.d.ts"
  /\ replaceTs true ".js" "mod.tsx" = "mod.tsx".
Proof. repeat split. Qed.

(** The merged [dependencies] of the sample: the user's [chalk]
    overrides the transform's; the second mapping to [dep] overrides
    the first; the mappings to [y] and [z] declare no version. *)
Example dependencies_sample :
  dependenciesObj sampleFileUrl sampleLowerCase mappedTemplate sampleTransform
  = [ ("chalk", JsStr "5.0.0"); ("dep", JsStr "1.2.3");
      ("deno.ns", JsStr "0.5.0") ].
Proof. reflexivity. Qed.

Lemma dependencies_merge_witness :
  entryPoints mappedTransform = ["mod.ts"]
  /\ exists manifest deps,
       packageJsonObj sampleFileUrl sampleLowerCase mappedTemplate
                      mappedTransform (Some sampleTest) = Some manifest
       /\ lookup "dependencies" manifest = Some (JsObj deps)
       /\ lookup "chalk" deps = Some (JsStr "5.0.0")
       /\ lookup "dep" deps = Some (JsStr "1.2.3")
       /\ lookup "ky" deps = Some (JsStr "0.30.0")
       /\ lookup "deno.ns" deps = Some (JsStr "0.5.0")
       /\ lookup "y" deps = None
       /\ lookup "z" deps = None.
Proof.
  split; [reflexivity|].
  destruct (dependencies_merge sampleFileUrl sampleLowerCase mappedTemplate
                               mappedTransform (Some sampleTest) "mod.ts" []
                               eq_refl)
    as (manifest & Hm & Hd & Hall).
  exists manifest. eexists. split; [exact Hm|]. split; [exact Hd|].
  rewrite !Hall. repeat split.
Defined.

Lemma entry_point_fields_witness :
  entryPoints sampleTransform = ["mod.ts"]
  /\ exists manifest exports dot,
       packageJsonObj sampleFileUrl sampleLowerCase exportsTemplate
                      sampleTransform None = Some manifest
       /\ lookup "module" manifest
          = Some (nullish (field (package exportsTemplate) "module")
                          (JsStr ("./esm/" ++ replaceTs true ".js" "mod.ts")))
       /\ lookup "main" manifest
          = Some (nullish (field (package exportsTemplate) "main")
                          (JsStr ("./cjs/" ++ replaceTs true ".js" "mod.ts")))
       /\ lookup "types" manifest
          = Some (nullish (field (package exportsTemplate) "types")
                          (JsStr ("./types/"
                                    ++ replaceTs true ".d.ts" "mod.ts")))
       /\ lookup "exports" manifest = Some (JsObj exports)
       /\ lookup "." exports = Some (JsObj dot)
       /\ forall k,
            lookup k dot
            = firstOf
                [ lastValue k
                    (ownEntries
                       (nullish
                          (getPropOpt (field (package exportsTemplate)
                                             "exports") ".")
                          (JsObj [])));
                  lookup k
                    [ ("import",
                       JsStr ("./esm/" ++ replaceTs true ".js" "mod.ts"));
                      ("require",
                       JsStr ("./cjs/" ++ replaceTs true ".js" "mod.ts"));
                      ("types",
                       nullish (field (package exportsTemplate) "types")
                               (JsStr ("./types/"
                                         ++ replaceTs true ".d.ts"
                                              "mod.ts"))) ] ].
Proof.
  split; [reflexivity|].
  exact (entry_point_fields sampleFileUrl sampleLowerCase exportsTemplate
                            sampleTransform None "mod.ts" [] eq_refl).
Defined.

(** C5 as stated fails for [exports["."]]: the template gives
    [exports["."]] as [{ import: "./custom.mjs" }], and the manifest's
    [exports["."]] is that object with the default [require] and [types]
    paths merged into it. *)
Lemma exports_dot_counterexample :
  getPropOpt (field (package exportsTemplate) "exports") "."
  = JsObj [("import", JsStr "./custom.mjs")]
  /\ exists manifest exports,
       packageJsonObj sampleFileUrl sampleLowerCase exportsTemplate
                      sampleTransform None = Some manifest
       /\ lookup "exports" manifest = Some (JsObj exports)
       /\ lookup "." exports
          = Some (JsObj [ ("import", JsStr "./custom.mjs");
                          ("require", JsStr "./cjs/mod.js");
                          ("types", JsStr "./types/mod.d.ts") ])
       /\ lookup "." exports
          <> Some (getPropOpt (field (package exportsTemplate) "exports") ".").
Proof.
  split; [reflexivity|].
  eexists. eexists. split; [reflexivity|]. split; [reflexivity|].
  split; [reflexivity|]. vm_compute. discriminate.
Qed.

Lemma devDependencies_shim_witness :
  Some sampleTest = Some sampleTest
  /\ entryPoints sampleTransform = ["mod.ts"]
  /\ includes (keys (dependenciesObj sampleFileUrl sampleLowerCase
                                     plainTemplate sampleTransform))
              (shim_name (shimPackageOf plainTemplate)) = true
  /\ exists manifest dev,
       packageJsonObj sampleFileUrl sampleLowerCase plainTemplate
                      sampleTransform (Some sampleTest) = Some manifest
       /\ lookup "devDependencies" manifest = Some (JsObj dev)
       /\ (includes (keys dev) (shim_name (shimPackageOf plainTemplate))
           = true
           <-> In (shim_name (shimPackageOf plainTemplate))
                  (map dep_name (test_dependencies sampleTest))
               \/ In (shim_name (shimPackageOf plainTemplate))
                     (keys (userDevEntries plainTemplate))).
Proof.
  split; [reflexivity|]. split; [reflexivity|]. split; [reflexivity|].
  exact (devDependencies_shim sampleFileUrl sampleLowerCase plainTemplate
                              sampleTransform (Some sampleTest) sampleTest
                              "mod.ts" [] eq_refl eq_refl eq_refl).
Defined.

(** C6 as stated fails: the distributed code uses the shim, so
    [deno.ns] is a key of [dependencies]; the template lists [deno.ns]
    in [devDependencies], and the manifest's [devDependencies] has it. *)
Lemma devDependencies_shim_counterexample :
  exists manifest deps dev,
    packageJsonObj sampleFileUrl sampleLowerCase devShimTemplate
                   sampleTransform (Some sampleTest) = Some manifest
    /\ shim_name (shimPackageOf devShimTemplate) = "deno.ns"
    /\ lookup "dependencies" manifest = Some (JsObj deps)
    /\ lookup "devDependencies" manifest = Some (JsObj dev)
    /\ includes (keys deps) "deno.ns" = true
    /\ includes (keys dev) "deno.ns" = true.
Proof.
  eexists. eexists. eexists.
  split; [reflexivity|]. split; [reflexivity|]. split; [reflexivity|].
  split; [reflexivity|]. split; reflexivity.
Qed.

Lemma manifest_text_deterministic_witness :
  entryPoints sampleTransform = ["mod.ts"]
  /\ exists text st1' st2',
       createPackageJson sampleJoin sampleDirname sampleFileUrl
                         sampleLowerCase mappedTemplate sampleTransform
                         (Some sampleTest) freshState = Some st1'
       /\ createPackageJson sampleJoin sampleDirname sampleFileUrl
                            sampleLowerCase mappedTemplate sampleTransform
                            (Some sampleTest) laterState = Some st2'
       /\ lastWrite (sampleJoin (outDir mappedTemplate) "package.json")
                    (fsOps st1') = Some text
       /\ lastWrite (sampleJoin (outDir mappedTemplate) "package.json")
                    (fsOps st2') = Some text.
Proof.
  split; [reflexivity|].
  exact (manifest_text_deterministic sampleFileUrl sampleLowerCase
                                     mappedTemplate sampleTransform
                                     (Some sampleTest) sampleJoin
                                     sampleDirname "mod.ts" [] freshState
                                     laterState eq_refl).
Defined.

End PackageJsonFacts.

(* ================================================================== *)
(** * Properties of the test harness *)
(* ================================================================== *)

Module HarnessFacts.
Import Js Harness.

Local Open Scope string_scope.

Lemma hasFailingChild_spec (ch : list TestContext) :
  hasFailingChild ch = true
  <-> exists c, In c ch /\ (status c = fail \/ status c = pending).
Proof.
  unfold hasFailingChild. rewrite existsb_exists.
  split; intros [c [Hin Hs]]; exists c; (split; [exact Hin|]).
  - destruct (status c); simpl in Hs; try discriminate; auto.
  - destruct Hs as [Hs|Hs]; rewrite Hs; reflexivity.
Qed.

(** The output of the context of a top-level test is never empty. *)
Lemma getOutput_top (ch : list TestContext) :
  Nat.ltb 0 (String.length (getOutput (mkContext None ok None ch))) = true.
Proof. destruct ch; reflexivity. Qed.

Lemma step_not_ignored (d : TestDefinition) (cs : list string) :
  def_ignored d = false ->
  step d cs
  = match runBody (fn d) [] (cs ++ [def_name d]) with
    | (Returned, ch, cs') =>
        if hasFailingChild ch
        then (mkContext (Some (def_name d)) fail None ch, false, cs')
        else (mkContext (Some (def_name d)) ok None ch, true, cs')
    | (Threw e, ch, cs') =>
        (mkContext (Some (def_name d)) fail (Some e) ch, false, cs')
    end.
Proof. destruct d as [n i f]; simpl; intros ->; reflexivity. Qed.

(** C1.  For a definition that is not ignored and whose function returns
    without throwing, leaving the children [ch]: when some child of [ch]
    has status [fail] or [pending], the step's context is stored with
    status [fail] and the step resolves to [false], and the top-level
    loop records the failure "Had failing test step." and prints [fail];
    when no child has, the step's context has status [ok] and the step
    resolves to [true], and the top-level loop records nothing and
    prints [ok]. *)
Theorem completed_body_reported (d : TestDefinition) (r : Run)
        (ch : list TestContext) (cs' : list string) :
  def_ignored d = false ->
  runBody (fn d) [] (calls r ++ [def_name d]) = (Returned, ch, cs') ->
  let shown := (stdout r ++ (def_name d ++ " ..."))
                 ++ getOutput (mkContext None ok None ch) in
  ((exists c, In c ch /\ (status c = fail \/ status c = pending)) ->
   step d (calls r) = (mkContext (Some (def_name d)) fail None ch, false, cs')
   /\ runDefinition d r
      = mkRun (shown ++ ("fail" ++ nl))
              (testFailures r
                 ++ [mkFailure (def_name d)
                               (newError "Had failing test step.")])
              cs')
  /\ (~ (exists c, In c ch /\ (status c = fail \/ status c = pending)) ->
      step d (calls r) = (mkContext (Some (def_name d)) ok None ch, true, cs')
      /\ runDefinition d r = mkRun (shown ++ ("ok" ++ nl)) (testFailures r) cs').
Proof.
  intros Hi Hb shown. subst shown.
  rewrite (step_not_ignored d (calls r) Hi), Hb.
  unfold runDefinition. rewrite Hi. cbn [write calls stdout testFailures].
  rewrite Hb. rewrite <- hasFailingChild_spec.
  destruct (hasFailingChild ch); cbn [pushFailure write stdout testFailures calls];
    rewrite getOutput_top; cbn [write stdout testFailures calls].
  - split; [intros _; split; reflexivity | intros H; exfalso; apply H; reflexivity].
  - split; [discriminate | intros _; split; reflexivity].
Qed.

Lemma completed_body_reported_witness :
  def_ignored forgetful = false
  /\ runBody (fn forgetful) [] (calls (mkRun "" [] []) ++ [def_name forgetful])
     = (Returned, [mkContext (Some "slow") pending None []],
        ["forgets"; "slow"])
  /\ (exists c, In c [mkContext (Some "slow") pending None []]
                /\ (status c = fail \/ status c = pending))
  /\ step forgetful []
     = (mkContext (Some "forgets") fail None
                  [mkContext (Some "slow") pending None []],
        false, ["forgets"; "slow"])
  /\ testFailures (runDefinition forgetful (mkRun "" [] []))
     = [mkFailure "forgets" (newError "Had failing test step.")].
Proof.
  assert (Hi : def_ignored forgetful = false) by reflexivity.
  assert (Hb : runBody (fn forgetful) []
                       (calls (mkRun "" [] []) ++ [def_name forgetful])
               = (Returned, [mkContext (Some "slow") pending None []],
                  ["forgets"; "slow"])) by reflexivity.
  assert (Hc : exists c, In c [mkContext (Some "slow") pending None []]
                         /\ (status c = fail \/ status c = pending)).
  { eexists. split; [left; reflexivity | right; reflexivity]. }
  split; [exact Hi|]. split; [exact Hb|]. split; [exact Hc|].
  destruct (completed_body_reported forgetful (mkRun "" [] []) _ _ Hi Hb)
    as [Hfail _].
  destruct (Hfail Hc) as [Hs Hr]. split; [exact Hs|].
  rewrite Hr. reflexivity.
Defined.

(** C9.  For an ignored definition: the top-level loop writes the name,
    [ ...] and [ ignored], records no failure, makes no call, and goes on
    with the rest of the definitions; [step] stores a context with status
    [ignored], resolves to [false] and makes no call; and neither depends
    on the definition's function. *)
Theorem ignored_body_not_invoked (d : TestDefinition) (r : Run)
        (rest : list TestDefinition) (cs : list string) :
  def_ignored d = true ->
  runDefinition d r
  = mkRun ((stdout r ++ (def_name d ++ " ...")) ++ (" ignored" ++ nl))
          (testFailures r) (calls r)
  /\ runAll (d :: rest) r
     = runAll rest
         (mkRun ((stdout r ++ (def_name d ++ " ...")) ++ (" ignored" ++ nl))
                (testFailures r) (calls r))
  /\ step d cs = (mkContext (Some (def_name d)) ignored None [], false, cs)
  /\ forall f : Body,
       runDefinition (mkDefinition (def_name d) true f) r = runDefinition d r
       /\ step (mkDefinition (def_name d) true f) cs = step d cs.
Proof.
  destruct d as [n i f]. simpl. intros ->.
  assert (H : forall g, runDefinition (mkDefinition n true g) r
                        = mkRun ((stdout r ++ (n ++ " ..."))
                                   ++ (" ignored" ++ nl))
                                (testFailures r) (calls r))
    by (intros g; reflexivity).
  split; [apply H|]. split; [unfold runAll; simpl; rewrite H; reflexivity|].
  split; [reflexivity|].
  intros g. split; [rewrite !H; reflexivity | reflexivity].
Qed.

Lemma ignored_body_not_invoked_witness :
  def_ignored skipped = true
  /\ runDefinition skipped (mkRun "" [] [])
     = mkRun ("skipped ... ignored" ++ nl) [] []
  /\ step skipped [] = (mkContext (Some "skipped") ignored None [], false, []).
Proof.
  split; [reflexivity|].
  destruct (ignored_body_not_invoked skipped (mkRun "" [] []) [] [] eq_refl)
    as (Hr & _ & Hs & _).
  split; [exact Hr | exact Hs].
Defined.

(** The report of a test that awaits a failing step, starts another
    without awaiting it, and awaits an ignored one. *)
Example getOutput_sample :
  stdout
    (runDefinition
       (mkDefinition "outer" false
          (AwaitStep throwing
             (fun _ => StartStep "slow" false
                         (AwaitStep skipped (fun _ => Return)))))
       (mkRun "" [] []))
  = "outer ..." ++ nl
    ++ "  throws ..." ++ nl
    ++ "    Error: boom" ++ nl
    ++ "  fail" ++ nl
    ++ "  slow ... pending" ++ nl
    ++ "  skipped ... ignored" ++ nl
    ++ "fail" ++ nl.
Proof. reflexivity. Qed.

(** ** The main loop *)

Section MainLoop.
Variable modules : Format -> string -> Evaluation.
Local Open Scope list_scope.

Lemma append_assoc (a b c : string) :
  ((a ++ b) ++ c)%string = (a ++ (b ++ c))%string.
Proof. induction a; simpl; congruence. Qed.

Lemma append_nil_r (a : string) : (a ++ "")%string = a.
Proof. induction a; simpl; congruence. Qed.










End MainLoop.


(** The output of that run: the lines of the two tests, then the
    summary. *)
Example main_stops_output :
  out (fst (main sampleModules true ["a.js"; "b.js"] startProcess))
  = nl ++ "Running tests in ./cjs/a.js..." ++ nl ++ nl
    ++ "passes ... ok" ++ nl
    ++ "throws ... fail" ++ nl
    ++ nl ++ "FAILURES" ++ nl ++ nl
    ++ "throws" ++ nl
    ++ "  Error: boom" ++ nl
    ++ nl.
Proof. reflexivity. Qed.

(** A module that throws when it is evaluated: [main] is rejected with
    what it threw, after the CommonJS build was loaded and drained, and
    the entry point after it is not loaded. *)
Example main_rejected_by_module :
  let run := main sampleModules true ["broken.js"; "b.js"] startProcess in
  snd run = Rejected (newError "Cannot find module")
  /\ events (fst run)
     = [ Loaded CJS "./cjs/broken.js"; Drained ["passes"] 0;
         Loaded ESM "./esm/broken.js" ]
  /\ invoked (fst run) = ["passes"].
Proof. vm_compute. repeat split. Qed.

(** A script emitted without the runner: the first call of
    [runTestDefinitions] rejects [main], after the first module is
    loaded and before any test runs. *)
Example main_without_runner :
  let run := main sampleModules false ["b.js"] startProcess in
  snd run = Rejected referenceError
  /\ events (fst run) = [Loaded CJS "./cjs/b.js"]
  /\ invoked (fst run) = [].
Proof. vm_compute. repeat split. Qed.

(** Two entry points whose tests pass: every build is loaded and
    drained, and [main] returns. *)
Example main_all_pass :
  let run := main sampleModules true ["b.js"; "c.js"] startProcess in
  snd run = Finished
  /\ events (fst run)
     = [ Loaded CJS "./cjs/b.js"; Drained ["passes"] 0;
         Loaded ESM "./esm/b.js"; Drained ["passes"] 0;
         Loaded CJS "./cjs/c.js"; Drained ["passes"] 0;
         Loaded ESM "./esm/c.js"; Drained ["passes"] 0 ]
  /\ invoked (fst run) = ["passes"; "passes"; "passes"; "passes"].
Proof. vm_compute. repeat split. Qed.

(** A test registered by a running test is not run by the pass that
    runs that test: it is drained by the next pass. *)
Example registered_while_running :
  let run :=
    main (fun f _ => match f with
                     | CJS => Completes [registering]
                     | ESM => Completes []
                     end)
         true ["r.js"] startProcess in
  snd run = Finished
  /\ events (fst run)
     = [ Loaded CJS "./cjs/r.js"; Drained ["registers"] 0;
         Loaded ESM "./esm/r.js"; Drained ["passes"] 0 ].
Proof. vm_compute. repeat split. Qed.

End HarnessFacts.

(* ================================================================== *)
(** * Further properties of the shim resolution *)
(* ================================================================== *)

Module ShimsExtra.
Import Shims ShimsFacts.

Lemma Subsequence_refl {A : Type} (l : list A) : Subsequence l l.
Proof. induction l; constructor; assumption. Qed.

Lemma Subsequence_nil {A : Type} (l : list A) : Subsequence [] l.
Proof. induction l; constructor; assumption. Qed.

Lemma Subsequence_app {A : Type} (a a' b b' : list A) :
  Subsequence a a' -> Subsequence b b' -> Subsequence (a ++ b) (a' ++ b').
Proof.
  intros Ha Hb. induction Ha; simpl; try constructor; assumption.
Qed.

Lemma Subsequence_In {A : Type} (l1 l2 : list A) (x : A) :
  Subsequence l1 l2 -> In x l1 -> In x l2.
Proof.
  intros H. induction H; simpl; intros Hin; [exact Hin | | auto].
  destruct Hin; auto.
Qed.

Lemma Subsequence_map {A B : Type} (f : A -> B) (l1 l2 : list A) :
  Subsequence l1 l2 -> Subsequence (map f l1) (map f l2).
Proof. intros H. induction H; simpl; constructor; assumption. Qed.

Lemma Subsequence_NoDup {A : Type} (l1 l2 : list A) :
  Subsequence l1 l2 -> NoDup l2 -> NoDup l1.
Proof.
  intros H. induction H; intros Hn; [constructor | |];
    inversion Hn as [|? ? Hx Hr]; subst; auto.
  constructor; auto. intros Hin. apply Hx.
  eapply Subsequence_In; eassumption.
Qed.

Lemma Subsequence_length {A : Type} (l1 l2 : list A) :
  Subsequence l1 l2 -> List.length l1 <= List.length l2.
Proof. intros H. induction H; simpl; lia. Qed.

Lemma distPart_testPart (o : option ShimValue) (s : Shim) :
  Subsequence (distPart o s) (testPart o s).
Proof. destruct o as [[[|]|]|]; simpl; repeat constructor. Qed.

Lemma denoDist_denoTest (d : option DenoOption) :
  Subsequence (denoDist d) (denoTest d).
Proof.
  destruct d as [[v|t]|]; unfold denoDist, denoTest;
    try apply distPart_testPart; constructor.
Qed.

Lemma testPart_one (o : option ShimValue) (s : Shim) :
  Subsequence (testPart o s) [s].
Proof. destruct o as [[[|]|]|]; simpl; repeat constructor. Qed.

Lemma distPart_one (o : option ShimValue) (s : Shim) :
  Subsequence (distPart o s) [s].
Proof. destruct o as [[[|]|]|]; simpl; repeat constructor. Qed.

Lemma resolve_subsequence (options : ShimOptions) :
  Subsequence (shims (shimOptionsToTransformShims options))
              (testShims (shimOptionsToTransformShims options)).
Proof.
  rewrite resolve_parts. simpl.
  repeat (apply Subsequence_app;
          [ first [ apply denoDist_denoTest | apply distPart_testPart ] | ]).
  rewrite <- (app_nil_r (customOf (custom options))) at 1.
  apply Subsequence_app; [apply Subsequence_refl | apply Subsequence_nil].
Qed.

(** X1.  The distributed list is the test list with some entries left
    out: the entries of [shims] are entries of [testShims], in the same
    order, and [shims] is never the longer list. *)
Theorem shims_subsequence (options : ShimOptions) :
  Subsequence (shims (shimOptionsToTransformShims options))
              (testShims (shimOptionsToTransformShims options))
  /\ List.length (shims (shimOptionsToTransformShims options))
     <= List.length (testShims (shimOptionsToTransformShims options)).
Proof.
  split; [|apply Subsequence_length]; apply resolve_subsequence.
Qed.

(** The entries the six rules push to [testShims], for either form of
    the [deno] option. *)
Lemma builtin_test_part (o : ShimOptions) :
  exists denoShim,
    (denoShim = getDenoShim \/ denoShim = getDenoTestShim)
    /\ Subsequence
         (denoTest (deno o)
            ++ testPart (blob o) getBlobShim
            ++ testPart (crypto o) getCryptoShim
            ++ testPart (prompts o) getPromptsShim
            ++ testPart (timers o) getTimersShim
            ++ testPart (undici o) getUndiciShim)
         [ denoShim; getBlobShim; getCryptoShim; getPromptsShim;
           getTimersShim; getUndiciShim ].
Proof.
  assert (H : Subsequence
                 (testPart (blob o) getBlobShim
                    ++ testPart (crypto o) getCryptoShim
                    ++ testPart (prompts o) getPromptsShim
                    ++ testPart (timers o) getTimersShim
                    ++ testPart (undici o) getUndiciShim)
                 [ getBlobShim; getCryptoShim; getPromptsShim;
                   getTimersShim; getUndiciShim ]).
  { apply (Subsequence_app _ [getBlobShim]); [apply testPart_one|].
    apply (Subsequence_app _ [getCryptoShim]); [apply testPart_one|].
    apply (Subsequence_app _ [getPromptsShim]); [apply testPart_one|].
    apply (Subsequence_app _ [getTimersShim]); [apply testPart_one|].
    apply testPart_one. }
  destruct (deno o) as [[v|t]|]; unfold denoTest.
  - exists getDenoShim. split; [auto|].
    apply (Subsequence_app _ [getDenoShim]); [apply testPart_one | exact H].
  - exists getDenoTestShim. split; [auto|].
    apply (Subsequence_app _ [getDenoTestShim]);
      [apply testPart_one | exact H].
  - exists getDenoShim. split; [auto|].
    apply (Subsequence_app [] [getDenoShim]);
      [repeat constructor | exact H].
Qed.

(** X2.  Without custom shims, no two entries of [testShims], and so no
    two entries of [shims], name the same package. *)
Theorem package_names_distinct (options : ShimOptions) :
  customOf (custom options) = [] ->
  customOf (customDev options) = [] ->
  NoDup (map packageName (testShims (shimOptionsToTransformShims options)))
  /\ NoDup (map packageName (shims (shimOptionsToTransformShims options))).
Proof.
  intros Hc Hd.
  assert (Ht : NoDup (map packageName
                          (testShims (shimOptionsToTransformShims options)))).
  { rewrite resolve_parts. simpl. rewrite Hc, Hd, !app_nil_r.
    destruct (builtin_test_part options) as [dn [Hdn Hs]].
    apply (Subsequence_map packageName) in Hs.
    apply (Subsequence_NoDup _ _ Hs).
    destruct Hdn; subst dn; vm_compute;
      repeat (constructor; [simpl; intuition discriminate|]); constructor. }
  split; [exact Ht|].
  eapply Subsequence_NoDup; [|exact Ht].
  apply Subsequence_map, resolve_subsequence.
Qed.

Lemma package_names_distinct_witness :
  customOf (custom mixed) = [] /\ customOf (customDev mixed) = []
  /\ NoDup (map packageName (testShims (shimOptionsToTransformShims mixed)))
  /\ NoDup (map packageName (shims (shimOptionsToTransformShims mixed))).
Proof.
  split; [reflexivity|]. split; [reflexivity|].
  exact (package_names_distinct mixed eq_refl eq_refl).
Defined.

Lemma builtin_test_In (o : ShimOptions) (s : Shim) :
  In s (denoTest (deno o)
          ++ testPart (blob o) getBlobShim
          ++ testPart (crypto o) getCryptoShim
          ++ testPart (prompts o) getPromptsShim
          ++ testPart (timers o) getTimersShim
          ++ testPart (undici o) getUndiciShim) ->
  In s builtins.
Proof.
  destruct (builtin_test_part o) as [dn [Hdn Hs]]. intros Hin.
  apply (Subsequence_In _ _ s Hs) in Hin. unfold builtins. simpl in *.
  destruct Hdn; subst dn; intuition.
Qed.

(** X3.  The custom shims are appended as given, after everything the
    capability rules push: [shims] ends with [custom], [testShims] ends
    with [custom] followed by [customDev], and what comes before is at
    most six entries, each one of the seven built-in descriptors. *)
Theorem custom_appended_last (options : ShimOptions) :
  exists dist test,
    shims (shimOptionsToTransformShims options)
    = dist ++ customOf (custom options)
    /\ testShims (shimOptionsToTransformShims options)
       = test ++ customOf (custom options) ++ customOf (customDev options)
    /\ Subsequence dist test
    /\ (forall s, In s test -> In s builtins)
    /\ List.length test <= 6.
Proof.
  rewrite resolve_parts. simpl.
  exists (denoDist (deno options)
            ++ distPart (blob options) getBlobShim
            ++ distPart (crypto options) getCryptoShim
            ++ distPart (prompts options) getPromptsShim
            ++ distPart (timers options) getTimersShim
            ++ distPart (undici options) getUndiciShim),
         (denoTest (deno options)
            ++ testPart (blob options) getBlobShim
            ++ testPart (crypto options) getCryptoShim
            ++ testPart (prompts options) getPromptsShim
            ++ testPart (timers options) getTimersShim
            ++ testPart (undici options) getUndiciShim).
  split; [rewrite <- !app_assoc; reflexivity|].
  split; [rewrite <- !app_assoc; reflexivity|].
  split.
  - repeat (apply Subsequence_app;
            [ first [ apply denoDist_denoTest | apply distPart_testPart ] | ]).
    apply distPart_testPart.
  - split; [intros s; apply builtin_test_In|].
    destruct (builtin_test_part options) as [dn [_ Hs]].
    apply Subsequence_length in Hs. exact Hs.
Qed.

Lemma custom_appended_last_witness :
  exists dist test,
    shims (shimOptionsToTransformShims timersTwice)
    = dist ++ customOf (custom timersTwice)
    /\ testShims (shimOptionsToTransformShims timersTwice)
       = test ++ customOf (custom timersTwice)
              ++ customOf (customDev timersTwice)
    /\ Subsequence dist test
    /\ (forall s, In s test -> In s builtins)
    /\ List.length test <= 6.
Proof. exact (custom_appended_last timersTwice). Defined.

Lemma distPart_isTrue (o : option ShimValue) (s : Shim) :
  distPart o s = if isTrue o then [s] else [].
Proof. destruct o as [[[|]|]|]; reflexivity. Qed.

Lemma denoDist_isTrue (d : option DenoOption) :
  List.length (denoDist d)
  = if match d with
       | Some (DenoValue v) | Some (DenoObject v) => isTrue (Some v)
       | None => false
       end
    then 1 else 0.
Proof. destruct d as [[[[|]|]|[[|]|]]|]; reflexivity. Qed.

(** X4.  The distributed list is exactly the [custom] list if and only
    if no rule is applied with the value [true]: an option that is
    ["dev"], [false] or absent puts nothing in [shims]. *)
Theorem dev_never_distributed (options : ShimOptions) :
  anyTrue options = false
  <-> shims (shimOptionsToTransformShims options) = customOf (custom options).
Proof.
  rewrite resolve_parts. simpl. unfold anyTrue.
  assert (L : List.length
                (denoDist (deno options)
                   ++ distPart (blob options) getBlobShim
                   ++ distPart (crypto options) getCryptoShim
                   ++ distPart (prompts options) getPromptsShim
                   ++ distPart (timers options) getTimersShim
                   ++ distPart (undici options) getUndiciShim
                   ++ customOf (custom options))
              = (if match deno options with
                    | Some (DenoValue v) | Some (DenoObject v) =>
                        isTrue (Some v)
                    | None => false
                    end then 1 else 0)
                + (if isTrue (blob options) then 1 else 0)
                + (if isTrue (crypto options) then 1 else 0)
                + (if isTrue (prompts options) then 1 else 0)
                + (if isTrue (timers options) then 1 else 0)
                + (if isTrue (undici options) then 1 else 0)
                + List.length (customOf (custom options))).
  { rewrite !List.length_app, denoDist_isTrue, !distPart_isTrue.
    destruct (isTrue (blob options)), (isTrue (crypto options)),
      (isTrue (prompts options)), (isTrue (timers options)),
      (isTrue (undici options)); simpl; lia. }
  split.
  - intros H.
    apply orb_false_elim in H as [H Hu]. apply orb_false_elim in H as [H Ht].
    apply orb_false_elim in H as [H Hp]. apply orb_false_elim in H as [H Hc].
    apply orb_false_elim in H as [Hd Hb].
    rewrite !distPart_isTrue, Hu, Ht, Hp, Hc, Hb.
    assert (E : denoDist (deno options) = []).
    { apply length_zero_iff_nil. rewrite denoDist_isTrue, Hd. reflexivity. }
    rewrite E. reflexivity.
  - intros E. rewrite E in L.
    destruct (match deno options with
              | Some (DenoValue v) | Some (DenoObject v) => isTrue (Some v)
              | None => false
              end), (isTrue (blob options)), (isTrue (crypto options)),
      (isTrue (prompts options)), (isTrue (timers options)),
      (isTrue (undici options)); simpl in *; try reflexivity; lia.
Qed.

Lemma dev_never_distributed_witness :
  anyTrue devOnly = false
  /\ shims (shimOptionsToTransformShims devOnly) = customOf (custom devOnly).
Proof.
  split; [reflexivity|].
  exact (proj1 (dev_never_distributed devOnly) eq_refl).
Defined.

(** X5.  Without custom shims, the two namespace descriptors are never
    in the lists together: the object form of [deno] replaces the full
    [Deno] descriptor, it does not add to it. *)
Theorem deno_descriptors_exclusive (options : ShimOptions) :
  customOf (custom options) = [] ->
  customOf (customDev options) = [] ->
  ~ (In getDenoShim (testShims (shimOptionsToTransformShims options))
     /\ In getDenoTestShim (testShims (shimOptionsToTransformShims options))).
Proof.
  intros Hc Hd. rewrite resolve_parts. simpl. rewrite Hc, Hd, !app_nil_r.
  destruct (builtin_test_part options) as [dn [Hdn Hs]].
  intros [H1 H2].
  apply (Subsequence_In _ _ _ Hs) in H1.
  apply (Subsequence_In _ _ _ Hs) in H2.
  simpl in H1, H2.
  destruct Hdn; subst dn;
    [ destruct H2 as [H|[H|[H|[H|[H|[H|[]]]]]]]
    | destruct H1 as [H|[H|[H|[H|[H|[H|[]]]]]]] ]; discriminate H.
Qed.

Lemma deno_descriptors_exclusive_witness :
  customOf (custom denoTestTrue) = []
  /\ customOf (customDev denoTestTrue) = []
  /\ ~ (In getDenoShim (testShims (shimOptionsToTransformShims denoTestTrue))
        /\ In getDenoTestShim
              (testShims (shimOptionsToTransformShims denoTestTrue))).
Proof.
  split; [reflexivity|]. split; [reflexivity|].
  exact (deno_descriptors_exclusive denoTestTrue eq_refl eq_refl).
Defined.

End ShimsExtra.

(* ================================================================== *)
(** * Further properties of the test harness *)
(* ================================================================== *)

Module HarnessExtra.
Import Js Harness HarnessFacts.

Local Open Scope string_scope.

Section Trees.
Local Open Scope list_scope.

(** Induction over bodies and the definitions of the steps they call. *)
Lemma body_definition_ind (P : Body -> Prop) (Q : TestDefinition -> Prop) :
  P Return ->
  (forall e, P (Throw e)) ->
  (forall d k, Q d -> (forall r, P (k r)) -> P (AwaitStep d k)) ->
  (forall n i k, P k -> P (StartStep n i k)) ->
  (forall d k, Q d -> P k -> P (Register d k)) ->
  (forall n i f, P f -> Q (mkDefinition n i f)) ->
  (forall b, P b) /\ (forall d, Q d).
Proof.
  intros HR HT HA HS HG HD.
  assert (H : forall b, P b).
  { fix IH 1. intros [|e|d k|n i k|d k].
    - exact HR.
    - apply HT.
    - apply HA; [destruct d as [n i f]; apply HD, IH | intros r; apply IH].
    - apply HS, IH.
    - apply HG; [destruct d as [n i f]; apply HD, IH | apply IH]. }
  split; [exact H | intros [n i f]; apply HD, H].
Qed.

(** What a body or a step does to the children and to the call log it
    is given is to append what it does from empty ones. *)
Lemma frame :
  (forall b ch cs,
     runBody b ch cs
     = (fst (fst (runBody b [] [])),
        ch ++ snd (fst (runBody b [] [])),
        cs ++ snd (runBody b [] [])))
  /\ (forall d cs,
        step d cs
        = (fst (fst (step d [])), snd (fst (step d [])),
           cs ++ snd (step d []))).
Proof.
  apply body_definition_ind.
  - intros ch cs. simpl. rewrite !app_nil_r. reflexivity.
  - intros e ch cs. simpl. rewrite !app_nil_r. reflexivity.
  - intros d k Hd Hk ch cs. simpl.
    rewrite (Hd cs).
    destruct (step d []) as [[c0 r0] a0] eqn:E. simpl.
    rewrite (Hk r0 (ch ++ [c0]) (cs ++ a0)), (Hk r0 [c0] a0).
    simpl. rewrite <- !app_assoc. reflexivity.
  - intros n i k Hk ch cs. simpl.
    destruct i; rewrite (Hk (ch ++ _) _), (Hk [_] _); simpl;
      rewrite <- !app_assoc; reflexivity.
  - intros d k _ Hk ch cs. simpl. apply Hk.
  - intros n i f Hf cs. simpl. destruct i.
    + simpl. rewrite app_nil_r. reflexivity.
    + rewrite (Hf [] (cs ++ [n])), (Hf [] [n]).
      destruct (runBody f [] []) as [[o n1] a1]. simpl.
      destruct o; [destruct (hasFailingChild n1)|]; simpl;
        rewrite <- !app_assoc; reflexivity.
Qed.

Lemma runBody_frame (b : Body) (ch : list TestContext) (cs : list string) :
  runBody b ch cs
  = (fst (fst (runBody b [] [])),
     ch ++ snd (fst (runBody b [] [])),
     cs ++ snd (runBody b [] [])).
Proof. apply frame. Qed.

Lemma step_frame (d : TestDefinition) (cs : list string) :
  step d cs
  = (fst (fst (step d [])), snd (fst (step d [])), cs ++ snd (step d [])).
Proof. apply frame. Qed.

(** X7.  An awaited step always settles: its context is never left
    [pending], it carries the definition's name, it resolves to [true]
    exactly when the status is [ok], and an error is stored only with
    the status [fail]. *)
Theorem step_settles (d : TestDefinition) (cs : list string) :
  let c := fst (fst (step d cs)) in
  let result := snd (fst (step d cs)) in
  status c <> pending
  /\ name c = Some (def_name d)
  /\ (result = true <-> status c = ok)
  /\ (err c <> None -> status c = fail).
Proof.
  destruct d as [n i f]. simpl. destruct i; simpl.
  - repeat split; try discriminate; congruence.
  - destruct (runBody f [] (cs ++ [n])) as [[o ch] cs1].
    destruct o; [destruct (hasFailingChild ch)|]; simpl;
      repeat split; try discriminate; congruence.
Qed.

Lemma step_settles_witness :
  status (fst (fst (step nestedFailure []))) <> pending
  /\ name (fst (fst (step nestedFailure []))) = Some (def_name nestedFailure)
  /\ (snd (fst (step nestedFailure [])) = true
      <-> status (fst (fst (step nestedFailure []))) = ok)
  /\ (err (fst (fst (step nestedFailure []))) <> None ->
      status (fst (fst (step nestedFailure []))) = fail).
Proof. exact (step_settles nestedFailure []). Defined.

Lemma runDefinition_failures (d : TestDefinition) (r : Run) :
  testFailures (runDefinition d r) = testFailures r ++ recorded d.
Proof.
  unfold runDefinition, recorded. destruct (def_ignored d).
  - simpl. rewrite app_nil_r. reflexivity.
  - cbn [write calls stdout testFailures].
    rewrite (runBody_frame (fn d) [] (calls r ++ [def_name d])).
    destruct (runBody (fn d) [] []) as [[o ch] cs1]. simpl.
    destruct o; [destruct (hasFailingChild ch)|]; simpl;
      rewrite ?app_nil_r; destruct (Nat.ltb 0 _); reflexivity.
Qed.

Lemma recorded_failsAsStep (d : TestDefinition) :
  recorded d = [] <-> failsAsStep d = false.
Proof.
  unfold recorded, failsAsStep. destruct d as [n i f]. simpl.
  destruct i; simpl; [tauto|].
  rewrite (runBody_frame f [] [n]).
  destruct (runBody f [] []) as [[o ch] cs1]. simpl.
  destruct o; [destruct (hasFailingChild ch)|]; simpl;
    split; (reflexivity || discriminate).
Qed.

Lemma recorded_name (d : TestDefinition) (x : Failure) :
  In x (recorded d) -> failure_name x = def_name d /\ def_ignored d = false.
Proof.
  unfold recorded. destruct (def_ignored d); [intros H; destruct H|].
  destruct (runBody (fn d) [] []) as [[o ch] cs1].
  destruct o; [destruct (hasFailingChild ch)|]; simpl; try tauto;
    (intros [H|H]; [subst x; split; reflexivity | destruct H]).
Qed.

(** X8.  The top-level loop and [step] agree on a definition: for a
    definition that is not ignored, the loop records no failure exactly
    when [step], on the same definition, resolves to [true]. *)
Theorem toplevel_agrees_with_step (d : TestDefinition) (r : Run)
        (cs : list string) :
  def_ignored d = false ->
  (testFailures (runDefinition d r) = testFailures r
   <-> snd (fst (step d cs)) = true).
Proof.
  intros Hi. rewrite runDefinition_failures, (step_frame d cs). simpl.
  pose proof (recorded_failsAsStep d) as H. unfold failsAsStep in H.
  rewrite Hi in H. simpl in H. rewrite negb_false_iff in H.
  rewrite <- H. split.
  - intros E. rewrite <- (app_nil_r (testFailures r)) in E at 2.
    apply app_inv_head in E. exact E.
  - intros ->. apply app_nil_r.
Qed.

Lemma toplevel_agrees_with_step_witness :
  def_ignored forgetful = false
  /\ (testFailures (runDefinition forgetful (mkRun "" [] [])) = []
      <-> snd (fst (step forgetful ["earlier"])) = true).
Proof.
  split; [reflexivity|].
  exact (toplevel_agrees_with_step forgetful (mkRun "" [] []) ["earlier"]
                                   eq_refl).
Defined.

Lemma runAll_failures (defs : list TestDefinition) : forall r,
  testFailures (runAll defs r) = testFailures r ++ flat_map recorded defs.
Proof.
  induction defs as [|d l IH]; intros r; simpl.
  - rewrite app_nil_r. reflexivity.
  - unfold runAll in *. simpl. rewrite IH, runDefinition_failures.
    rewrite <- app_assoc. reflexivity.
Qed.

Lemma recorded_names (defs : list TestDefinition) :
  map failure_name (flat_map recorded defs)
  = map def_name (filter failsAsStep defs).
Proof.
  induction defs as [|d l IH]; simpl; [reflexivity|].
  rewrite map_app, IH.
  destruct (failsAsStep d) eqn:E.
  - destruct (recorded d) as [|x [|y t]] eqn:R.
    + apply recorded_failsAsStep in R. congruence.
    + simpl. f_equal.
      apply (recorded_name d x). rewrite R. left; reflexivity.
    + exfalso. unfold recorded in R.
      destruct (def_ignored d); [discriminate|].
      destruct (runBody (fn d) [] []) as [[o ch] c1].
      destruct o; [destruct (hasFailingChild ch)|]; discriminate.
  - apply recorded_failsAsStep in E. rewrite E. reflexivity.
Qed.

(** X10.  A pass of [runTestDefinitions] records one failure for each
    drained definition that is not ignored and fails as a step would,
    under its name and in the order of the queue; it ends the process
    exactly when there is such a definition. *)
Theorem pass_reports_failing_definitions (p : Process) :
  map failure_name
      (testFailures (runAll (testDefinitions p)
                            (mkRun (out p) [] (invoked p))))
  = map def_name (filter failsAsStep (testDefinitions p))
  /\ (snd (runTestDefinitions p) = true
      <-> exists d, In d (testDefinitions p) /\ failsAsStep d = true).
Proof.
  assert (N : map failure_name
                  (testFailures (runAll (testDefinitions p)
                                        (mkRun (out p) [] (invoked p))))
              = map def_name (filter failsAsStep (testDefinitions p))).
  { rewrite runAll_failures. simpl. apply recorded_names. }
  split; [exact N|].
  unfold runTestDefinitions.
  destruct (testFailures _) as [|x l] eqn:E; simpl.
  - split; [discriminate|]. intros [d [Hin Hf]].
    assert (Hd : In d (filter failsAsStep (testDefinitions p)))
      by (apply filter_In; auto).
    simpl in N. destruct (filter failsAsStep (testDefinitions p));
      [destruct Hd | discriminate N].
  - split; [intros _ | reflexivity].
    simpl in N.
    destruct (filter failsAsStep (testDefinitions p)) as [|d t] eqn:F;
      [discriminate N|].
    exists d. apply filter_In. rewrite F. left; reflexivity.
Qed.

Lemma pass_reports_failing_definitions_witness :
  map failure_name
      (testFailures (runAll [passing; throwing; skipped; forgetful]
                            (mkRun "" [] [])))
  = map def_name
        (filter failsAsStep [passing; throwing; skipped; forgetful])
  /\ (snd (runTestDefinitions
             (mkProcess [passing; throwing; skipped; forgetful] [] "" [] []))
      = true
      <-> exists d,
            In d [passing; throwing; skipped; forgetful]
            /\ failsAsStep d = true).
Proof.
  exact (pass_reports_failing_definitions
           (mkProcess [passing; throwing; skipped; forgetful] [] "" [] [])).
Defined.

End Trees.

Section Text.

Lemma length_append (a b : string) :
  String.length (a ++ b) = String.length a + String.length b.
Proof. induction a; simpl; congruence. Qed.

Lemma hasLineFeed_append (a b : string) :
  hasLineFeed (a ++ b) = hasLineFeed a || hasLineFeed b.
Proof.
  induction a; simpl; [reflexivity|]. rewrite IHa, orb_assoc. reflexivity.
Qed.

Lemma splitLines_noLF (l : string) : forall rest cur,
  hasLineFeed l = false ->
  splitLines (l ++ rest) cur = splitLines rest (cur ++ l).
Proof.
  induction l as [|c r IH]; intros rest cur H; simpl in *.
  - rewrite append_nil_r. reflexivity.
  - apply orb_false_elim in H as [Hc Hr]. rewrite Hc.
    rewrite (IH rest _ Hr), append_assoc. reflexivity.
Qed.

Lemma splitLines_nl (rest cur : string) :
  splitLines (nl ++ rest) cur = stripCR cur :: splitLines rest "".
Proof. reflexivity. Qed.

Lemma stripCR_line (l : string) : endsWithCR l = false -> stripCR l = l.
Proof. unfold stripCR, endsWithCR. intros ->. reflexivity. Qed.

Lemma substring_all (l : string) : substring 0 (String.length l) (l ++ cr) = l.
Proof. induction l; simpl; congruence. Qed.

Lemma substring_last (l : string) :
  substring (String.length l) 1 (l ++ cr) = cr.
Proof. induction l; simpl; [reflexivity | exact IHl]. Qed.

Lemma stripCR_cr (l : string) : stripCR (l ++ cr) = l.
Proof.
  unfold stripCR. rewrite length_append. simpl.
  replace (String.length l + 1 - 1) with (String.length l) by lia.
  rewrite substring_last, String.eqb_refl. apply substring_all.
Qed.

Lemma splitLines_concat (lines : list string) :
  lines <> [] -> Forall isLine lines ->
  splitLines (String.concat nl lines) "" = lines
  /\ splitLines (String.concat (cr ++ nl) lines) "" = lines.
Proof.
  induction lines as [|l rest IH]; intros Hne Hl; [congruence|].
  inversion Hl as [|? ? [Hlf Hcr] Hrest]; subst.
  destruct rest as [|l2 r2].
  - simpl. rewrite <- (append_nil_r l) at 1 3.
    rewrite (splitLines_noLF l "" "" Hlf). split; reflexivity.
  - destruct (IH ltac:(discriminate) Hrest) as [IH1 IH2].
    cbn [String.concat]. split.
    + rewrite (splitLines_noLF l _ "" Hlf), splitLines_nl.
      cbn [append]. rewrite (stripCR_line l Hcr). f_equal. exact IH1.
    + rewrite (append_assoc cr nl), <- (append_assoc l cr).
      assert (H : hasLineFeed (l ++ cr) = false)
        by (rewrite hasLineFeed_append, Hlf; reflexivity).
      rewrite (splitLines_noLF (l ++ cr) _ "" H), splitLines_nl.
      cbn [append]. rewrite stripCR_cr. f_equal. exact IH2.
Qed.

(** X11.  [indentText] indents line by line: a text made of lines
    joined by line feeds comes back with every line behind
    [indentLevel] times two spaces, joined by line feeds; and the same
    lines joined by carriage return and line feed give the same
    result. *)
Theorem indent_each_line (lines : list string) (indentLevel : nat) :
  lines <> [] -> Forall isLine lines ->
  let indented :=
    String.concat nl
      (map (fun line => repeat_string "  " indentLevel ++ line) lines) in
  indentString (String.concat nl lines) indentLevel = indented
  /\ indentString (String.concat (cr ++ nl) lines) indentLevel = indented.
Proof.
  intros Hne Hl indented. subst indented. unfold indentString.
  destruct (splitLines_concat lines Hne Hl) as [-> ->]. split; reflexivity.
Qed.

Lemma indent_each_line_witness :
  ["Error: boom"; "    at mod.ts:1:1"] <> []
  /\ Forall isLine ["Error: boom"; "    at mod.ts:1:1"]
  /\ indentString (String.concat nl ["Error: boom"; "    at mod.ts:1:1"]) 1
     = "  Error: boom" ++ nl ++ "      at mod.ts:1:1"
  /\ indentString
       (String.concat (cr ++ nl) ["Error: boom"; "    at mod.ts:1:1"]) 1
     = "  Error: boom" ++ nl ++ "      at mod.ts:1:1".
Proof.
  assert (H1 : ["Error: boom"; "    at mod.ts:1:1"] <> []) by discriminate.
  assert (H2 : Forall isLine ["Error: boom"; "    at mod.ts:1:1"]).
  { repeat constructor. }
  split; [exact H1|]. split; [exact H2|].
  exact (indent_each_line _ 1 H1 H2).
Defined.

(** X12.  A test that is not ignored and creates no step is reported on
    one line: its name, [ ...], a space, then [ok] when it passes and
    [fail] when it throws. *)
Theorem test_without_steps_one_line (d : TestDefinition) (r : Run) :
  def_ignored d = false ->
  snd (fst (runBody (fn d) [] [])) = [] ->
  stdout (runDefinition d r)
  = ((stdout r ++ (def_name d ++ " ...")) ++ " ")
      ++ ((match fst (fst (runBody (fn d) [] [])) with
           | Returned => "ok"
           | Threw _ => "fail"
           end) ++ nl).
Proof.
  intros Hi Hc. unfold runDefinition. rewrite Hi.
  cbn [write calls stdout testFailures].
  rewrite (runBody_frame (fn d) [] (calls r ++ [def_name d])).
  destruct (runBody (fn d) [] []) as [[o ch] cs1]. simpl in Hc. subst ch.
  destruct o; reflexivity.
Qed.

Lemma test_without_steps_one_line_witness :
  def_ignored throwing = false
  /\ snd (fst (runBody (fn throwing) [] [])) = []
  /\ stdout (runDefinition throwing (mkRun "" [] []))
     = "throws ... fail" ++ nl.
Proof.
  split; [reflexivity|]. split; [reflexivity|].
  exact (test_without_steps_one_line throwing (mkRun "" [] [])
                                     eq_refl eq_refl).
Defined.

End Text.

End HarnessExtra.

(* ================================================================== *)
(** * Further properties of the package manifest *)
(* ================================================================== *)

Module PackageJsonExtra.
Import Js JsFacts PackageJson PackageJsonFacts.

Local Open Scope string_scope.

Section Manifest.
Variable toFileUrl : string -> string.
Variable toLowerCase : string -> string.
Variable options : BuildOptions.
Variable transformOutput : TransformOutput.
Variable testOutput : option TestOutput.

Let deps := dependenciesObj toFileUrl toLowerCase options transformOutput.
Let manifestObj :=
  packageJsonObj toFileUrl toLowerCase options transformOutput testOutput.
Let shim := shimPackageOf options.

Lemma lookup_scripts (entryPoint : string) :
  lookup "scripts"
         (packageJsonObjFor toFileUrl toLowerCase options transformOutput
                            testOutput entryPoint)
  = Some (scriptsVal options testOutput).
Proof.
  unfold packageJsonObjFor. cbv zeta. rewrite !lookup_set. reflexivity.
Qed.

Lemma lookup_other (entryPoint k : string) :
  ~ In k computedKeys ->
  lookup k (packageJsonObjFor toFileUrl toLowerCase options transformOutput
                              testOutput entryPoint)
  = lastValue k (package options).
Proof.
  intros H. unfold packageJsonObjFor. cbv zeta. rewrite !lookup_set.
  unfold computedKeys in H. simpl in H.
  repeat match goal with
         | |- context [String.eqb ?a k] =>
             destruct (String.eqb_spec a k) as [E|E];
             [exfalso; apply H; rewrite <- E; simpl; tauto | clear E]
         end.
  unfold spread. rewrite lookup_assign. simpl.
  destruct (lastValue k (package options)); reflexivity.
Qed.

(** X13.  With tests, [devDependencies] is the merge, the later source
    overriding the earlier on a name, of the test transform's
    dependencies (the last one of a name giving its version), the shim
    package when the test code used the shim and its name is not a key
    of [dependencies], and the user's [devDependencies]. *)
Theorem devDependencies_merge (t : TestOutput) (entryPoint : string)
        (rest : list string) :
  testOutput = Some t ->
  entryPoints transformOutput = entryPoint :: rest ->
  exists manifest dev,
    manifestObj = Some manifest
    /\ lookup "devDependencies" manifest = Some (JsObj dev)
    /\ forall name,
         lookup name dev
         = firstOf [ lastValue name (userDevEntries options);
                     shimDevDependency toFileUrl toLowerCase options
                                       transformOutput t name;
                     option_map JsStr
                       (lastVersion name (test_dependencies t)) ].
Proof.
  intros Ht He. unfold manifestObj, packageJsonObj. rewrite He.
  destruct (lookup_manifest_set toFileUrl toLowerCase options transformOutput
                                testOutput entryPoint)
    as (_ & _ & _ & _ & Hdev).
  unfold devDependenciesVal in Hdev. rewrite Ht in Hdev |- *.
  eexists. eexists. split; [reflexivity|]. split; [exact Hdev|].
  intros name. unfold spread. rewrite !lookup_assign. cbn [ownEntries lookup].
  rewrite lastValue_shimEntry, lastValue_fromEntries.
  fold (userDevEntries options). unfold shimDevDependency.
  destruct (lastValue name (userDevEntries options)); [reflexivity|].
  cbn [firstOf].
  destruct (test_shimUsed t && _ && _); [reflexivity|].
  unfold testEntries. rewrite lastValue_versions.
  destruct (lastVersion name (test_dependencies t)); reflexivity.
Qed.

(** X14.  With tests, [scripts.test] is [node test_runner.js] unless
    the user's [scripts] has a [test] of its own, and every other script
    is the user's. *)
Theorem scripts_with_tests (t : TestOutput) (entryPoint : string)
        (rest : list string) :
  testOutput = Some t ->
  entryPoints transformOutput = entryPoint :: rest ->
  let user :=
    ownEntries (nullish (field (package options) "scripts") (JsObj [])) in
  exists manifest scripts,
    manifestObj = Some manifest
    /\ lookup "scripts" manifest = Some (JsObj scripts)
    /\ lookup "test" scripts
       = firstOf [lastValue "test" user; Some (JsStr "node test_runner.js")]
    /\ forall name, name <> "test" -> lookup name scripts = lastValue name user.
Proof.
  intros Ht He user. unfold manifestObj, packageJsonObj. rewrite He.
  pose proof (lookup_scripts entryPoint) as Hs.
  unfold scriptsVal in Hs. rewrite Ht in Hs |- *.
  eexists. eexists. split; [reflexivity|]. split; [exact Hs|].
  unfold spread. fold user. split.
  - rewrite lookup_assign, lookup_set. simpl.
    destruct (lastValue "test" user); reflexivity.
  - intros name Hn. rewrite lookup_assign, lookup_set.
    destruct (String.eqb_spec "test" name) as [E|E]; [congruence|].
    simpl. destruct (lastValue name user); reflexivity.
Qed.

(** X15.  Without tests, [scripts] and [devDependencies] are the
    user's values, untouched; and with or without tests every property
    of the template that the builder does not compute keeps the user's
    value. *)
Theorem user_fields_kept (entryPoint : string) (rest : list string) :
  entryPoints transformOutput = entryPoint :: rest ->
  exists manifest,
    manifestObj = Some manifest
    /\ (testOutput = None ->
        lookup "scripts" manifest = Some (field (package options) "scripts")
        /\ lookup "devDependencies" manifest
           = Some (field (package options) "devDependencies"))
    /\ forall k, ~ In k computedKeys ->
                 lookup k manifest = lastValue k (package options).
Proof.
  intros He. unfold manifestObj, packageJsonObj. rewrite He.
  eexists. split; [reflexivity|]. split.
  - intros Hn.
    destruct (lookup_manifest_set toFileUrl toLowerCase options
                                  transformOutput testOutput entryPoint)
      as (_ & _ & _ & _ & Hdev).
    rewrite lookup_scripts, Hdev. unfold scriptsVal, devDependenciesVal.
    rewrite Hn. split; reflexivity.
  - intros k Hk. apply lookup_other, Hk.
Qed.

Lemma NoDup_spread (o : Obj JsVal) (v : JsVal) :
  NoDup (keys o) -> NoDup (keys (spread o v)).
Proof. apply NoDup_assign. Qed.

(** X16.  No object of the manifest is written with a key twice: the
    keys of the manifest, of its [dependencies], of its [exports] and of
    [exports["."]] are distinct, whatever the template holds. *)
Theorem manifest_keys_distinct (entryPoint : string) :
  NoDup (keys (packageJsonObjFor toFileUrl toLowerCase options transformOutput
                                 testOutput entryPoint))
  /\ NoDup (keys deps)
  /\ NoDup (keys (exportsObj options entryPoint))
  /\ NoDup (keys (dotExport options entryPoint)).
Proof.
  assert (N : NoDup (keys (@nil (string * JsVal)))) by constructor.
  repeat split.
  - unfold packageJsonObjFor. cbv zeta.
    repeat apply NoDup_set. apply NoDup_spread, N.
  - unfold deps, dependenciesObj. cbv zeta. repeat apply NoDup_spread. exact N.
  - unfold exportsObj. cbv zeta. apply NoDup_set, NoDup_spread, N.
  - unfold dotExport. cbv zeta. apply NoDup_spread.
    repeat apply NoDup_set. exact N.
Qed.
End Manifest.

Lemma devDependencies_merge_witness :
  Some shimTest = Some shimTest
  /\ entryPoints plainTransform = ["mod.ts"]
  /\ exists manifest dev,
       packageJsonObj sampleFileUrl sampleLowerCase plainTemplate
                      plainTransform (Some shimTest) = Some manifest
       /\ lookup "devDependencies" manifest = Some (JsObj dev)
       /\ lookup "sinon" dev = Some (JsStr "13.0.0")
       /\ lookup "deno.ns" dev = Some (JsStr "0.5.0")
       /\ lookup "chalk" dev = None.
Proof.
  split; [reflexivity|]. split; [reflexivity|].
  destruct (devDependencies_merge sampleFileUrl sampleLowerCase plainTemplate
                                  plainTransform (Some shimTest) shimTest
                                  "mod.ts" [] eq_refl eq_refl)
    as (manifest & dev & Hm & Hd & Hall).
  exists manifest, dev. split; [exact Hm|]. split; [exact Hd|].
  rewrite !Hall. repeat split.
Defined.

(** The shim package reaches [devDependencies] when only the tests use
    it. *)
Example devDependencies_sample :
  devDependenciesVal sampleFileUrl sampleLowerCase plainTemplate
                     plainTransform (Some shimTest)
  = JsObj [("sinon", JsStr "13.0.0"); ("deno.ns", JsStr "0.5.0")].
Proof. reflexivity. Qed.

Lemma scripts_with_tests_witness :
  Some sampleTest = Some sampleTest
  /\ entryPoints sampleTransform = ["mod.ts"]
  /\ exists manifest scripts,
       packageJsonObj sampleFileUrl sampleLowerCase scriptsTemplate
                      sampleTransform (Some sampleTest) = Some manifest
       /\ lookup "scripts" manifest = Some (JsObj scripts)
       /\ lookup "test" scripts
          = firstOf
              [ lastValue "test"
                  (ownEntries (nullish (field (package scriptsTemplate)
                                              "scripts") (JsObj [])));
                Some (JsStr "node test_runner.js") ]
       /\ forall name,
            name <> "test" ->
            lookup name scripts
            = lastValue name
                (ownEntries (nullish (field (package scriptsTemplate)
                                            "scripts") (JsObj []))).
Proof.
  split; [reflexivity|]. split; [reflexivity|].
  exact (scripts_with_tests sampleFileUrl sampleLowerCase scriptsTemplate
                            sampleTransform (Some sampleTest) sampleTest
                            "mod.ts" [] eq_refl eq_refl).
Defined.

Lemma user_fields_kept_witness :
  entryPoints sampleTransform = ["mod.ts"]
  /\ exists manifest,
       packageJsonObj sampleFileUrl sampleLowerCase scriptsTemplate
                      sampleTransform None = Some manifest
       /\ (@None TestOutput = None ->
           lookup "scripts" manifest
           = Some (field (package scriptsTemplate) "scripts")
           /\ lookup "devDependencies" manifest
              = Some (field (package scriptsTemplate) "devDependencies"))
       /\ forall k, ~ In k computedKeys ->
                    lookup k manifest = lastValue k (package scriptsTemplate).
Proof.
  split; [reflexivity|].
  exact (user_fields_kept sampleFileUrl sampleLowerCase scriptsTemplate
                          sampleTransform None "mod.ts" [] eq_refl).
Defined.

Section Sink.
Variable path_dirname : string -> string.
Local Open Scope list_scope.

Lemma mkdirs_app (a b : list FsOp) : mkdirs (a ++ b) = mkdirs a ++ mkdirs b.
Proof.
  induction a as [|[d|p t|p t] r IH]; simpl; congruence.
Qed.

Lemma inOrder_snoc_write (ops : list FsOp) (path text : string) :
  forall seen,
    inOrder path_dirname seen ops ->
    In (path_dirname path) (mkdirs ops ++ seen) ->
    inOrder path_dirname seen (ops ++ [WriteTextFileSync path text]).
Proof.
  induction ops as [|[d|p t|p t] r IH]; intros seen Ho Hin; simpl in *.
  - tauto.
  - destruct Ho as [Hd Hr]. split; [exact Hd|]. apply IH; [exact Hr|].
    rewrite in_app_iff in *. simpl. tauto.
  - destruct Ho as [Hd Hr]. split; [exact Hd | apply IH; assumption].
  - apply IH; assumption.
Qed.

Lemma inOrder_snoc_mkdir (ops : list FsOp) (dir : string) :
  forall seen,
    inOrder path_dirname seen ops ->
    ~ In dir (mkdirs ops ++ seen) ->
    inOrder path_dirname seen (ops ++ [MkdirSync dir]).
Proof.
  induction ops as [|[d|p t|p t] r IH]; intros seen Ho Hin; simpl in *.
  - tauto.
  - destruct Ho as [Hd Hr]. split; [exact Hd|]. apply IH; [exact Hr|].
    rewrite in_app_iff in *. simpl. tauto.
  - destruct Ho as [Hd Hr]. split; [exact Hd | apply IH; assumption].
  - apply IH; assumption.
Qed.

(** X17.  The default sink keeps its invariant: after any write, as
    before it, no directory has been created twice, every file was
    written into a directory created earlier, and the directories the
    sink remembers are the ones it created. *)
Theorem sink_invariant_kept (options : BuildOptions) (path text : string)
        (st : BuildState) :
  writeFile options = false ->
  sinkInvariant path_dirname st ->
  sinkInvariant path_dirname (doWriteFile path_dirname options path text st).
Proof.
  intros Hw [Ho Hd]. unfold doWriteFile. rewrite Hw.
  destruct (includes (createdDirectories st) (path_dirname path)) eqn:E;
    unfold sinkInvariant; simpl.
  - apply includes_In in E. split.
    + apply inOrder_snoc_write; [exact Ho|].
      rewrite app_nil_r. apply Hd, E.
    + intros d. rewrite mkdirs_app, app_nil_r. apply Hd.
  - assert (Hn : ~ In (path_dirname path) (createdDirectories st)).
    { intros H. apply includes_In in H. congruence. }
    split.
    + change [MkdirSync (path_dirname path); WriteTextFileSync path text]
        with ([MkdirSync (path_dirname path)]
                ++ [WriteTextFileSync path text]).
      rewrite app_assoc. apply inOrder_snoc_write.
      * apply inOrder_snoc_mkdir; [exact Ho|].
        rewrite app_nil_r. intros H. apply Hn, Hd, H.
      * rewrite mkdirs_app, !in_app_iff. simpl. tauto.
    + intros d. rewrite mkdirs_app, !in_app_iff, Hd. simpl. tauto.
Qed.
End Sink.

Lemma sink_invariant_kept_witness :
  writeFile plainTemplate = false
  /\ sinkInvariant sampleDirname freshState
  /\ sinkInvariant sampleDirname
       (doWriteFile sampleDirname plainTemplate "npm/package.json" "{}"
                    freshState).
Proof.
  assert (H : sinkInvariant sampleDirname freshState).
  { split; [exact I | intros d; reflexivity]. }
  split; [reflexivity|]. split; [exact H|].
  exact (sink_invariant_kept sampleDirname plainTemplate "npm/package.json"
                             "{}" freshState eq_refl H).
Defined.

Lemma isDotTs_three (ci : bool) (e : string) :
  isDotTs ci e = true ->
  exists a b c, e = String a (String b (String c EmptyString)).
Proof.
  destruct e as [|a [|b [|c [|d r]]]]; simpl; try discriminate.
  intros _. exists a, b, c. reflexivity.
Qed.

Lemma isDotTs_longer (ci : bool) (c : ascii) (stem e : string) :
  isDotTs ci e = true -> isDotTs ci (String c (stem ++ e)) = false.
Proof.
  intros H. destruct (isDotTs_three ci e H) as (x & y & z & ->).
  destruct stem as [|c1 [|c2 [|c3 r]]]; reflexivity.
Qed.

(** X18.  The extension is rewritten at the end only: a name that ends
    with [.ts], in lower case or, under the [i] flag, in any case, has
    that ending replaced and the rest kept; any other name is returned
    as it is. *)
Theorem replaceTs_final_extension (ci : bool) (ext : string) :
  (forall stem e,
     isDotTs ci e = true -> replaceTs ci ext (stem ++ e) = stem ++ ext)
  /\ (forall s, ~ endsWithTs ci s -> replaceTs ci ext s = s).
Proof.
  split.
  - intros stem e He. induction stem as [|c r IH].
    + destruct (isDotTs_three ci e He) as (x & y & z & ->).
      simpl in *. rewrite He. reflexivity.
    + cbn [append replaceTs]. fold (append r e).
      rewrite (isDotTs_longer ci c r e He), IH. reflexivity.
  - intros s. induction s as [|c r IH]; intros Hn; [reflexivity|].
    cbn [replaceTs].
    destruct (isDotTs ci (String c r)) eqn:E.
    + exfalso. apply Hn. exists "", (String c r). split; [reflexivity|exact E].
    + rewrite IH; [reflexivity|].
      intros (stem & e & -> & He). apply Hn.
      exists (String c stem), e. split; [reflexivity | exact He].
Qed.

Lemma replaceTs_final_extension_witness :
  isDotTs true ".TS" = true
  /\ replaceTs true ".js" ("mod" ++ ".TS") = "mod" ++ ".js".
Proof.
  split; [reflexivity|].
  exact (proj1 (replaceTs_final_extension true ".js") "mod" ".TS" eq_refl).
Defined.

End PackageJsonExtra.

(* ================================================================== *)
(** * Properties of build *)
(* ================================================================== *)

Module BuildExtra.
Import Js JsFacts PackageJson PackageJsonFacts Build.

Local Open Scope string_scope.

Section Filtering.
Local Open Scope list_scope.

Lemma includes_false (l : list string) (k : string) :
  includes l k = false <-> ~ In k l.
Proof.
  rewrite <- includes_In. destruct (includes l k); split;
    congruence || (intros H; exfalso; apply H; reflexivity).
Qed.

Lemma In_filter_new {A : Type} (key : A -> string) (known : list string)
      (l : list A) (x : A) :
  In x (filter (fun y => negb (includes known (key y))) l)
  <-> In x l /\ ~ In (key x) known.
Proof.
  rewrite filter_In, negb_true_iff, includes_false. reflexivity.
Qed.

Lemma testOutput_disjoint_aux (transformOutput testTransformOutput
                                  : TransformOutput) (o : TestOutput) :
  testOutputOf transformOutput testTransformOutput = Some o ->
  forall d, In d (test_dependencies o) <->
            In d (dependencies testTransformOutput)
            /\ ~ In (dep_name d)
                    (map dep_name (dependencies transformOutput)).
Proof.
  unfold testOutputOf.
  destruct (filter _ (files testTransformOutput)) as [|f0 fs];
    [discriminate|].
  intros H. injection H as <-. cbn [test_dependencies].
  intros d. apply (In_filter_new dep_name).
Qed.

(** X19.  What [getTestOutput] returns shares nothing with the
    distributed result: its files are the files of the test transform
    whose path no distributed file has, its entry points and its
    dependencies likewise; there is at least one file, and the shim flag
    is the test transform's. *)
Theorem testOutput_disjoint (transformOutput testTransformOutput
                              : TransformOutput) (o : TestOutput) :
  testOutputOf transformOutput testTransformOutput = Some o ->
  (forall f, In f (test_files o) <->
             In f (files testTransformOutput)
             /\ ~ In (filePath f) (map filePath (files transformOutput)))
  /\ (forall e, In e (test_entryPoints o) <->
                In e (PackageJson.entryPoints testTransformOutput)
                /\ ~ In e (PackageJson.entryPoints transformOutput))
  /\ (forall d, In d (test_dependencies o) <->
                In d (dependencies testTransformOutput)
                /\ ~ In (dep_name d)
                        (map dep_name (dependencies transformOutput)))
  /\ test_files o <> []
  /\ test_shimUsed o = shimUsed testTransformOutput.
Proof.
  unfold testOutputOf.
  destruct (filter _ (files testTransformOutput)) as [|f0 fs] eqn:E;
    [discriminate|].
  intros H. injection H as <-.
  cbn [test_files test_entryPoints test_dependencies test_shimUsed].
  rewrite <- E.
  split; [intros f; apply (In_filter_new filePath)|].
  split; [intros e; apply (In_filter_new (fun e => e))|].
  split; [intros d; apply (In_filter_new dep_name)|].
  split; [rewrite E; discriminate | reflexivity].
Qed.

(** X20.  [getTestOutput] has nothing to return exactly when every file
    of the test transform is already a distributed file, by its path. *)
Theorem testOutput_none (transformOutput testTransformOutput
                          : TransformOutput) :
  testOutputOf transformOutput testTransformOutput = None
  <-> forall f, In f (files testTransformOutput) ->
                In (filePath f) (map filePath (files transformOutput)).
Proof.
  unfold testOutputOf.
  destruct (filter _ (files testTransformOutput)) as [|f0 fs] eqn:E.
  - split; [intros _ | reflexivity]. intros f Hf.
    destruct (in_dec string_dec (filePath f)
                     (map filePath (files transformOutput))) as [H|H];
      [exact H|].
    exfalso.
    assert (Hin : In f (filter
                          (fun f => negb (includes
                                            (map filePath
                                                 (files transformOutput))
                                            (filePath f)))
                          (files testTransformOutput))).
    { apply filter_In. split; [exact Hf|].
      apply negb_true_iff, includes_false, H. }
    rewrite E in Hin. exact Hin.
  - split; [discriminate|]. intros H. exfalso.
    assert (Hin : In f0 (f0 :: fs)) by (left; reflexivity).
    rewrite <- E in Hin. apply filter_In in Hin as [H1 H2].
    apply negb_true_iff, includes_false in H2. apply H2, H, H1.
Qed.

End Filtering.

Section Composition.
Variable toFileUrl : string -> string.
Variable toLowerCase : string -> string.
Variable options : BuildOptions.

Lemma transform_dependency_is_key (t : TransformOutput) (n : string) :
  In n (map dep_name (dependencies t)) ->
  includes (keys (dependenciesObj toFileUrl toLowerCase options t)) n = true.
Proof.
  intros Hn. apply includes_In, hasKey_In. unfold hasKey.
  rewrite (lookup_dependenciesObj toFileUrl toLowerCase options t n).
  assert (H : transformDependency t n <> None).
  { unfold transformDependency. rewrite lastValue_None.
    unfold transformEntries. rewrite map_map. simpl. tauto. }
  cbn [firstOf].
  destruct (userDependency options n); [reflexivity|].
  destruct (shimDependency options t n); [reflexivity|].
  destruct (mappingDependency toFileUrl toLowerCase options n);
    [reflexivity|].
  destruct (transformDependency t n); [reflexivity | congruence].
Qed.

(** X21.  A package the distributed code depends on is not repeated
    under [devDependencies] by the build: with the test result
    [getTestOutput] returns, such a name is a key of [devDependencies]
    only with the value the user's own [devDependencies] gives it. *)
Theorem shared_dependency_not_dev (transformOutput testTransformOutput
                                    : TransformOutput)
        (o : TestOutput) (n : string) :
  testOutputOf transformOutput testTransformOutput = Some o ->
  In n (map dep_name (dependencies transformOutput)) ->
  exists dev,
    devDependenciesVal toFileUrl toLowerCase options transformOutput (Some o)
    = JsObj dev
    /\ lookup n dev = lastValue n (userDevEntries options).
Proof.
  intros Ho Hn. unfold devDependenciesVal. eexists. split; [reflexivity|].
  unfold spread. rewrite !lookup_assign. cbn [ownEntries lookup].
  rewrite lastValue_shimEntry, lastValue_fromEntries.
  fold (userDevEntries options).
  destruct (lastValue n (userDevEntries options)); [reflexivity|].
  assert (Hs : test_shimUsed o
               && negb (includes
                          (keys (dependenciesObj toFileUrl toLowerCase options
                                                 transformOutput))
                          (shim_name (shimPackageOf options)))
               && String.eqb (shim_name (shimPackageOf options)) n = false).
  { destruct (String.eqb_spec (shim_name (shimPackageOf options)) n) as [E|E];
      [|apply andb_false_r].
    rewrite E, (transform_dependency_is_key transformOutput n Hn).
    simpl. rewrite andb_false_r. reflexivity. }
  rewrite Hs.
  assert (Ht : lastValue n (testEntries o) = None).
  { apply lastValue_None. unfold testEntries. rewrite map_map. simpl.
    intros Hin. apply in_map_iff in Hin as [d [Hd Hin]].
    destruct (testOutput_disjoint_aux transformOutput testTransformOutput o Ho
                                      d) as [H _].
    destruct (H Hin) as [_ Hno]. apply Hno. rewrite Hd. exact Hn. }
  rewrite Ht. reflexivity.
Qed.
End Composition.

Section Warnings.
Variable sv : Services.
Local Open Scope list_scope.

Lemma forEach_cons {A : Type} (x : A) (l : list A) (body : A -> M unit)
      (w : World) :
  forEach (x :: l) body w
  = match body x w with
    | (Ok _, w1) => forEach l body w1
    | (Exit code, w1) => (Exit code, w1)
    | (Throw e, w1) => (Throw e, w1)
    end.
Proof. reflexivity. Qed.

Lemma warnOnce_step (m : string) (w : World) :
  warnOnce sv m w
  = (Ok tt,
     if includes (warnedMessages w) m then w
     else mkWorld (createdDirectories w) (warnedMessages w ++ [m])
                  (trace w ++ [ConsoleWarn (yellow sv ("[dnt] " ++ m))])).
Proof.
  unfold warnOnce. destruct (includes (warnedMessages w) m); reflexivity.
Qed.

Lemma filter_filter {A : Type} (f g : A -> bool) (l : list A) :
  filter f (filter g l) = filter (fun x => g x && f x) l.
Proof.
  induction l as [|x r IH]; [reflexivity|]. simpl.
  destruct (g x); simpl; [destruct (f x)|]; rewrite ?IH; reflexivity.
Qed.

Lemma firstOccurrences_filter (f : string -> bool) (l : list string) :
  firstOccurrences (filter f l) = filter f (firstOccurrences l).
Proof.
  induction l as [|x r IH]; [reflexivity|]. cbn [filter firstOccurrences].
  destruct (f x) eqn:E; cbn [firstOccurrences filter].
  - rewrite IH, !filter_filter. f_equal. apply filter_ext.
    intros a. apply andb_comm.
  - rewrite IH, filter_filter. apply filter_ext. intros a.
    destruct (String.eqb_spec a x) as [->|Hne]; [rewrite E|];
      reflexivity.
Qed.

Lemma includes_snoc (l : list string) (m a : string) :
  negb (includes (l ++ [m]) a)
  = negb (includes l a) && negb (String.eqb a m).
Proof.
  unfold includes. rewrite existsb_app. simpl. rewrite orb_false_r.
  apply negb_orb.
Qed.

(** X22.  Warnings are printed once: of a list of messages, [warnOnce]
    prints, in the order of their first occurrence, the messages not
    warned about before, each one once, and remembers them. *)
Theorem warnings_once (messages : list string) (w : World) :
  let w' := snd (forEach messages (warnOnce sv) w) in
  fst (forEach messages (warnOnce sv) w) = Ok tt
  /\ exists fresh,
       warnedMessages w' = warnedMessages w ++ fresh
       /\ trace w'
          = trace w
              ++ map (fun m => ConsoleWarn (yellow sv ("[dnt] " ++ m))) fresh
       /\ NoDup fresh
       /\ (forall m, In m fresh <->
                     In m messages /\ ~ In m (warnedMessages w))
       /\ fresh
          = firstOccurrences
              (filter (fun m => negb (includes (warnedMessages w) m))
                      messages).
Proof.
  revert w. induction messages as [|m rest IH]; intros w; cbv zeta.
  - split; [reflexivity|]. exists []. simpl. rewrite !app_nil_r.
    repeat split; try constructor; tauto.
  - rewrite forEach_cons, warnOnce_step.
    destruct (includes (warnedMessages w) m) eqn:E.
    + destruct (IH w) as [Hr [fresh (Hw & Ht & Hn & Hi & Ho)]].
      split; [exact Hr|]. exists fresh.
      split; [exact Hw|]. split; [exact Ht|]. split; [exact Hn|].
      split; [|cbn [filter]; rewrite E; exact Ho].
      intros m'. rewrite Hi. apply includes_In in E. simpl.
      split; [tauto|]. intros [[->|H] Hno]; tauto.
    + pose proof E as E'. apply includes_false in E.
      set (w1 := mkWorld _ _ _).
      destruct (IH w1) as [Hr [fresh (Hw & Ht & Hn & Hi & Ho)]].
      split; [exact Hr|]. exists (m :: fresh).
      subst w1. cbn [warnedMessages trace createdDirectories] in *.
      split; [rewrite Hw, <- app_assoc; reflexivity|].
      split; [rewrite Ht, <- app_assoc; reflexivity|].
      split.
      * constructor; [|exact Hn]. intros H. apply Hi in H as [_ H].
        apply H, in_or_app. right. left. reflexivity.
      * split.
        -- intros m'. simpl. rewrite Hi, in_app_iff. simpl.
           destruct (string_dec m m') as [->|Hne]; [tauto|].
           split; [intros [H|H]; tauto | tauto].
        -- cbn [filter]. rewrite E'. cbn [negb firstOccurrences].
           f_equal. rewrite Ho, <- firstOccurrences_filter, filter_filter.
           f_equal. apply filter_ext. intros a.
           rewrite includes_snoc. reflexivity.
Qed.
End Warnings.

Section Runs.
Variable sv : Services.
Variable cfg : BuildConfig.
Context {X : Type}.
Variable obs : Event -> list X.
Local Open Scope list_scope.

Lemma yields_ret {A : Type} (a : A) : yields obs (ret a) (Ok a) [].
Proof.
  intros w. split; [reflexivity|]. exists []. simpl.
  rewrite app_nil_r. split; reflexivity.
Qed.

Lemma yields_event (e : Event) : yields obs (event e) (Ok tt) (obs e).
Proof.
  intros w. split; [reflexivity|]. exists [e]. simpl.
  rewrite app_nil_r. split; reflexivity.
Qed.

Lemma yields_bind {A B : Type} (m : M A) (k : A -> M B) (a : A)
      (r : Result B) (s1 s2 : list X) :
  yields obs m (Ok a) s1 -> yields obs (k a) r s2 ->
  yields obs (bind m k) r (s1 ++ s2).
Proof.
  intros Hm Hk w. unfold bind.
  destruct (Hm w) as [Hr [e1 [Ht Hs]]].
  destruct (m w) as [r1 w1]. simpl in Hr, Ht. subst r1.
  destruct (Hk w1) as [Hr2 [e2 [Ht2 Hs2]]].
  split; [exact Hr2|]. exists (e1 ++ e2).
  rewrite Ht2, Ht, <- app_assoc, flat_map_app, Hs, Hs2.
  split; reflexivity.
Qed.

Lemma yields_bind_silent {A B : Type} (m : M A) (k : A -> M B) (a : A)
      (r : Result B) (s : list X) :
  yields obs m (Ok a) [] -> yields obs (k a) r s -> yields obs (bind m k) r s.
Proof. intros Hm Hk. apply (yields_bind m k a r [] s Hm Hk). Qed.

Lemma yields_bind_exit {A B : Type} (m : M A) (k : A -> M B) (code : Z)
      (s : list X) :
  yields obs m (Exit code) s -> yields obs (bind m k) (Exit code) s.
Proof.
  intros Hm w. unfold bind. destruct (Hm w) as [Hr He].
  destruct (m w) as [r1 w1]. simpl in Hr. subst r1. split; [reflexivity|].
  exact He.
Qed.

Lemma yields_bind_throw {A B : Type} (m : M A) (k : A -> M B) (e : Failure)
      (s : list X) :
  yields obs m (Throw e) s -> yields obs (bind m k) (Throw e) s.
Proof.
  intros Hm w. unfold bind. destruct (Hm w) as [Hr He].
  destruct (m w) as [r1 w1]. simpl in Hr. subst r1. split; [reflexivity|].
  exact He.
Qed.

Lemma yields_forEach {A : Type} (l : list A) (body : A -> M unit)
      (g : A -> list X) :
  (forall x, yields obs (body x) (Ok tt) (g x)) ->
  yields obs (forEach l body) (Ok tt) (flat_map g l).
Proof.
  intros H. induction l as [|x r IH]; simpl.
  - apply yields_ret.
  - apply (yields_bind _ _ tt); [apply H | exact IH].
Qed.

Lemma yields_forEach_silent {A : Type} (l : list A) (body : A -> M unit) :
  (forall x, yields obs (body x) (Ok tt) []) ->
  yields obs (forEach l body) (Ok tt) [].
Proof.
  intros H. induction l as [|x r IH]; simpl.
  - apply yields_ret.
  - apply (yields_bind_silent _ _ tt); [apply H | exact IH].
Qed.

Hypothesis obs_log : forall text, obs (ConsoleLog text) = [].
Hypothesis obs_warn : forall text, obs (ConsoleWarn text) = [].
Hypothesis obs_permission : forall n t, obs (PermissionRequest n t) = [].
Hypothesis obs_run : forall cmd dir, obs (Run cmd dir) = [].
Hypothesis obs_close : obs Close = [].
Hypothesis obs_mkdir : forall d, obs (Fs (MkdirSync d)) = [].

Lemma yields_log (message : string) : yields obs (log message) (Ok tt) [].
Proof.
  unfold log. rewrite <- (obs_log ("[dnt] " ++ message)%string).
  apply yields_event.
Qed.

Lemma yields_warnOnce (message : string) :
  yields obs (warnOnce sv message) (Ok tt) [].
Proof.
  intros w. rewrite warnOnce_step. split; [reflexivity|].
  destruct (includes (warnedMessages w) message); simpl.
  - exists []. rewrite app_nil_r. split; reflexivity.
  - eexists. split; [reflexivity|]. simpl. rewrite obs_warn. reflexivity.
Qed.

Lemma yields_writeFile (path text : string) :
  yields obs (writeFile sv cfg path text) (Ok tt)
         (obs (Fs (sinkOp (base cfg) path text))).
Proof.
  intros w. split; [reflexivity|].
  unfold writeFile, doWriteFile, sinkOp.
  destruct (PackageJson.writeFile (base cfg)); simpl.
  - eexists. split; [reflexivity|]. simpl. rewrite app_nil_r. reflexivity.
  - destruct (includes (createdDirectories w) (path_dirname sv path)); simpl.
    + eexists. split; [reflexivity|]. simpl. rewrite app_nil_r. reflexivity.
    + eexists. split; [reflexivity|]. simpl.
      rewrite obs_mkdir, app_nil_r. reflexivity.
Qed.

Lemma yields_getTestOutput :
  yields obs
         (if test cfg then getTestOutput sv cfg (transformOutputIn sv cfg)
          else ret None)
         (Ok (testOutputIn sv cfg)) [].
Proof.
  unfold testOutputIn, getTestOutput. destruct (test cfg); [|apply yields_ret].
  destruct (getTestFilePaths sv _ _) as [|p ps]; [apply yields_ret|].
  apply (yields_bind_silent _ _ tt); [apply yields_log|].
  apply (yields_bind_silent _ _ tt);
    [apply yields_forEach_silent, yields_warnOnce | apply yields_ret].
Qed.

Lemma yields_createPackageJson (t : TransformOutput)
      (o : option TestOutput) (entryPoint : string) (rest : list string) :
  PackageJson.entryPoints t = entryPoint :: rest ->
  exists text,
    yields obs (createPackageJson sv cfg t o) (Ok tt)
           (obs (Fs (sinkOp (base cfg)
                            (join2 sv (outDir (base cfg)) "package.json")
                            text))).
Proof.
  intros He.
  destruct (stringify_object
              ""
              (packageJsonObjFor (toFileUrl sv) (toLowerCase sv) (base cfg)
                                 t o entryPoint)) as [text Ht].
  exists text. intros w.
  unfold createPackageJson, PackageJson.createPackageJson, packageJsonText,
    packageJsonObj, JSON_stringify.
  rewrite He, Ht.
  exact (yields_writeFile (join2 sv (outDir (base cfg)) "package.json")
                          text w).
Qed.

Lemma yields_createPackageJson_fails (t : TransformOutput)
      (o : option TestOutput) :
  PackageJson.entryPoints t = [] ->
  yields obs (createPackageJson sv cfg t o) (Throw TypeError) [].
Proof.
  intros He w.
  unfold createPackageJson, PackageJson.createPackageJson, packageJsonText,
    packageJsonObj.
  rewrite He. split; [reflexivity|]. exists []. simpl.
  rewrite app_nil_r. split; reflexivity.
Qed.

Lemma yields_runNpmCommand (args : list string) :
  yields obs (runNpmCommand sv cfg args)
         (if fst (processStatus sv (getCmd sv args)) then Ok tt
          else Throw (Error ("npm " ++ String.concat " " args
                                    ++ " failed with exit code "
                                    ++ string_of_Z
                                         (snd (processStatus
                                                 sv (getCmd sv args))))%string))
         [].
Proof.
  unfold runNpmCommand. cbv zeta.
  apply (yields_bind_silent _ _ tt);
    [rewrite <- (obs_permission "run" (hd ""%string (getCmd sv args)));
     apply yields_event|].
  apply (yields_bind_silent _ _ tt);
    [rewrite <- (obs_run (getCmd sv args) (outDir (base cfg)));
     apply yields_event|].
  apply (yields_bind_silent _ _ tt);
    [rewrite <- obs_close; apply yields_event|].
  destruct (fst (processStatus sv (getCmd sv args))); [apply yields_ret|].
  intros w. split; [reflexivity|]. exists []. simpl.
  rewrite app_nil_r. split; reflexivity.
Qed.
End Runs.

Section Gates.
Variable sv : Services.
Variable cfg : BuildConfig.
Local Open Scope list_scope.

Let outputDirectory := outDir (base cfg).
Let manifestPaths :=
  [ join2 sv outputDirectory "package.json";
    join2 sv outputDirectory ".npmignore" ].

Lemma otherThan_none (paths : list string) (evs : list Event) :
  flat_map (otherThan paths) evs = [] ->
  Forall (fun e => writesOnly paths e = true) evs.
Proof.
  induction evs as [|e r IH]; simpl; intros H; [constructor|].
  apply app_eq_nil in H as [He Hr]. constructor; [|apply IH, Hr].
  unfold otherThan in He. destruct (writesOnly paths e);
    [reflexivity | discriminate].
Qed.

Lemma diagnosticsAndOther_none (paths : list string) (evs : list Event) :
  flat_map (diagnosticsAndOther paths) evs = [] ->
  Forall (fun e => writesOnly paths e = true) evs.
Proof.
  induction evs as [|e r IH]; simpl; intros H; [constructor|].
  apply app_eq_nil in H as [He Hr]. constructor; [|apply IH, Hr].
  destruct e;
    first [ reflexivity
          | unfold diagnosticsAndOther, otherThan in He;
            destruct (writesOnly paths _);
            [reflexivity | discriminate He] ].
Qed.

Lemma diagnosticsAndOther_one (paths : list string) (l : list string)
      (evs : list Event) :
  flat_map (diagnosticsAndOther paths) evs = [OutputDiagnostics l] ->
  In (OutputDiagnostics l) evs
  /\ Forall (fun e => writesOnly paths e = true) evs.
Proof.
  induction evs as [|e r IH]; cbn [flat_map]; intros H; [discriminate|].
  destruct (diagnosticsAndOther paths e) as [|x [|y t]] eqn:E.
  - destruct (IH H) as [Hin Hall]. split; [right; exact Hin|].
    constructor; [|exact Hall].
    assert (Hf : flat_map (diagnosticsAndOther paths) [e] = [])
      by (simpl; rewrite E; reflexivity).
    apply diagnosticsAndOther_none in Hf. inversion Hf; assumption.
  - simpl in H. injection H as -> Hr.
    assert (He : e = OutputDiagnostics l).
    { destruct e;
        first [ injection E as <-; reflexivity
              | unfold diagnosticsAndOther, otherThan in E;
                destruct (writesOnly paths _);
                [discriminate E | injection E as <-; reflexivity] ]. }
    subst e. split; [left; reflexivity|].
    constructor; [reflexivity | apply diagnosticsAndOther_none, Hr].
  - simpl in H. discriminate H.
Qed.

Section Observed.
(** Either way of looking at the events that the two gates use. *)
Variable obs : Event -> list Event.
Hypothesis obs_is :
  obs = otherThan manifestPaths \/ obs = diagnosticsAndOther manifestPaths.

Lemma obs_sink (path text : string) :
  In path manifestPaths -> obs (Fs (sinkOp (base cfg) path text)) = [].
Proof.
  intros H. apply includes_In in H.
  destruct obs_is as [-> | ->]; unfold sinkOp;
    destruct (PackageJson.writeFile (base cfg));
    unfold diagnosticsAndOther, otherThan, writesOnly; rewrite H;
    reflexivity.
Qed.

Lemma obs_quiet (e : Event) :
  match e with
  | Fs (WriteTextFileSync _ _) | Fs (UserWriteFile _ _) | Remove _
  | OutputDiagnostics _ => True
  | _ => obs e = []
  end.
Proof.
  destruct obs_is as [-> | ->]; destruct e as [| | |[| |]| | | | |];
    try exact I; reflexivity.
Qed.

Lemma yields_createNpmIgnore (o : option TestOutput) :
  yields obs (createNpmIgnore sv cfg o) (Ok tt) [].
Proof.
  unfold createNpmIgnore. destruct o as [t|]; [|apply yields_ret].
  rewrite <- (obs_sink (join2 sv outputDirectory ".npmignore")
                       (String.concat nl (getTestFileNames (Some t)))).
  - apply yields_writeFile. intros d. exact (obs_quiet (Fs (MkdirSync d))).
  - right. left. reflexivity.
Qed.

(** [build] up to [npm install], when there is a first entry point. *)
Lemma yields_until_install {B : Type} (k : option TestOutput -> M B)
      (r : Result B) (seen : list Event) (entryPoint : string)
      (rest : list string) :
  PackageJson.entryPoints (transformOutputIn sv cfg) = entryPoint :: rest ->
  yields obs (k (testOutputIn sv cfg)) r seen ->
  yields obs
         (event (PermissionRequest "write" outputDirectory) ;;;
          log "Transforming..." ;;;
          forEach (warnings (transformOutputIn sv cfg)) (warnOnce sv) ;;;
          testOutput <- (if test cfg
                         then getTestOutput sv cfg (transformOutputIn sv cfg)
                         else ret None) ;;
          createPackageJson sv cfg (transformOutputIn sv cfg) testOutput ;;;
          createNpmIgnore sv cfg testOutput ;;;
          log "Running npm install..." ;;;
          k testOutput)
         r seen.
Proof.
  intros He Hk.
  assert (Hlog : forall text, obs (ConsoleLog text) = [])
    by (intros text; exact (obs_quiet (ConsoleLog text))).
  assert (Hwarn : forall text, obs (ConsoleWarn text) = [])
    by (intros text; exact (obs_quiet (ConsoleWarn text))).
  assert (Hmk : forall d, obs (Fs (MkdirSync d)) = [])
    by (intros d; exact (obs_quiet (Fs (MkdirSync d)))).
  apply (yields_bind_silent _ _ _ tt).
  { rewrite <- (obs_quiet (PermissionRequest "write" outputDirectory)).
    apply yields_event. }
  apply (yields_bind_silent _ _ _ tt); [apply yields_log, Hlog|].
  apply (yields_bind_silent _ _ _ tt);
    [apply yields_forEach_silent; intros m; apply yields_warnOnce, Hwarn|].
  apply (yields_bind_silent _ _ _ (testOutputIn sv cfg));
    [apply yields_getTestOutput; assumption|].
  destruct (yields_createPackageJson sv cfg obs Hmk (transformOutputIn sv cfg)
              (testOutputIn sv cfg) entryPoint rest He) as [text Ht].
  rewrite obs_sink in Ht by (left; reflexivity).
  apply (yields_bind_silent _ _ _ tt); [exact Ht|].
  apply (yields_bind_silent _ _ _ tt); [apply yields_createNpmIgnore|].
  apply (yields_bind_silent _ _ _ tt); [apply yields_log, Hlog|].
  exact Hk.
Qed.

Lemma yields_install :
  yields obs (runNpmCommand sv cfg ["install"])
         (if fst (processStatus sv (getCmd sv ["install"])) then Ok tt
          else Throw (Error ("npm install failed with exit code "
                               ++ string_of_Z
                                    (snd (processStatus
                                            sv (getCmd sv ["install"]))))%string))
         [].
Proof.
  apply (yields_runNpmCommand sv cfg obs).
  - intros n t. exact (obs_quiet (PermissionRequest n t)).
  - intros cmd dir. exact (obs_quiet (Run cmd dir)).
  - exact (obs_quiet Close).
Qed.
End Observed.

(** X23.  A failing [npm install] stops the build: [build] throws the
    error that names the exit code, and by then it has written no file
    but [package.json] and [.npmignore] and removed none. *)
Theorem install_failure_stops_build (entryPoint : string)
        (rest : list string) (code : Z) (w : World) :
  PackageJson.entryPoints (transformOutputIn sv cfg) = entryPoint :: rest ->
  processStatus sv (getCmd sv ["install"]) = (false, code) ->
  fst (build sv cfg w)
  = Throw (Error ("npm install failed with exit code "
                    ++ string_of_Z code)%string)
  /\ exists evs,
       trace (snd (build sv cfg w)) = trace w ++ evs
       /\ Forall (fun e => writesOnly manifestPaths e = true) evs.
Proof.
  intros He Hs.
  assert (H : yields (otherThan manifestPaths) (build sv cfg)
                     (Throw (Error ("npm install failed with exit code "
                                      ++ string_of_Z code)%string)) []).
  { unfold build. cbv zeta.
    apply (yields_until_install _ (or_introl eq_refl) _ _ _ entryPoint rest He).
    apply yields_bind_throw.
    pose proof (yields_install _ (or_introl eq_refl)) as Hn.
    rewrite Hs in Hn. exact Hn. }
  destruct (H w) as [Hr [evs [Ht Ho]]].
  split; [exact Hr|]. exists evs. split; [exact Ht|].
  apply otherThan_none, Ho.
Qed.

(** X24.  With [typeCheck] on, pre-emit diagnostics stop the build
    once [npm install] has passed: they are printed, the process exits
    with code 1, and no file but [package.json] and [.npmignore] has been
    written. *)
Theorem diagnostics_stop_build (entryPoint : string) (rest : list string)
        (d : string) (ds : list string) (w : World) :
  PackageJson.entryPoints (transformOutputIn sv cfg) = entryPoint :: rest ->
  fst (processStatus sv (getCmd sv ["install"])) = true ->
  typeCheck cfg = true ->
  getPreEmitDiagnostics
    sv (sourceFiles sv cfg (transformOutputIn sv cfg) (testOutputIn sv cfg))
  = d :: ds ->
  fst (build sv cfg w) = Exit 1%Z
  /\ exists evs,
       trace (snd (build sv cfg w)) = trace w ++ evs
       /\ In (OutputDiagnostics (d :: ds)) evs
       /\ Forall (fun e => writesOnly manifestPaths e = true) evs.
Proof.
  intros He Hs Htc Hd.
  assert (H : yields (diagnosticsAndOther manifestPaths) (build sv cfg)
                     (Exit 1%Z) [OutputDiagnostics (d :: ds)]).
  { unfold build. cbv zeta.
    apply (yields_until_install _ (or_intror eq_refl) _ _ _ entryPoint rest He).
    apply (yields_bind_silent _ _ _ tt).
    { pose proof (yields_install _ (or_intror eq_refl)) as Hn.
      rewrite Hs in Hn. exact Hn. }
    apply (yields_bind_silent _ _ _ tt); [apply yields_log; reflexivity|].
    apply (yields_bind_silent _ _ _ tt).
    { apply yields_forEach_silent. intros f. exact (yields_event _ _). }
    apply yields_bind_exit. rewrite Htc.
    apply (yields_bind_silent _ _ _ tt); [apply yields_log; reflexivity|].
    fold (transformOutputIn sv cfg). rewrite Hd.
    apply (yields_bind _ _ _ tt _ [OutputDiagnostics (d :: ds)] []);
      [exact (yields_event _ _)|].
    intros w0. split; [reflexivity|]. exists []. simpl.
    rewrite app_nil_r. split; reflexivity. }
  destruct (H w) as [Hr [evs [Ht Ho]]].
  split; [exact Hr|]. exists evs. split; [exact Ht|].
  apply (diagnosticsAndOther_one manifestPaths), Ho.
Qed.
End Gates.

Section Removal.
Variable sv : Services.
Variable cfg : BuildConfig.
Local Open Scope list_scope.

Let outputDirectory := outDir (base cfg).

Lemma yields_exit {A X : Type} (obs : Event -> list X) (code : Z) :
  yields obs (@exit A code) (Exit code) [].
Proof.
  intros w. split; [reflexivity|]. exists []. simpl.
  rewrite app_nil_r. split; reflexivity.
Qed.

Lemma removes_ext {A : Type} (paths : list string) (m m' : M A) :
  (forall w, m w = m' w) -> removes sv paths m' -> removes sv paths m.
Proof. intros E H w. rewrite E. apply H. Qed.

Lemma removes_silent {A B : Type} (paths : list string) (m : M A)
      (k : A -> M B) (a : A) :
  yields removed m (Ok a) [] -> removes sv paths (k a) ->
  removes sv paths (bind m k).
Proof.
  intros Hm Hk w. unfold bind.
  destruct (Hm w) as [Hr [e1 [Ht Hs]]].
  destruct (m w) as [r1 w1]. cbn [fst snd] in Hr, Ht. subst r1.
  destruct (Hk w1) as (e2 & rest & Ht2 & Hn & Hx).
  exists (e1 ++ e2), rest.
  split; [rewrite Ht2, Ht, app_assoc; reflexivity|].
  rewrite flat_map_app, Hs. split; [exact Hn | exact Hx].
Qed.

Lemma removes_exit {A B : Type} (paths : list string) (m : M A)
      (k : A -> M B) (code : Z) :
  yields removed m (Exit code) [] -> removes sv paths (bind m k).
Proof.
  intros Hm w. unfold bind. destruct (Hm w) as [Hr [e1 [Ht Hs]]].
  destruct (m w) as [r1 w1]. cbn [fst snd] in Hr, Ht. subst r1.
  exists e1, paths. cbn [fst snd]. rewrite Hs.
  split; [exact Ht|]. split; reflexivity.
Qed.

Lemma removes_throw {A B : Type} (paths : list string) (m : M A)
      (k : A -> M B) (e : Failure) :
  yields removed m (Throw e) [] -> removes sv paths (bind m k).
Proof.
  intros Hm w. unfold bind. destruct (Hm w) as [Hr [e1 [Ht Hs]]].
  destruct (m w) as [r1 w1]. cbn [fst snd] in Hr, Ht. subst r1.
  exists e1, paths. cbn [fst snd]. rewrite Hs.
  split; [exact Ht|]. split; [reflexivity | left; reflexivity].
Qed.

Lemma removes_quiet {A : Type} (m : M A) (a : A) :
  yields removed m (Ok a) [] -> removes sv [] m.
Proof.
  intros Hm w. destruct (Hm w) as [Hr [e1 [Ht Hs]]].
  exists e1, []. rewrite Hr, Hs. split; [exact Ht|]. split; reflexivity.
Qed.

Lemma removed_writeFile (path text : string) :
  yields removed (writeFile sv cfg path text) (Ok tt) [].
Proof. apply (yields_writeFile sv cfg removed). reflexivity. Qed.

Lemma removed_log (message : string) :
  yields removed (log message) (Ok tt) [].
Proof. apply yields_log. reflexivity. Qed.

Lemma removed_npm (args : list string) :
  yields removed (runNpmCommand sv cfg args)
         (if fst (processStatus sv (getCmd sv args)) then Ok tt
          else Throw (Error ("npm " ++ String.concat " " args
                                    ++ " failed with exit code "
                                    ++ string_of_Z
                                         (snd (processStatus
                                                 sv (getCmd sv args))))%string))
         [].
Proof. apply yields_runNpmCommand; reflexivity. Qed.

Lemma removed_emit (pass : EmitPass) (sources : list (string * string)) :
  yields removed (emit sv cfg pass sources)
         (match snd (programEmit sv pass sources) with
          | [] => Ok tt
          | _ :: _ => Exit 1%Z
          end) [].
Proof.
  unfold emit. cbv zeta.
  destruct (snd (programEmit sv pass sources)) as [|d ds].
  - apply (yields_bind_silent _ _ _ tt); [|apply yields_ret].
    apply yields_forEach_silent. intros f. apply removed_writeFile.
  - apply (yields_bind_silent _ _ _ tt).
    + apply yields_forEach_silent. intros f. apply removed_writeFile.
    + apply (yields_bind_silent _ _ _ tt);
        [exact (yields_event _ _) | apply yields_exit].
Qed.

(** The loop of [deleteTestFiles] and what follows it: the files are
    removed in order up to the first removal that fails, whose error is
    thrown. *)
Lemma deleteTestFiles_then (files : list string) (k : M unit) :
  yields removed k (Ok tt) [] ->
  forall w,
    let run :=
      (forEach files
               (fun file => denoRemove sv (join2 sv outputDirectory file)) ;;;
       k) w in
    exists evs rest,
      trace (snd run) = trace w ++ evs
      /\ map (join2 sv outputDirectory) files = flat_map removed evs ++ rest
      /\ match fst run with
         | Ok _ => rest = []
         | Exit _ => False
         | Throw e =>
             exists path rest',
               rest = path :: rest'
               /\ removeError sv (trace (snd run)) path = Some e
         end.
Proof.
  intros Hk. induction files as [|x r IH]; intros w; cbv zeta.
  - change ((forEach [] _ ;;; k) w) with (k w).
    destruct (Hk w) as [Hr [evs [Ht Hs]]].
    exists evs, []. rewrite Hr, Hs. repeat split. exact Ht.
  - assert (E : forall body : string -> M unit,
                (forEach (x :: r) body ;;; k) w
                = match body x w with
                  | (Ok _, w1) => (forEach r body ;;; k) w1
                  | (Exit code, w1) => (Exit code, w1)
                  | (Throw e, w1) => (Throw e, w1)
                  end).
    { intros body. cbn [forEach]. unfold bind.
      destruct (body x w) as [[a|code|e] w1]; reflexivity. }
    rewrite E. clear E.
    destruct (removeError sv (trace w) (join2 sv outputDirectory x))
      as [e|] eqn:Er.
    + assert (Hd : denoRemove sv (join2 sv outputDirectory x) w
                   = (Throw e, w))
        by (unfold denoRemove; rewrite Er; reflexivity).
      rewrite Hd.
      exists [], (join2 sv outputDirectory x
                    :: map (join2 sv outputDirectory) r).
      cbn [fst snd flat_map map List.app]. rewrite app_nil_r.
      split; [reflexivity|]. split; [reflexivity|].
      eexists. eexists. split; [reflexivity | exact Er].
    + set (w1 := mkWorld (createdDirectories w) (warnedMessages w)
                         (trace w ++ [Remove (join2 sv outputDirectory x)])).
      assert (Hd : denoRemove sv (join2 sv outputDirectory x) w = (Ok tt, w1))
        by (unfold denoRemove, event; rewrite Er; reflexivity).
      rewrite Hd.
      destruct (IH w1) as (evs & rest & Ht & Hn & Hx).
      exists (Remove (join2 sv outputDirectory x) :: evs), rest.
      split; [rewrite Ht; subst w1; cbn [trace];
              rewrite <- app_assoc; reflexivity|].
      split; [cbn [flat_map removed map List.app]; rewrite Hn; reflexivity|].
      exact Hx.
Qed.

Lemma removes_deleteTestFiles (o : option TestOutput) (k : M unit) :
  yields removed k (Ok tt) [] ->
  removes sv (map (join2 sv outputDirectory) (getTestFileNames o))
          (deleteTestFiles sv cfg o ;;; k).
Proof.
  intros Hk w.
  destruct (deleteTestFiles_then (getTestFileNames o) k Hk w)
    as (evs & rest & Ht & Hn & Hx).
  exists evs, rest. split; [exact Ht|]. split; [exact Hn|].
  unfold deleteTestFiles. fold outputDirectory.
  destruct (fst _) as [a|code|e];
    [exact Hx | destruct Hx | right; exact Hx].
Qed.

(** The steps of [build] after the TypeScript passes. *)
Lemma removes_tests (o : option TestOutput) :
  removes sv
          (if keepTestFiles cfg then []
           else map (join2 sv outputDirectory) (getTestFileNames o))
          (match o with
           | Some _ =>
               log "Running tests..." ;;;
               createTestLauncherScript sv cfg o ;;;
               runNpmCommand sv cfg ["run"; "test"] ;;;
               (if keepTestFiles cfg then ret tt
                else deleteTestFiles sv cfg o)
           | None => ret tt
           end ;;;
           log "Complete!").
Proof.
  destruct o as [t|].
  - apply (removes_ext
             _ _
             (log "Running tests..." ;;;
              createTestLauncherScript sv cfg (Some t) ;;;
              runNpmCommand sv cfg ["run"; "test"] ;;;
              ((if keepTestFiles cfg then ret tt
                else deleteTestFiles sv cfg (Some t)) ;;;
               log "Complete!"))).
    { intros w. unfold bind.
      destruct (log "Running tests..." w) as [[a|code|e] w1];
        [|reflexivity|reflexivity].
      destruct (createTestLauncherScript sv cfg (Some t) w1)
        as [[a1|code|e] w2]; [|reflexivity|reflexivity].
      destruct (runNpmCommand sv cfg ["run"; "test"] w2)
        as [[a2|code|e] w3]; reflexivity. }
    apply (removes_silent _ _ _ tt); [apply removed_log|].
    apply (removes_silent _ _ _ tt); [apply removed_writeFile|].
    pose proof (removed_npm ["run"; "test"]) as H.
    destruct (fst (processStatus sv (getCmd sv ["run"; "test"])));
      [|eapply removes_throw; exact H].
    apply (removes_silent _ _ _ tt); [exact H|].
    destruct (keepTestFiles cfg).
    + apply (removes_quiet _ tt).
      apply (yields_bind_silent _ _ _ tt); [apply yields_ret | apply removed_log].
    + apply removes_deleteTestFiles, removed_log.
  - replace (if keepTestFiles cfg then []
             else map (join2 sv outputDirectory) (getTestFileNames None))
      with (@nil string) by (destruct (keepTestFiles cfg); reflexivity).
    apply (removes_quiet _ tt).
    apply (yields_bind_silent _ _ _ tt); [apply yields_ret | apply removed_log].
Qed.

(** The steps of [build] from the first pass of the compiler on. *)
Lemma removes_after_check (paths : list string)
      (sources : list (string * string)) (k : M unit) :
  removes sv paths k ->
  forall esm cjs : string,
  removes sv paths
          (log "Emitting declaration files..." ;;;
           emit sv cfg DeclarationsPass sources ;;;
           log "Emitting esm module..." ;;;
           emit sv cfg EsmPass sources ;;;
           writeFile sv cfg (join2 sv (join2 sv outputDirectory "esm")
                                   "package.json") esm ;;;
           log "Emitting cjs module..." ;;;
           emit sv cfg CjsPass sources ;;;
           writeFile sv cfg (join2 sv (join2 sv outputDirectory "cjs")
                                   "package.json") cjs ;;;
           k).
Proof.
  intros Hk esm cjs.
  apply (removes_silent _ _ _ tt); [apply removed_log|].
  pose proof (removed_emit DeclarationsPass sources) as H1.
  destruct (snd (programEmit sv DeclarationsPass sources));
    [|eapply removes_exit; exact H1].
  apply (removes_silent _ _ _ tt); [exact H1|].
  apply (removes_silent _ _ _ tt); [apply removed_log|].
  pose proof (removed_emit EsmPass sources) as H2.
  destruct (snd (programEmit sv EsmPass sources));
    [|eapply removes_exit; exact H2].
  apply (removes_silent _ _ _ tt); [exact H2|].
  apply (removes_silent _ _ _ tt); [apply removed_writeFile|].
  apply (removes_silent _ _ _ tt); [apply removed_log|].
  pose proof (removed_emit CjsPass sources) as H3.
  destruct (snd (programEmit sv CjsPass sources));
    [|eapply removes_exit; exact H3].
  apply (removes_silent _ _ _ tt); [exact H3|].
  apply (removes_silent _ _ _ tt); [apply removed_writeFile|].
  exact Hk.
Qed.

(** X25.  Test files are removed at the end only, in the order of
    [getTestFileNames] and under the output directory: a build that
    completes has removed all of them, or none with [keepTestFiles] on;
    a build that ends the process has removed none; a build that throws
    has removed none, or the names before the one whose removal failed,
    and it throws what that removal failed with. *)
Theorem test_files_removed_in_order (w : World) :
  let names :=
    if keepTestFiles cfg then []
    else map (join2 sv (outDir (base cfg)))
             (getTestFileNames (testOutputIn sv cfg)) in
  let run := build sv cfg w in
  exists evs rest,
    trace (snd run) = (trace w ++ evs)%list
    /\ names = (flat_map removed evs ++ rest)%list
    /\ match fst run with
       | Ok _ => rest = []
       | Exit _ => flat_map removed evs = []
       | Throw e =>
           flat_map removed evs = []
           \/ exists path rest',
                rest = path :: rest'
                /\ removeError sv (trace (snd run)) path = Some e
       end.
Proof.
  revert w.
  change (removes sv
                  (if keepTestFiles cfg then []
                   else map (join2 sv outputDirectory)
                            (getTestFileNames (testOutputIn sv cfg)))
                  (build sv cfg)).
  unfold build. cbv zeta. fold (transformOutputIn sv cfg).
  fold outputDirectory.
  apply (removes_silent _ _ _ tt); [exact (yields_event _ _)|].
  apply (removes_silent _ _ _ tt); [apply removed_log|].
  apply (removes_silent _ _ _ tt).
  { apply yields_forEach_silent. intros m. apply yields_warnOnce. reflexivity. }
  apply (removes_silent _ _ _ (testOutputIn sv cfg));
    [apply yields_getTestOutput; reflexivity|].
  destruct (PackageJson.entryPoints (transformOutputIn sv cfg))
    as [|entryPoint rest] eqn:He.
  { eapply removes_throw. apply yields_createPackageJson_fails, He. }
  destruct (yields_createPackageJson sv cfg removed ltac:(reflexivity)
              (transformOutputIn sv cfg) (testOutputIn sv cfg)
              entryPoint rest He) as [text Ht].
  apply (removes_silent _ _ _ tt); [exact Ht|].
  apply (removes_silent _ _ _ tt).
  { unfold createNpmIgnore. destruct (testOutputIn sv cfg);
      [apply removed_writeFile | apply yields_ret]. }
  apply (removes_silent _ _ _ tt); [apply removed_log|].
  pose proof (removed_npm ["install"]) as Hi.
  destruct (fst (processStatus sv (getCmd sv ["install"])));
    [|eapply removes_throw; exact Hi].
  apply (removes_silent _ _ _ tt); [exact Hi|].
  apply (removes_silent _ _ _ tt); [apply removed_log|].
  apply (removes_silent _ _ _ tt).
  { apply yields_forEach_silent. intros f. exact (yields_event _ _). }
  destruct (typeCheck cfg).
  - destruct (getPreEmitDiagnostics sv _) as [|d ds] eqn:Ed.
    + apply (removes_silent _ _ _ tt).
      { apply (yields_bind_silent _ _ _ tt);
          [apply removed_log | apply yields_ret]. }
      apply removes_after_check, removes_tests.
    + eapply removes_exit.
      apply (yields_bind_silent _ _ _ tt); [apply removed_log|].
      apply (yields_bind_silent _ _ _ tt);
        [exact (yields_event _ _) | apply yields_exit].
  - apply (removes_silent _ _ _ tt); [apply yields_ret|].
    apply removes_after_check, removes_tests.
Qed.
End Removal.


(** A build whose tests pass and that cannot remove the second test
    file: the first one is gone, the third one and the script stay, and
    [build] throws. *)
Example build_missing_file :
  let run := build missingFile sampleConfig startWorld in
  fst run = Throw (DenoError "NotFound" "No such file or directory")
  /\ flat_map removed (trace (snd run)) = ["npm/./esm/mod_test.js"].
Proof. vm_compute. repeat split. Qed.

(** A build that completes: one module, one test file. *)
Example build_sample :
  let run := build (sampleServices true []) sampleConfig startWorld in
  fst run = Ok tt
  /\ flat_map removed (trace (snd run))
     = [ "npm/./esm/mod_test.js"; "npm/./cjs/mod_test.js";
         "npm/./test_runner.js" ]
  /\ flat_map warning (trace (snd run)) = ["[dnt] unused shim"]
  /\ last (trace (snd run)) Close = ConsoleLog "[dnt] Complete!".
Proof. vm_compute. repeat split. Qed.

Lemma testOutput_disjoint_witness :
  testOutputOf plainTransform
               (transform (sampleServices true [])
                          ["mod_test.ts"; "mod.ts"] "deno.ns" None)
  = Some (mkTestOutput ["mod_test.ts"] true []
                       [mkOutputFile "mod_test.ts" "Deno.test(...)"])
  /\ (In (mkOutputFile "mod_test.ts" "Deno.test(...)")
         [mkOutputFile "mod_test.ts" "Deno.test(...)"]
      <-> In (mkOutputFile "mod_test.ts" "Deno.test(...)")
             (files (transform (sampleServices true [])
                               ["mod_test.ts"; "mod.ts"] "deno.ns" None))
          /\ ~ In "mod_test.ts" (map filePath (files plainTransform))).
Proof.
  assert (H : testOutputOf plainTransform
                (transform (sampleServices true [])
                           ["mod_test.ts"; "mod.ts"] "deno.ns" None)
              = Some (mkTestOutput ["mod_test.ts"] true []
                        [mkOutputFile "mod_test.ts" "Deno.test(...)"]))
    by reflexivity.
  split; [exact H|].
  exact (proj1 (testOutput_disjoint _ _ _ H)
               (mkOutputFile "mod_test.ts" "Deno.test(...)")).
Defined.

Lemma testOutput_none_witness :
  (forall f, In f (files plainTransform) ->
             In (filePath f) (map filePath (files plainTransform)))
  /\ testOutputOf plainTransform plainTransform = None.
Proof.
  assert (H : forall f, In f (files plainTransform) ->
                        In (filePath f) (map filePath (files plainTransform))).
  { intros f Hf. apply in_map, Hf. }
  split; [exact H|].
  exact (proj2 (testOutput_none plainTransform plainTransform) H).
Defined.

Lemma shared_dependency_not_dev_witness :
  testOutputOf plainTransform
               (transform (sampleServices true [])
                          ["mod_test.ts"; "mod.ts"] "deno.ns" None)
  = Some (mkTestOutput ["mod_test.ts"] true []
                       [mkOutputFile "mod_test.ts" "Deno.test(...)"])
  /\ In "chalk" (map dep_name (dependencies plainTransform))
  /\ exists dev,
       devDependenciesVal sampleFileUrl sampleLowerCase plainTemplate
         plainTransform
         (Some (mkTestOutput ["mod_test.ts"] true []
                             [mkOutputFile "mod_test.ts" "Deno.test(...)"]))
       = JsObj dev
       /\ lookup "chalk" dev = lastValue "chalk" (userDevEntries plainTemplate).
Proof.
  assert (H : testOutputOf plainTransform
                (transform (sampleServices true [])
                           ["mod_test.ts"; "mod.ts"] "deno.ns" None)
              = Some (mkTestOutput ["mod_test.ts"] true []
                        [mkOutputFile "mod_test.ts" "Deno.test(...)"]))
    by reflexivity.
  assert (Hin : In "chalk" (map dep_name (dependencies plainTransform)))
    by (left; reflexivity).
  split; [exact H|]. split; [exact Hin|].
  exact (shared_dependency_not_dev sampleFileUrl sampleLowerCase plainTemplate
                                   _ _ _ "chalk" H Hin).
Defined.

Lemma warnings_once_witness :
  let run :=
    forEach ["c"; "b"; "a"; "b"; "d"] (warnOnce (sampleServices true []))
            (mkWorld [] ["a"] []) in
  fst run = Ok tt
  /\ warnedMessages (snd run) = ["a"; "c"; "b"; "d"]
  /\ trace (snd run)
     = [ConsoleWarn "[dnt] c"; ConsoleWarn "[dnt] b"; ConsoleWarn "[dnt] d"].
Proof.
  destruct (warnings_once (sampleServices true [])
                          ["c"; "b"; "a"; "b"; "d"] (mkWorld [] ["a"] []))
    as (Hr & fresh & Hw & Ht & _ & _ & Ho).
  split; [exact Hr|]. cbv zeta. rewrite Hw, Ht, Ho. split; reflexivity.
Defined.

Lemma install_failure_stops_build_witness :
  PackageJson.entryPoints (transformOutputIn (sampleServices false [])
                                             sampleConfig) = ["mod.ts"]
  /\ processStatus (sampleServices false [])
                   (getCmd (sampleServices false []) ["install"])
     = (false, 1%Z)
  /\ fst (build (sampleServices false []) sampleConfig startWorld)
     = Throw (Error "npm install failed with exit code 1").
Proof.
  split; [reflexivity|]. split; [reflexivity|].
  exact (proj1 (install_failure_stops_build (sampleServices false [])
                  sampleConfig "mod.ts" [] 1%Z startWorld eq_refl eq_refl)).
Defined.

Lemma diagnostics_stop_build_witness :
  PackageJson.entryPoints (transformOutputIn (sampleServices true ["TS2322"])
                                             sampleConfig) = ["mod.ts"]
  /\ fst (processStatus (sampleServices true ["TS2322"])
                        (getCmd (sampleServices true ["TS2322"]) ["install"]))
     = true
  /\ typeCheck sampleConfig = true
  /\ getPreEmitDiagnostics
       (sampleServices true ["TS2322"])
       (sourceFiles (sampleServices true ["TS2322"]) sampleConfig
                    (transformOutputIn (sampleServices true ["TS2322"])
                                       sampleConfig)
                    (testOutputIn (sampleServices true ["TS2322"])
                                  sampleConfig))
     = ["TS2322"]
  /\ fst (build (sampleServices true ["TS2322"]) sampleConfig startWorld)
     = Exit 1%Z.
Proof.
  split; [reflexivity|]. split; [reflexivity|]. split; [reflexivity|].
  split; [reflexivity|].
  exact (proj1 (diagnostics_stop_build (sampleServices true ["TS2322"])
                  sampleConfig "mod.ts" [] "TS2322" [] startWorld
                  eq_refl eq_refl eq_refl eq_refl)).
Defined.

End BuildExtra.
